(** * background_task.tasks: scheduling, claiming and running background tasks

    A shallow embedding of [background_task/tasks.py]: the [TaskSchedule]
    override structure, [TaskProxy.__call__], [DBTaskRunner] (schedule,
    get_task_to_run, run_next_task), [Tasks.run_task] and [bg_runner].

    Python objects become records, the ORM table of pending tasks becomes a
    list in insertion order, the registry dict [Tasks._tasks] a [gmap], and
    every function that touches the clock, the database, the signals or the
    logger becomes a computation in a state-and-exception monad over
    [World]. *)

From Stdlib Require Import ZArith Lia.
From stdpp Require Import base option list gmap strings pretty.

Local Open Scope string_scope.
Local Open Scope Z_scope.

(** ** Python values, time and exceptions *)

(** Arguments of a task function: the JSON-representable Python values. *)
#[warnings="-register-all"]
Inductive pyval :=
| PNone
| PBool (b : bool)
| PInt (n : Z)
| PStr (s : string)
| PList (l : list pyval).

Definition pyargs := list pyval.
Definition pykwargs := list (string * pyval).

(** [datetime] and [timedelta] are counted in microseconds, the resolution
    of both Python types; a [datetime] is counted from 1970-01-01 00:00. *)
Definition datetime := Z.
Definition timedelta := Z.

(** [timedelta(seconds=n)] *)
Definition timedelta_seconds (n : Z) : timedelta := n * 1000000.

(** The values the two Python types hold: [datetime.min] is 0001-01-01
    00:00 and [datetime.max] is 9999-12-31 23:59:59.999999; [timedelta.min]
    is -999999999 days and [timedelta.max] is 999999999 days
    23:59:59.999999. *)
Definition datetime_min : datetime := -62135596800000000.
Definition datetime_max : datetime := 253402300799999999.
Definition timedelta_min : timedelta := -86399999913600000000.
Definition timedelta_max : timedelta := 86399999999999999999.

Definition in_datetime (t : Z) : bool := (datetime_min <=? t) && (t <=? datetime_max).
Definition in_timedelta (d : Z) : bool := (timedelta_min <=? d) && (d <=? timedelta_max).

(** The exceptions that occur in the module.  [SystemExit] stands for the
    exceptions that derive from [BaseException] but not from [Exception]
    and so pass through [except Exception]. *)
Inductive exn :=
| OperationalError
| IntegrityError
| OverflowError
| BackgroundTaskError (msg : string)
| KeyError (key : string)
| TypeError
| ValueError
| UserError (msg : string)
| SystemExit.

Definition is_Exception (e : exn) : bool :=
  match e with SystemExit => false | _ => true end.

Inductive result (A : Type) :=
| Ok (a : A)
| Raise (e : exn).
Arguments Ok {A} a.
Arguments Raise {A} e.

(** Python truthiness of the values tested with [if x:] and [x or y]. *)
Definition truthy_Z (n : Z) : bool := negb (n =? 0).
Definition truthy_str (s : string) : bool := negb (String.eqb s "").

(** ** The data model *)

(** [background_task.models.Task], one row of the pending table.  [id] is
    [None] until the object is saved. *)
Record Task := mkTask {
  id : option Z;
  task_name : string;
  task_params : string;
  task_hash : string;
  verbose_name : option string;
  priority : Z;
  run_at : datetime;
  repeat : option timedelta;
  repeat_until : option datetime;
  queue : option string;
  attempts : Z;
  last_error : option string;
  locked_by : option string;
  locked_at : option datetime;
  creator : option string
}.

(** The archive entry written when a task reaches a terminal outcome. *)
Record CompletedTask := mkCompletedTask {
  completed_of : Task;
  completed_at : datetime;
  has_error : bool
}.

(** The store: the pending table in insertion order, the append-only
    archive and the primary-key sequence. *)
Record DB := mkDB {
  pending : list Task;
  archive : list CompletedTask;
  next_id : Z
}.

(** A task function: called with positional and keyword arguments, it may
    read and write the store, and returns or raises. *)
Record callable := mkCallable {
  fn_module : string;
  fn_name : string;
  fn_body : pyargs -> pykwargs -> DB -> result pyval * DB
}.

(** ** TaskSchedule *)

Definition SCHEDULE : Z := 0.
Definition RESCHEDULE_EXISTING : Z := 1.
Definition CHECK_EXISTING : Z := 2.

(** What [_run_at] may hold: an [int] (seconds from now), a [timedelta] or
    a [datetime]. *)
Inductive run_at_value :=
| RunAtInt (n : Z)
| RunAtDelta (d : timedelta)
| RunAtAbs (t : datetime).

Record TaskSchedule := mkTaskSchedule {
  _run_at : option run_at_value;
  _priority : option Z;
  _action : option Z
}.

(** The [schedule] argument of [TaskSchedule.create]: nothing, a
    [TaskSchedule], a bare [int], [timedelta] or [datetime], or a mapping
    read with [.get('run_at')], [.get('priority')] and [.get('action')]. *)
Inductive schedule_arg :=
| SchedNone
| SchedInstance (s : TaskSchedule)
| SchedInt (n : Z)
| SchedDelta (d : timedelta)
| SchedAbs (t : datetime)
| SchedDict (r : option run_at_value) (p a : option Z).

(** [if schedule:] -- zero, the zero duration and the empty mapping are
    false.  A mapping is taken by the three values its [.get] calls return;
    one that returns [None] for all three gives the same [TaskSchedule]
    whether it is empty or not. *)
Definition truthy_schedule (schedule : schedule_arg) : bool :=
  match schedule with
  | SchedNone => false
  | SchedInstance _ => true
  | SchedInt n => truthy_Z n
  | SchedDelta d => truthy_Z d
  | SchedAbs _ => true
  | SchedDict r p a => bool_decide (is_Some r) || bool_decide (is_Some p) || bool_decide (is_Some a)
  end.

Definition create (schedule : schedule_arg) : TaskSchedule :=
  match schedule with
  | SchedInstance s => s
  | _ =>
      if truthy_schedule schedule then
        match schedule with
        | SchedInt n => mkTaskSchedule (Some (RunAtInt n)) None None
        | SchedDelta d => mkTaskSchedule (Some (RunAtDelta d)) None None
        | SchedAbs t => mkTaskSchedule (Some (RunAtAbs t)) None None
        | SchedDict r p a => mkTaskSchedule r p a
        | _ => mkTaskSchedule None None None
        end
      else mkTaskSchedule None None None
  end.

(** [value if value is not None else other] for one attribute. *)
Definition merge_attr {A} (value other : option A) : option A :=
  match value with
  | None => other
  | Some _ => value
  end.

Definition merge (self schedule : TaskSchedule) : TaskSchedule :=
  {| _run_at := merge_attr (_run_at self) (_run_at schedule);
     _priority := merge_attr (_priority self) (_priority schedule);
     _action := merge_attr (_action self) (_action schedule) |}.

Definition get_priority (self : TaskSchedule) : Z :=
  match _priority self with
  | Some p => if truthy_Z p then p else 0
  | None => 0
  end.

Definition get_action (self : TaskSchedule) : Z :=
  match _action self with
  | Some a => if truthy_Z a then a else SCHEDULE
  | None => SCHEDULE
  end.

(** ** TaskProxy and the pool *)

Record TaskProxy := mkTaskProxy {
  name : string;
  task_function : option callable;
  schedule : TaskSchedule;
  proxy_queue : option string;
  proxy_remove_existing_tasks : bool
}.

(** [TaskProxy.__init__]: the schedule default is stored as given; the
    clock is not read. *)
Definition TaskProxy_init (name : string) (task_function : callable)
    (schedule : schedule_arg) (queue : option string)
    (remove_existing_tasks : bool) : TaskProxy :=
  {| name := name;
     task_function := Some task_function;
     schedule := create schedule;
     proxy_queue := queue;
     proxy_remove_existing_tasks := remove_existing_tasks |}.

(** A call submitted to the thread pool with [apply_async] and not yet
    picked up by one of its threads. *)
Record Job := mkJob {
  job_proxy : TaskProxy;
  job_task : option Task;
  job_args : pyargs;
  job_kwargs : pykwargs
}.

(** ** The world and its monad *)

(** What an observer sees, in order: the signals of [background_task.signals],
    the entry into a task function, and the log lines. *)
Inductive event :=
| task_created (task : Task)
| task_started
| task_successful (task_id : option Z) (completed_task : CompletedTask)
| task_error (sender : exn) (task : Task)
| task_finished
| invoked (fn : string) (args : pyargs) (kwargs : pykwargs)
| log_info (msg : string) (task : Task)
| log_warning (msg : string)
| log_error (msg : string) (task : Task).

(** [faults] is the plan of the store's availability: every round trip to
    the database consumes its head, and [true] makes that round trip raise
    [OperationalError]; the empty plan is a reachable store.  [pool] is
    [PoolRunner._pool_instance] with the jobs submitted to it. *)
Record World := mkWorld {
  db : DB;
  clock : datetime;
  faults : list bool;
  trace : list event;
  pool : option (list Job)
}.

Definition M (A : Type) : Type := World -> result A * World.

Definition ret {A} (a : A) : M A := fun w => (Ok a, w).

Definition bind {A B} (m : M A) (k : A -> M B) : M B :=
  fun w =>
    match m w with
    | (Ok a, w') => k a w'
    | (Raise e, w') => (Raise e, w')
    end.

Definition raise {A} (e : exn) : M A := fun w => (Raise e, w).

Notation "x <- c1 ;; c2" := (bind c1 (fun x => c2))
  (at level 100, c1 at next level, right associativity).
Notation "c1 ;; c2" := (bind c1 (fun _ => c2))
  (at level 100, right associativity).

(** [try: body  except <classes>: handler]; an exception outside the
    handled classes goes on to the caller. *)
Definition try_except {A} (body : M A) (handles : exn -> bool)
    (handler : exn -> M A) : M A :=
  fun w =>
    match body w with
    | (Ok a, w') => (Ok a, w')
    | (Raise e, w') => if handles e then handler e w' else (Raise e, w')
    end.

Definition set_db (d : DB) (w : World) : World :=
  mkWorld d (clock w) (faults w) (trace w) (pool w).
Definition set_clock (t : datetime) (w : World) : World :=
  mkWorld (db w) t (faults w) (trace w) (pool w).
Definition set_faults (f : list bool) (w : World) : World :=
  mkWorld (db w) (clock w) f (trace w) (pool w).
Definition set_trace (tr : list event) (w : World) : World :=
  mkWorld (db w) (clock w) (faults w) tr (pool w).
Definition set_pool (p : option (list Job)) (w : World) : World :=
  mkWorld (db w) (clock w) (faults w) (trace w) p.

(** [timezone.now()] *)
Definition timezone_now : M datetime := fun w => (Ok (clock w), w).

(** [signal.send(...)] and [logger.<level>(...)] *)
Definition emit (e : event) : M unit :=
  fun w => (Ok tt, set_trace (trace w ++ [e]) w).

Definition get_db : M DB := fun w => (Ok (db w), w).
Definition put_db (d : DB) : M unit := fun w => (Ok tt, set_db d w).

(** One round trip to the database. *)
Definition db_access : M unit :=
  fun w =>
    match faults w with
    | [] => (Ok tt, w)
    | false :: fs => (Ok tt, set_faults fs w)
    | true :: fs => (Raise OperationalError, set_faults fs w)
    end.

(** [timedelta(seconds=n)] on an [int]: the constructor raises
    [OverflowError] when the duration is outside the range of the type. *)
Definition timedelta_of_seconds (n : Z) : M timedelta :=
  if in_timedelta (timedelta_seconds n) then ret (timedelta_seconds n)
  else raise OverflowError.

(** [t + d] on a [datetime] and a [timedelta]: the addition raises
    [OverflowError] when the sum is outside the range of [datetime]. *)
Definition datetime_add (t : datetime) (d : timedelta) : M datetime :=
  if in_datetime (t + d) then ret (t + d) else raise OverflowError.

(** [TaskSchedule.run_at]: [self._run_at or timezone.now()], then the two
    [isinstance] tests.  The branches exclude each other: after the [int]
    branch the value is a [datetime]. *)
Definition get_run_at (self : TaskSchedule) : M datetime :=
  run_at <- match _run_at self with
            | Some (RunAtInt n) =>
                if truthy_Z n then ret (RunAtInt n)
                else now <- timezone_now;; ret (RunAtAbs now)
            | Some (RunAtDelta d) =>
                if truthy_Z d then ret (RunAtDelta d)
                else now <- timezone_now;; ret (RunAtAbs now)
            | Some (RunAtAbs t) => ret (RunAtAbs t)
            | None => now <- timezone_now;; ret (RunAtAbs now)
            end;;
  match run_at with
  | RunAtInt n =>
      now <- timezone_now;;
      d <- timedelta_of_seconds n;;
      datetime_add now d
  | RunAtDelta d =>
      now <- timezone_now;;
      datetime_add now d
  | RunAtAbs t => ret t
  end.

(** ** The Django ORM on the pending table *)

(** A lazy [QuerySet] over [Task] is the row filter it stands for. *)
Definition QuerySet := Task -> bool.

Definition qs_filter_task_hash (h : string) (qs : QuerySet) : QuerySet :=
  fun t => qs t && String.eqb (task_hash t) h.

Definition qs_filter_queue (q : string) (qs : QuerySet) : QuerySet :=
  fun t => qs t && bool_decide (queue t = Some q).

Definition update_row (qs : QuerySet) (f : Task -> Task) (t : Task) : Task :=
  if qs t then f t else t.

Definition set_run_at_priority (r : datetime) (p : Z) (t : Task) : Task :=
  mkTask (id t) (task_name t) (task_params t) (task_hash t) (verbose_name t)
    p r (repeat t) (repeat_until t) (queue t) (attempts t) (last_error t)
    (locked_by t) (locked_at t) (creator t).

(** [qs.update(run_at=..., priority=...)]: one statement that rewrites every
    matching row and returns how many matched.  [run_at] is a NOT NULL
    column: without a [run_at] the statement fails on the first row it would
    write, and when it selects no row it writes nothing and returns 0. *)
Definition qs_update (qs : QuerySet) (run_at : option datetime) (priority : Z)
  : M Z :=
  db_access;;
  d <- get_db;;
  match run_at with
  | None =>
      if existsb qs (pending d) then raise IntegrityError else ret 0
  | Some r =>
      put_db (mkDB (map (update_row qs (set_run_at_priority r priority)) (pending d))
                   (archive d) (next_id d));;
      ret (Z.of_nat (length (List.filter qs (pending d))))
  end.

(** [qs.count()] *)
Definition qs_count (qs : QuerySet) : M Z :=
  db_access;;
  d <- get_db;;
  ret (Z.of_nat (length (List.filter qs (pending d)))).

(** Evaluating a queryset ([bool(qs)], iteration): the matching rows in
    table order. *)
Definition qs_fetch (qs : QuerySet) : M (list Task) :=
  db_access;;
  d <- get_db;;
  ret (List.filter qs (pending d)).

(** [qs.delete()] *)
Definition qs_delete (qs : QuerySet) : M unit :=
  db_access;;
  d <- get_db;;
  put_db (mkDB (List.filter (fun t => negb (qs t)) (pending d))
               (archive d) (next_id d)).

Definition has_id (i : option Z) (t : Task) : bool := bool_decide (id t = i).

Definition set_id (i : option Z) (t : Task) : Task :=
  mkTask i (task_name t) (task_params t) (task_hash t) (verbose_name t)
    (priority t) (run_at t) (repeat t) (repeat_until t) (queue t) (attempts t)
    (last_error t) (locked_by t) (locked_at t) (creator t).

(** [task.save()]: an object without primary key is inserted under the next
    key; one with a key overwrites its row, or is inserted under that key
    when the row is gone.  The object is returned as Python leaves it, with
    its [id] set. *)
Definition save (task : Task) : M Task :=
  db_access;;
  d <- get_db;;
  match id task with
  | None =>
      let task' := set_id (Some (next_id d)) task in
      put_db (mkDB (pending d ++ [task']) (archive d) (next_id d + 1));;
      ret task'
  | Some i =>
      (if existsb (has_id (Some i)) (pending d) then
         put_db (mkDB (map (update_row (has_id (Some i)) (fun _ => task)) (pending d))
                      (archive d) (next_id d))
       else
         put_db (mkDB (pending d ++ [task]) (archive d) (next_id d)));;
      ret task
  end.

(** [task.delete()] *)
Definition delete_task (task : Task) : M unit :=
  qs_delete (has_id (id task)).

(** ** What [tasks.py] imports from the rest of the package *)

(** [json.dumps((args, kwargs), sort_keys=True)] and its inverse, the
    digest that makes the fingerprint, and
    [background_task.settings.app_settings]: the lock lifetime in seconds,
    the number of attempts after which a task is given up, the delay before
    the next attempt, and whether tasks run in the thread pool. *)
Record Env := mkEnv {
  dumps : pyargs -> pykwargs -> string;
  loads : string -> option (pyargs * pykwargs);
  digest : string -> string -> string;
  BACKGROUND_TASK_MAX_RUN_TIME : Z;
  BACKGROUND_TASK_MAX_ATTEMPTS : Z;
  backoff : Z -> timedelta;
  BACKGROUND_TASK_RUN_ASYNC : bool
}.

(** Modelled from the spec: [Task.objects.unlocked(now)] of
    [background_task/models.py] -- a record is unlocked when [locked_by] is
    null or its lock is older than the configured lifetime. *)
Definition unlocked (env : Env) (now : datetime) : QuerySet :=
  fun t =>
    match locked_by t with
    | None => true
    | Some _ =>
        match locked_at t with
        | Some at_ => at_ <? now - timedelta_seconds (BACKGROUND_TASK_MAX_RUN_TIME env)
        | None => false
        end
    end.

(** Modelled from the spec: [Task.objects.new_task] of
    [background_task/models.py] -- builds the unsaved record with the
    serialized params and their fingerprint, [run_at] defaulting to now;
    with [remove_existing_tasks] it first deletes the unlocked records of
    the same fingerprint. *)
Definition new_task (env : Env) (task_name : string) (args : pyargs) (kwargs : pykwargs)
    (run_at : option datetime) (priority : Z) (queue verbose_name creator : option string)
    (repeat : option timedelta) (repeat_until : option datetime)
    (remove_existing_tasks : bool) : M Task :=
  now <- timezone_now;;
  let task_params := dumps env args kwargs in
  let task_hash := digest env task_name task_params in
  (if remove_existing_tasks
   then qs_delete (qs_filter_task_hash task_hash (unlocked env now))
   else ret tt);;
  ret (mkTask None task_name task_params task_hash verbose_name priority
         (default now run_at) repeat repeat_until queue 0 None None None creator).

(** Modelled from the spec: [Task.objects.get_task] of
    [background_task/models.py] -- the records with the fingerprint of
    [(task_name, args, kwargs)]. *)
Definition get_task (env : Env) (task_name : string) (args : pyargs) (kwargs : pykwargs)
  : QuerySet :=
  qs_filter_task_hash (digest env task_name (dumps env args kwargs)) (fun _ => true).

(** Modelled from the spec: [Task.params()] of [background_task/models.py]
    -- the positional and keyword arguments deserialized from the stored
    params. *)
Definition params (env : Env) (task : Task) : M (pyargs * pykwargs) :=
  match loads env (task_params task) with
  | Some p => ret p
  | None => raise ValueError
  end.

(** Modelled from the spec: the ordering of [find_available] of
    [background_task/models.py] -- candidates come by priority descending,
    then [run_at] ascending, then insertion order.  [runs_before a b] holds
    when [a] is not behind [b] by priority and [run_at]; [insert_by_order]
    puts a record in front of the first one it is not behind, so that, the
    earlier records being inserted last, ties stay in insertion order. *)
Definition runs_before (a b : Task) : bool :=
  (priority b <? priority a) ||
  ((priority a =? priority b) && (run_at a <=? run_at b)).

Fixpoint insert_by_order (t : Task) (l : list Task) : list Task :=
  match l with
  | [] => [t]
  | x :: l' => if runs_before t x then t :: x :: l' else x :: insert_by_order t l'
  end.

Definition order_by_priority_run_at (l : list Task) : list Task :=
  foldr insert_by_order [] l.

Definition truthy_queue (queue : option string) : bool :=
  match queue with
  | Some q => truthy_str q
  | None => false
  end.

(** Modelled from the spec: [Task.objects.find_available(queue)] of
    [background_task/models.py] -- the records with [run_at <= now], of the
    queue if one is given, unlocked or with an expired lock, in claim
    order. *)
Definition find_available (env : Env) (queue : option string) : M (list Task) :=
  now <- timezone_now;;
  let qs := unlocked env now in
  let qs := match queue with
            | Some q => if truthy_str q then qs_filter_queue q qs else qs
            | None => qs
            end in
  ready <- qs_fetch (fun t => qs t && (run_at t <=? now));;
  ret (order_by_priority_run_at ready).

Definition set_lock (by_ : option string) (at_ : option datetime) (t : Task) : Task :=
  mkTask (id t) (task_name t) (task_params t) (task_hash t) (verbose_name t)
    (priority t) (run_at t) (repeat t) (repeat_until t) (queue t) (attempts t)
    (last_error t) by_ at_ (creator t).

(** Modelled from the spec: [Task.lock(locked_by)] of
    [background_task/models.py] -- one conditional update that sets
    [locked_by] and [locked_at = now] on the record if it is still unlocked
    or lock-expired; the locked record when exactly one row was affected,
    otherwise nothing. *)
Definition lock (env : Env) (task : Task) (locked_by : string) : M (option Task) :=
  now <- timezone_now;;
  db_access;;
  d <- get_db;;
  let qs := fun t => unlocked env now t && has_id (id task) t in
  match List.filter qs (pending d) with
  | [row] =>
      let locked := set_lock (Some locked_by) (Some now) row in
      put_db (mkDB (map (update_row qs (fun _ => locked)) (pending d))
                   (archive d) (next_id d));;
      ret (Some locked)
  | _ => ret None
  end.

Definition set_attempts (n : Z) (t : Task) : Task :=
  mkTask (id t) (task_name t) (task_params t) (task_hash t) (verbose_name t)
    (priority t) (run_at t) (repeat t) (repeat_until t) (queue t) n
    (last_error t) (locked_by t) (locked_at t) (creator t).

Definition set_failure (err : string) (r : datetime) (t : Task) : Task :=
  mkTask (id t) (task_name t) (task_params t) (task_hash t) (verbose_name t)
    (priority t) r (repeat t) (repeat_until t) (queue t) (attempts t)
    (Some err) None None (creator t).

(** Modelled from the spec: [Task.increment_attempts()] of
    [background_task/models.py] -- one more attempt, persisted. *)
Definition increment_attempts (task : Task) : M Task :=
  save (set_attempts (attempts task + 1) task).

(** Modelled from the spec: the write of a CompletedRecord in
    [background_task/models.py] -- a snapshot of the task with the time of
    completion and the error flag, appended to the archive. *)
Definition archive_task (task : Task) (has_error : bool) : M CompletedTask :=
  now <- timezone_now;;
  db_access;;
  d <- get_db;;
  let completed := mkCompletedTask task now has_error in
  put_db (mkDB (pending d) (archive d ++ [completed]) (next_id d));;
  ret completed.

(** Modelled from the spec: [Task.create_completed_task()] of
    [background_task/models.py] -- the archive entry of a success. *)
Definition create_completed_task (task : Task) : M CompletedTask :=
  archive_task task false.

(** Modelled from the spec: [Task.create_repetition()] of
    [background_task/models.py] -- when [repeat] is set and [repeat_until]
    is unset or not before [run_at + repeat], a new record with the same
    name, params, priority and queue and [run_at + repeat]. *)
Definition create_repetition (task : Task) : M (option Task) :=
  match repeat task with
  | None => ret None
  | Some every =>
      let next_run := run_at task + every in
      if match repeat_until task with
         | None => true
         | Some until => next_run <=? until
         end
      then
        t <- save (mkTask None (task_name task) (task_params task) (task_hash task)
                     (verbose_name task) (priority task) next_run (repeat task)
                     (repeat_until task) (queue task) 0 None None None (creator task));;
        ret (Some t)
      else ret None
  end.

Definition error_text (e : exn) : string :=
  match e with
  | OperationalError => "OperationalError"
  | IntegrityError => "IntegrityError"
  | OverflowError => "OverflowError"
  | BackgroundTaskError msg => msg
  | KeyError key => key
  | TypeError => "TypeError"
  | ValueError => "ValueError"
  | UserError msg => msg
  | SystemExit => "SystemExit"
  end.

(** Modelled from the spec: [Task.reschedule(type, err, traceback)] of
    [background_task/models.py] -- one more attempt and the error text;
    below the maximum of attempts the record gets [run_at = now + delay],
    loses its lock and is persisted, otherwise it is archived with
    [has_error] and deleted. *)
Definition reschedule (env : Env) (task : Task) (e : exn) : M unit :=
  now <- timezone_now;;
  let task := set_attempts (attempts task + 1) task in
  if attempts task <? BACKGROUND_TASK_MAX_ATTEMPTS env then
    save (set_failure (error_text e) (now + backoff env (attempts task)) task);;
    ret tt
  else
    archive_task (set_failure (error_text e) (run_at task) task) true;;
    delete_task task.

(** ** [tasks.py] *)

(** The outcome of the [try] block of [bg_runner]: it ran to its end, or it
    raised with the local variable [task] holding the given value. *)
Inductive try_outcome :=
| Completed
| Raised (e : exn) (task : option Task).

(** One statement of the [try] block: an exception leaves the block with
    the current [task]. *)
Definition attempt {A} (task : option Task) (m : M A)
    (k : A -> M try_outcome) : M try_outcome :=
  fun w =>
    match m w with
    | (Ok a, w') => k a w'
    | (Raise e, w') => (Ok (Raised e task), w')
    end.

Notation "x <-[ task ]- c1 ;; c2" := (attempt task c1 (fun x => c2))
  (at level 100, c1 at next level, right associativity).

(** The call of the task function on the unpacked [args] and [kwargs]: the
    function runs on the store. *)
Definition call (func : callable) (args : pyargs) (kwargs : pykwargs) : M pyval :=
  emit (invoked (fn_name func) args kwargs);;
  fun w =>
    let '(r, d) := fn_body func args kwargs (db w) in
    (r, set_db d w).

(** The success bookkeeping of [bg_runner], under [if task:]. *)
Definition task_done (task : Task) : M try_outcome :=
  task <-[ Some task ]- increment_attempts task;;
  completed <-[ Some task ]- create_completed_task task;;
  _ <-[ Some task ]- emit (task_successful (id task) completed);;
  _ <-[ Some task ]- create_repetition task;;
  _ <-[ Some task ]- delete_task task;;
  _ <-[ Some task ]- emit (log_info "Ran task and deleting" task);;
  ret Completed.

(** The queryset [task_qs] of [bg_runner]: the records of the proxy's name
    and the given arguments, of the proxy's queue when it has one. *)
Definition bg_runner_task_qs (env : Env) (proxy_task : TaskProxy)
    (args : pyargs) (kwargs : pykwargs) : QuerySet :=
  let task_name := name proxy_task in
  let task_queue := proxy_queue proxy_task in
  let task_qs := get_task env task_name args kwargs in
  match task_queue with
  | Some q => if truthy_str q then qs_filter_queue q task_qs else task_qs
  | None => task_qs
  end.

(** The head of the [try] block: the arguments come from the Task when one
    is given, and otherwise the Task is looked up from the arguments. *)
Definition bg_runner_resolve (env : Env) (proxy_task : TaskProxy) (task : option Task)
    (args : pyargs) (kwargs : pykwargs) : M (option Task * pyargs * pykwargs) :=
  match task with
  | Some t =>
      p <- params env t;;
      ret (Some t, p.1, p.2)
  | None =>
      let task_qs := bg_runner_task_qs env proxy_task args kwargs in
      rows <- qs_fetch task_qs;;
      ret (head rows, args, kwargs)
  end.

(** The rest of the [try] block: the call of the function and, under
    [if task:], the bookkeeping.  A [Task] instance is true, [None] is
    false. *)
Definition bg_runner_apply (func : option callable) (task : option Task)
    (args : pyargs) (kwargs : pykwargs) : M try_outcome :=
  match func with
  | None => ret (Raised (BackgroundTaskError "Function is None, can't execute!") task)
  | Some func =>
      _ <-[ task ]- call func args kwargs;;
      match task with
      | Some t => task_done t
      | None => ret Completed
      end
  end.

Definition bg_runner_try (env : Env) (proxy_task : TaskProxy) (task : option Task)
    (args : pyargs) (kwargs : pykwargs) : M try_outcome :=
  let func := task_function proxy_task in
  resolved <-[ task ]- bg_runner_resolve env proxy_task task args kwargs;;
  let '(task, args, kwargs) := resolved in
  bg_runner_apply func task args kwargs.

(** The [except Exception] handler of [bg_runner]; an exception that is not
    an [Exception] leaves [bg_runner]. *)
Definition bg_runner_except (env : Env) (e : exn) (task : option Task) : M unit :=
  if is_Exception e then
    match task with
    | Some t =>
        emit (log_error "Rescheduling" t);;
        emit (task_error e t);;
        reschedule env t e
    | None => ret tt
    end
  else raise e.

Definition bg_runner (env : Env) (proxy_task : TaskProxy) (task : option Task)
    (args : pyargs) (kwargs : pykwargs) : M unit :=
  emit task_started;;
  outcome <- bg_runner_try env proxy_task task args kwargs;;
  match outcome with
  | Completed => ret tt
  | Raised e task => bg_runner_except env e task
  end;;
  emit task_finished.

(** [PoolRunner.run]: the pool is created on first use and the call is
    handed to it. *)
Definition PoolRunner_run (proxy_task : TaskProxy) (task : option Task)
    (args : pyargs) (kwargs : pykwargs) : M unit :=
  fun w =>
    (Ok tt, set_pool (Some (default [] (pool w) ++ [mkJob proxy_task task args kwargs])%list) w).

Record DBTaskRunner := mkDBTaskRunner {
  worker_name : string
}.

Record Tasks := mkTasks {
  _tasks : gmap string TaskProxy;
  _runner : DBTaskRunner
}.

(** [Tasks.background(name, schedule, queue, remove_existing_tasks)(fn)]:
    the decorator registers the proxy under the given name, or under
    [module.name] of the function. *)
Definition background (self : Tasks) (name : option string) (schedule : schedule_arg)
    (queue : option string) (remove_existing_tasks : bool) (fn : callable)
  : TaskProxy * Tasks :=
  let _name := match name with
               | Some n => if truthy_str n then n else fn_module fn +:+ "." +:+ fn_name fn
               | None => fn_module fn +:+ "." +:+ fn_name fn
               end in
  let proxy := TaskProxy_init _name fn schedule queue remove_existing_tasks in
  (proxy, mkTasks (<[_name := proxy]> (_tasks self)) (_runner self)).

(** The first argument of [Tasks.run_task]: the name of a task or a [Task]
    instance. *)
Inductive task_ref :=
| ByName (task_name : string)
| ByTask (task : Task).

Definition Tasks_run_task (env : Env) (self : Tasks) (task_or_name : task_ref)
    (args : option pyargs) (kwargs : option pykwargs) : M unit :=
  let '(task, name_, args, kwargs) :=
    match task_or_name with
    | ByTask task => (Some task, task_name task, Some [], Some [])
    | ByName n => (None, n, args, kwargs)
    end in
  match _tasks self !! name_ with
  | None => raise (KeyError name_)
  | Some proxy_task =>
      match args, kwargs with
      | Some args, Some kwargs =>
          if BACKGROUND_TASK_RUN_ASYNC env
          then PoolRunner_run proxy_task task args kwargs
          else bg_runner env proxy_task task args kwargs
      | _, _ => raise TypeError
      end
  end.

(** The queryset [existing] of [DBTaskRunner.schedule]: the unlocked records
    with the fingerprint, of the queue when one is given. *)
Definition existing_tasks (env : Env) (now : datetime) (task_hash : string)
    (queue : option string) : QuerySet :=
  let unlocked := unlocked env now in
  let existing := qs_filter_task_hash task_hash unlocked in
  if truthy_queue queue
  then qs_filter_queue (default "" queue) existing
  else existing.

Definition DBTaskRunner_schedule (env : Env) (self : DBTaskRunner) (task_name : string)
    (args : pyargs) (kwargs : pykwargs) (run_at : option datetime) (priority : Z)
    (action : Z) (queue verbose_name creator : option string)
    (repeat : option timedelta) (repeat_until : option datetime)
    (remove_existing_tasks : bool) : M (option Task) :=
  task <- new_task env task_name args kwargs run_at priority queue verbose_name
            creator repeat repeat_until remove_existing_tasks;;
  let insert :=
    task <- save task;;
    emit (task_created task);;
    ret (Some task) in
  if negb (action =? SCHEDULE) then
    let task_hash := task_hash task in
    now <- timezone_now;;
    let existing := existing_tasks env now task_hash queue in
    if action =? RESCHEDULE_EXISTING then
      updated <- qs_update existing run_at priority;;
      if truthy_Z updated then ret None else insert
    else if action =? CHECK_EXISTING then
      n <- qs_count existing;;
      if truthy_Z n then ret None else insert
    else insert
  else insert.

Fixpoint lock_first (env : Env) (self : DBTaskRunner) (available_tasks : list Task)
  : M (option Task) :=
  match available_tasks with
  | [] => ret None
  | task :: rest =>
      locked_task <- lock env task (worker_name self);;
      match locked_task with
      | Some t => ret (Some t)
      | None => lock_first env self rest
      end
  end.

(** The [try] block of [get_task_to_run]. *)
Definition get_task_to_run_try (env : Env) (self : DBTaskRunner) (tasks : Tasks)
    (queue : option string) : M (option Task) :=
  found <- find_available env queue;;
  let available_tasks :=
    take 5 (List.filter (fun task => bool_decide (is_Some (_tasks tasks !! task_name task)))
              found) in
  lock_first env self available_tasks.

Definition get_task_to_run (env : Env) (self : DBTaskRunner) (tasks : Tasks)
    (queue : option string) : M (option Task) :=
  try_except (get_task_to_run_try env self tasks queue)
    (fun e => match e with OperationalError => true | _ => false end)
    (fun _ =>
       emit (log_warning "Failed to retrieve tasks. Database unreachable.");;
       ret None).

Definition DBTaskRunner_run_task (env : Env) (self : DBTaskRunner) (tasks : Tasks) (task : Task)
  : M unit :=
  emit (log_info "Running" task);;
  Tasks_run_task env tasks (ByTask task) None None.

(** [if task:] -- a [Task] instance is true, [None] is false. *)
Definition run_next_task (env : Env) (self : DBTaskRunner) (tasks : Tasks)
    (queue : option string) : M bool :=
  task <- get_task_to_run env self tasks queue;;
  match task with
  | Some task =>
      DBTaskRunner_run_task env self tasks task;;
      ret true
  | None => ret false
  end.

Definition Tasks_run_next_task (env : Env) (self : Tasks) (queue : option string) : M bool :=
  run_next_task env (_runner self) self queue.

(** The keyword arguments that [TaskProxy.__call__] pops; an outer [None]
    is an absent key, and [rest] is what is left for the task function. *)
Record call_kwargs := mkCallKwargs {
  kw_schedule : schedule_arg;
  kw_priority : option Z;
  kw_queue : option (option string);
  kw_verbose_name : option string;
  kw_creator : option string;
  kw_repeat : option timedelta;
  kw_repeat_until : option datetime;
  kw_remove_existing_tasks : option bool;
  kw_rest : pykwargs
}.

Definition TaskProxy_call (env : Env) (self : TaskProxy) (runner : DBTaskRunner)
    (args : pyargs) (kwargs : call_kwargs) : M (option Task) :=
  let schedule_ := kw_schedule kwargs in
  let schedule_ := merge (create schedule_) (schedule self) in
  run_at <- get_run_at schedule_;;
  let priority := default (get_priority schedule_) (kw_priority kwargs) in
  let action := get_action schedule_ in
  let queue := default (proxy_queue self) (kw_queue kwargs) in
  let verbose_name := kw_verbose_name kwargs in
  let creator := kw_creator kwargs in
  let repeat := kw_repeat kwargs in
  let repeat_until := kw_repeat_until kwargs in
  let remove_existing_tasks :=
    default (proxy_remove_existing_tasks self) (kw_remove_existing_tasks kwargs) in
  DBTaskRunner_schedule env runner (name self) args (kw_rest kwargs) (Some run_at)
    priority action queue verbose_name creator repeat repeat_until
    remove_existing_tasks.

(** ** The normalization of [run_at] in the words of the specification *)

(** An absolute timestamp is passed through, an integer or a duration is an
    offset from [now], and an absent [run_at] is [now]. *)
Definition normalized_run_at (run_at : option run_at_value) (now : datetime)
  : datetime :=
  match run_at with
  | Some (RunAtAbs t) => t
  | Some (RunAtInt n) => now + timedelta_seconds n
  | Some (RunAtDelta d) => now + d
  | None => now
  end.

(** The offsets that Python can add to [now]: an integer other than zero
    must give a [timedelta], and the sum of [now] and an offset other than
    zero must give a [datetime].  Nothing is computed for a zero offset, an
    absolute timestamp or an absent [run_at]. *)
Definition representable (run_at : option run_at_value) (now : datetime) : bool :=
  match run_at with
  | Some (RunAtInt n) =>
      negb (truthy_Z n)
      || (in_timedelta (timedelta_seconds n) && in_datetime (now + timedelta_seconds n))
  | Some (RunAtDelta d) => negb (truthy_Z d) || in_datetime (now + d)
  | Some (RunAtAbs _) | None => true
  end.

(** ** Sample data *)

Module Sample.

Fixpoint show (v : pyval) : string :=
  match v with
  | PNone => "null"
  | PBool true => "true"
  | PBool false => "false"
  | PInt n => pretty n
  | PStr s => "'" +:+ s +:+ "'"
  | PList l =>
      "[" +:+ (fix items (l : list pyval) : string :=
                 match l with
                 | [] => ""
                 | x :: r => show x +:+ "," +:+ items r
                 end) l +:+ "]"
  end.

Definition show_kwargs (kwargs : pykwargs) : string :=
  foldr (fun kv acc => kv.1 +:+ ":" +:+ show kv.2 +:+ "," +:+ acc) "" kwargs.

Definition dumps (args : pyargs) (kwargs : pykwargs) : string :=
  "[" +:+ show (PList args) +:+ ",{" +:+ show_kwargs kwargs +:+ "}]".

(** A decoder for the two argument lists the samples use. *)
Definition loads (s : string) : option (pyargs * pykwargs) :=
  if String.eqb s (dumps [] []) then Some ([], [])
  else if String.eqb s (dumps [PInt 7] [("k", PStr "v")])
       then Some ([PInt 7], [("k", PStr "v")])
       else None.

Definition env (run_async : bool) : Env :=
  mkEnv dumps loads
    (fun task_name task_params => task_name +:+ task_params)
    3600 25
    (fun attempts => timedelta_seconds (5 + attempts * attempts * attempts * attempts))
    run_async.

Definition runner : DBTaskRunner := {| worker_name := "4711" |}.

(** A task function that returns, and one that raises. *)
Definition notify : callable :=
  {| fn_module := "app.tasks"; fn_name := "notify";
     fn_body := fun _ _ d => (Ok PNone, d) |}.

Definition broken : callable :=
  {| fn_module := "app.tasks"; fn_name := "broken";
     fn_body := fun _ _ d => (Raise (UserError "boom"), d) |}.

Definition empty_tasks : Tasks := {| _tasks := ∅; _runner := runner |}.

(** [@background(schedule=60)] on [notify]. *)
Definition notify_proxy : TaskProxy :=
  (background empty_tasks None (SchedInt 60) None false notify).1.

Definition tasks : Tasks :=
  (background empty_tasks None (SchedInt 60) None false notify).2.

(** An empty, reachable store at clock [t]. *)
Definition world (t : datetime) : World :=
  {| db := mkDB [] [] 1; clock := t; faults := []; trace := []; pool := None |}.

Definition no_kwargs : call_kwargs :=
  mkCallKwargs SchedNone None None None None None None None [].

Definition with_schedule (s : schedule_arg) : call_kwargs :=
  mkCallKwargs s None None None None None None None [].

Definition after {A} (m : M A) (w : World) : World := (m w).2.

(** The [run_at] of the task a schedule call returned. *)
Definition scheduled_run_at (r : result (option Task) * World) : option datetime :=
  match r.1 with
  | Ok (Some t) => Some (run_at t)
  | _ => None
  end.

(** A schedule call for [notify] without arguments, on the default queue. *)
Definition schedule_call (action : Z) (run_at : datetime) (priority : Z)
  : M (option Task) :=
  DBTaskRunner_schedule (env false) runner "app.tasks.notify" [] [] (Some run_at) priority
    action None None None None None false.

Definition notify_fingerprint : string :=
  digest (env false) "app.tasks.notify" (dumps [] []).

(** The store after one, and after two, plain SCHEDULE calls. *)
Definition one_pending : World := after (schedule_call SCHEDULE 10 0) (world 100).

Definition two_pending : World := after (schedule_call SCHEDULE 10 0) one_pending.

(** The store when the pending task has come due. *)
Definition due : World := set_clock 200000000 one_pending.

(** The world the claim step leaves when it runs in [due]. *)
Definition after_claim : World :=
  (get_task_to_run (env false) runner tasks None due).2.

(** The pending task as the claim step locks it. *)
Definition locked_task : Task :=
  mkTask (Some 1) "app.tasks.notify" (dumps [] []) notify_fingerprint None 0 10
    None None None 0 None (Some "4711") (Some 200000000) None.

(** The store is reachable for the candidate selection and gone at the
    lock. *)
Definition outage_at_lock : World := set_faults [false; true] due.

Definition broken_proxy : TaskProxy :=
  TaskProxy_init "app.tasks.broken" broken SchedNone None false.

(** Two pending tasks of priority 1 and 5, both due. *)
Definition two_priorities : World :=
  set_clock 500 (after (schedule_call SCHEDULE 10 5)
                   (after (schedule_call SCHEDULE 10 1) (world 100))).

End Sample.

(** ** Observations on stores and traces *)

(** The fingerprint of a schedule request. *)
Definition fingerprint (env : Env) (task_name : string) (args : pyargs)
    (kwargs : pykwargs) : string :=
  digest env task_name (dumps env args kwargs).

(** The pending records with a fingerprint. *)
Definition with_fingerprint (h : string) (l : list Task) : list Task :=
  List.filter (fun t => String.eqb (task_hash t) h) l.

(** No record with the fingerprint holds a lock, and each lies in the queue
    when one is given: the records with the fingerprint are then exactly
    the ones a dedup action sees. *)
Definition in_queue (q : option string) (t : Task) : Prop := queue t = q.

Definition dedup_visible (h : string) (queue : option string) (l : list Task) : Prop :=
  forall t, In t (with_fingerprint h l) ->
    locked_by t = None /\
    (truthy_queue queue = true -> in_queue queue t).

(** The pending table as [new_task] leaves it: without the unlocked records
    of the fingerprint when [remove_existing_tasks] is set. *)
Definition without_removed (env : Env) (now : datetime) (h : string)
    (remove_existing_tasks : bool) (l : list Task) : list Task :=
  if remove_existing_tasks
  then List.filter (fun t => negb (qs_filter_task_hash h (unlocked env now) t)) l
  else l.

(** The name under which [Tasks.run_task] looks its first argument up. *)
Definition ref_name (r : task_ref) : string :=
  match r with
  | ByName n => n
  | ByTask t => task_name t
  end.

(** The Task record [bg_runner] works on: the instance it is given, or
    else the first pending record of the proxy's name and the arguments. *)
Definition attached_task (env : Env) (proxy_task : TaskProxy) (task : option Task)
    (args : pyargs) (kwargs : pykwargs) (w : World) : option Task :=
  match task with
  | Some t => Some t
  | None => head (List.filter (bg_runner_task_qs env proxy_task args kwargs)
                    (pending (db w)))
  end.

(** The arguments [bg_runner] calls the function on: the params of the Task
    instance it is given, or else the arguments it is given. *)
Definition call_arguments (env : Env) (task : option Task)
    (args : pyargs) (kwargs : pykwargs) : option (pyargs * pykwargs) :=
  match task with
  | Some t => loads env (task_params t)
  | None => Some (args, kwargs)
  end.

(** A computation whose only exception is the store's. *)
Definition raises_only_OperationalError {A} (m : M A) : Prop :=
  forall w e w', m w = (Raise e, w') -> e = OperationalError.

Definition is_outcome_signal (e : event) : bool :=
  match e with
  | task_successful _ _ => true
  | task_error _ _ => true
  | _ => false
  end.

Definition is_invocation (e : event) : bool :=
  match e with
  | invoked _ _ _ => true
  | _ => false
  end.

Definition is_start (e : event) : bool :=
  match e with
  | task_started => true
  | _ => false
  end.

Definition is_finish (e : event) : bool :=
  match e with
  | task_finished => true
  | _ => false
  end.

(** A computation that only talks to the store: it sends no signal and
    writes no log line, and on a reachable store it returns and leaves the
    store reachable. *)
Definition store_only {A} (m : M A) : Prop :=
  forall w,
    trace (m w).2 = trace w /\
    (faults w = [] -> faults (m w).2 = [] /\ exists a, (m w).1 = Ok a).

(** A computation all of whose events satisfy [P]. *)
Definition emits (P : event -> bool) {A} (m : M A) : Prop :=
  forall w, exists tr, trace (m w).2 = (trace w ++ tr)%list /\ forallb P tr = true.

(** The events a computation adds to the trace of the world it runs in. *)
Definition emitted {A} (m : M A) (w : World) : list event :=
  drop (length (trace w)) (trace (m w).2).

Definition is_internal (e : event) : bool := negb (is_start e || is_finish e).


Definition count_of (p : event -> bool) (tr : list event) : nat :=
  length (List.filter p tr).


(** ** [autodiscover] *)

(** What [import_module] does for one module name: it imports the module,
    or raises [ImportError], or raises something else. *)
Inductive import_result :=
| Imported
| ImportError
| ImportFailed (e : exn).

(** [list.remove(x)]: the list without the first occurrence of [x]. *)
Fixpoint list_remove (x : string) (l : list string) : list string :=
  match l with
  | [] => []
  | y :: rest => if String.eqb y x then rest else y :: list_remove x rest
  end.

(** ["%s.tasks" % app] *)
Definition tasks_module (app : string) : string := app +:+ ".tasks".

(** The [for] loop of [autodiscover]: the module names handed to
    [import_module], in order, and how the loop ends.  An [ImportError] is
    skipped; any other exception ends the loop and goes on to the caller. *)
Fixpoint import_each (import_module : string -> import_result) (apps : list string)
  : list string * result unit :=
  match apps with
  | [] => ([], Ok tt)
  | app :: rest =>
      match import_module (tasks_module app) with
      | Imported | ImportError =>
          let '(tried, r) := import_each import_module rest in
          (tasks_module app :: tried, r)
      | ImportFailed e => ([tasks_module app], Raise e)
      end
  end.

Definition autodiscover (INSTALLED_APPS : list string)
    (import_module : string -> import_result) : list string * result unit :=
  let installed_apps := INSTALLED_APPS in
  let installed_apps :=
    if existsb (fun app => String.eqb app "report_builder") installed_apps
    then list_remove "report_builder" installed_apps
    else installed_apps in
  import_each import_module installed_apps.

(** ** Further observations *)

(** The schedule without any override. *)
Definition no_schedule : TaskSchedule := mkTaskSchedule None None None.

(** The bare forms of the [schedule] argument: an [int], a [timedelta] or a
    [datetime]. *)
Definition is_bare (schedule : schedule_arg) : bool :=
  match schedule with
  | SchedInt _ | SchedDelta _ | SchedAbs _ => true
  | _ => false
  end.

(** A computation that keeps a property [I] of worlds, whether it returns
    or raises, and whose returned value satisfies [Q]. *)
Definition keeps (I : World -> Prop) {A} (m : M A) (Q : A -> Prop) : Prop :=
  forall w, I w -> I (m w).2 /\ forall a, (m w).1 = Ok a -> Q a.

(** The record [t] is pending and the clock shows [c]. *)
Definition pending_at (t : Task) (c : datetime) (w : World) : Prop :=
  clock w = c /\ In t (pending (db w)).

(** A computation that makes at most [n] round trips to the database. *)
Definition spends (n : nat) {A} (m : M A) : Prop :=
  forall w,
    (length (faults (m w).2) <= length (faults w))%nat /\
    (length (faults w) <= length (faults (m w).2) + n)%nat.

(** A task function whose exceptions all derive from [Exception]. *)
Definition raises_only_Exceptions (func : callable) : Prop :=
  forall args kwargs d e d',
    fn_body func args kwargs d = (Raise e, d') -> is_Exception e = true.

(** The decoder undoes the encoder on these arguments. *)
Definition round_trips (env : Env) (args : pyargs) (kwargs : pykwargs) : Prop :=
  loads env (dumps env args kwargs) = Some (args, kwargs).

(** ** Further sample data *)

Module Cases.

(** The record that the first plain schedule call of [Sample] inserts. *)
Definition first_task : Task :=
  mkTask (Some 1) "app.tasks.notify" (Sample.dumps [] []) Sample.notify_fingerprint
    None 0 10 None None None 0 None None None None.

(** A registered default with a priority and a dedup action. *)
Definition registered : TaskSchedule :=
  mkTaskSchedule (Some (RunAtInt 60)) (Some 5) (Some CHECK_EXISTING).

(** Three installed apps: one whose tasks module imports, the report
    builder, and one without a tasks module; and a list with an app whose
    tasks module is broken. *)
Definition installed_apps : list string := ["shop"; "report_builder"; "blog"].

Definition broken_apps : list string := ["shop"; "bad"; "blog"].

Definition import_module (module_name : string) : import_result :=
  if String.eqb module_name "shop.tasks" then Imported
  else if String.eqb module_name "bad.tasks" then ImportFailed (UserError "syntax")
       else ImportError.

End Cases.

(** * Properties *)

(** ** Schedules *)

Lemma get_run_at_normalized (self : TaskSchedule) (w : World) :
  get_run_at self w
  = (if representable (_run_at self) (clock w)
     then Ok (normalized_run_at (_run_at self) (clock w))
     else Raise OverflowError, w).
Proof.
  unfold get_run_at, representable, normalized_run_at, timedelta_of_seconds, datetime_add,
    bind, ret, raise, timezone_now.
  destruct (_run_at self) as [[n|d|t]|]; try reflexivity.
  - unfold truthy_Z. destruct (Z.eqb_spec n 0) as [->|Hn]; simpl.
    + unfold timedelta_seconds. do 2 f_equal. lia.
    + destruct (in_timedelta (timedelta_seconds n)); simpl; [|reflexivity].
      destruct (in_datetime (clock w + timedelta_seconds n)); reflexivity.
  - unfold truthy_Z. destruct (Z.eqb_spec d 0) as [->|Hd]; simpl.
    + do 2 f_equal. lia.
    + destruct (in_datetime (clock w + d)); reflexivity.
Qed.

(** Each attribute of the merged schedule is the override's when the
    override has one, and the default's otherwise; the two inputs are
    values and stay what they were. *)
Lemma merge_precedence (override default_ : TaskSchedule) :
  (forall r, _run_at override = Some r -> _run_at (merge override default_) = Some r) /\
  (forall p, _priority override = Some p -> _priority (merge override default_) = Some p) /\
  (forall a, _action override = Some a -> _action (merge override default_) = Some a) /\
  (_run_at override = None -> _run_at (merge override default_) = _run_at default_) /\
  (_priority override = None -> _priority (merge override default_) = _priority default_) /\
  (_action override = None -> _action (merge override default_) = _action default_).
Proof.
  unfold merge, merge_attr; simpl.
  repeat split; intros; repeat match goal with H : _ = _ |- _ => rewrite H end; reflexivity.
Qed.

Lemma global_defaults (w : World) :
  get_run_at (mkTaskSchedule None None None) w = (Ok (clock w), w) /\
  get_priority (mkTaskSchedule None None None) = 0 /\
  get_action (mkTaskSchedule None None None) = SCHEDULE.
Proof. repeat split. Qed.

(** C8, as the code has it: schedule-time normalization of [run_at].  The
    [run_at] property passes an absolute timestamp through and gives [now]
    for an absent value; it turns an integer [n] into [now + n] seconds and
    a duration [d] into [now + d] when the offset is a [timedelta] and the
    sum is a [datetime], and raises [OverflowError] for an offset other than
    zero when it is not.  [now] is the clock of the world in which the
    property is read, and [TaskProxy.__call__] reads it in the world of the
    call, on the schedule the proxy stored unevaluated at registration: the
    call schedules at the normalized [run_at], or raises [OverflowError]
    before it reaches the store. *)
Theorem run_at_normalized_at_call_time :
  (forall t w, get_run_at (create (SchedAbs t)) w = (Ok t, w)) /\
  (forall n w,
      in_timedelta (timedelta_seconds n) = true ->
      in_datetime (clock w + timedelta_seconds n) = true ->
      get_run_at (create (SchedInt n)) w = (Ok (clock w + timedelta_seconds n), w)) /\
  (forall d w,
      in_datetime (clock w + d) = true ->
      get_run_at (create (SchedDelta d)) w = (Ok (clock w + d), w)) /\
  (forall w, get_run_at (create SchedNone) w = (Ok (clock w), w)) /\
  (forall n w,
      n <> 0 ->
      in_timedelta (timedelta_seconds n) && in_datetime (clock w + timedelta_seconds n)
      = false ->
      get_run_at (create (SchedInt n)) w = (Raise OverflowError, w)) /\
  (forall d w,
      d <> 0 ->
      in_datetime (clock w + d) = false ->
      get_run_at (create (SchedDelta d)) w = (Raise OverflowError, w)) /\
  (forall self w,
      get_run_at self w
      = (if representable (_run_at self) (clock w)
         then Ok (normalized_run_at (_run_at self) (clock w))
         else Raise OverflowError, w)) /\
  (forall env nm fn registered q rm runner args kwargs w,
      TaskProxy_call env (TaskProxy_init nm fn registered q rm) runner args kwargs w
      = if representable
             (_run_at (merge (create (kw_schedule kwargs)) (create registered))) (clock w)
        then
          DBTaskRunner_schedule env runner nm args (kw_rest kwargs)
            (Some (normalized_run_at
                     (_run_at (merge (create (kw_schedule kwargs)) (create registered)))
                     (clock w)))
            (default (get_priority (merge (create (kw_schedule kwargs)) (create registered)))
                     (kw_priority kwargs))
            (get_action (merge (create (kw_schedule kwargs)) (create registered)))
            (default q (kw_queue kwargs))
            (kw_verbose_name kwargs) (kw_creator kwargs) (kw_repeat kwargs)
            (kw_repeat_until kwargs)
            (default rm (kw_remove_existing_tasks kwargs)) w
        else (Raise OverflowError, w)).
Proof.
  assert (Hint : forall n w,
             get_run_at (create (SchedInt n)) w
             = (if negb (truthy_Z n)
                   || in_timedelta (timedelta_seconds n)
                      && in_datetime (clock w + timedelta_seconds n)
                then Ok (clock w + timedelta_seconds n) else Raise OverflowError, w)).
  { intros n w. rewrite get_run_at_normalized. unfold create, truthy_schedule, truthy_Z.
    destruct (Z.eqb_spec n 0) as [->|Hn]; simpl.
    - unfold timedelta_seconds. do 2 f_equal. lia.
    - unfold truthy_Z. destruct (Z.eqb_spec n 0); [contradiction|reflexivity]. }
  assert (Hdelta : forall d w,
             get_run_at (create (SchedDelta d)) w
             = (if negb (truthy_Z d) || in_datetime (clock w + d)
                then Ok (clock w + d) else Raise OverflowError, w)).
  { intros d w. rewrite get_run_at_normalized. unfold create, truthy_schedule, truthy_Z.
    destruct (Z.eqb_spec d 0) as [->|Hd]; simpl.
    - do 2 f_equal. lia.
    - unfold truthy_Z. destruct (Z.eqb_spec d 0); [contradiction|reflexivity]. }
  repeat match goal with |- _ /\ _ => split end.
  - intros. rewrite get_run_at_normalized. reflexivity.
  - intros n w H1 H2. rewrite Hint, H1, H2, orb_true_r. reflexivity.
  - intros d w H. rewrite Hdelta, H, orb_true_r. reflexivity.
  - intros. rewrite get_run_at_normalized. reflexivity.
  - intros n w Hn H. rewrite Hint, H. unfold truthy_Z.
    destruct (Z.eqb_spec n 0); [contradiction|reflexivity].
  - intros d w Hd H. rewrite Hdelta, H. unfold truthy_Z.
    destruct (Z.eqb_spec d 0); [contradiction|reflexivity].
  - apply get_run_at_normalized.
  - intros. unfold TaskProxy_call, bind. rewrite get_run_at_normalized.
    destruct (representable _ _); reflexivity.
Qed.

(** C9: the failing call.  A unit registered with [schedule=60] and called
    with the bare override [schedule=0] is scheduled at [now + 60] seconds:
    [create] takes the bare zero for no schedule at all, so the registered
    default wins.  The same override written as the mapping
    [{'run_at': 0}] or as [TaskSchedule(run_at=0)] does win and schedules
    at [now]. *)
Theorem bare_zero_override_loses_to_registered_default :
  Sample.scheduled_run_at
    (TaskProxy_call (Sample.env false) Sample.notify_proxy Sample.runner []
       (Sample.with_schedule (SchedInt 0)) (Sample.world 100))
  = Some (100 + timedelta_seconds 60) /\
  Sample.scheduled_run_at
    (TaskProxy_call (Sample.env false) Sample.notify_proxy Sample.runner []
       (Sample.with_schedule (SchedDict (Some (RunAtInt 0)) None None)) (Sample.world 100))
  = Some 100 /\
  Sample.scheduled_run_at
    (TaskProxy_call (Sample.env false) Sample.notify_proxy Sample.runner []
       (Sample.with_schedule (SchedInstance (mkTaskSchedule (Some (RunAtInt 0)) None None)))
       (Sample.world 100))
  = Some 100.
Proof. repeat split; vm_compute; reflexivity. Qed.

(** ** Reasoning about computations *)

Lemma bind_inv {A B} (m : M A) (k : A -> M B) (w w' : World) (r : result B) :
  bind m k w = (r, w') ->
  (exists a w1, m w = (Ok a, w1) /\ k a w1 = (r, w')) \/
  (exists e, m w = (Raise e, w') /\ r = Raise e).
Proof.
  unfold bind. destruct (m w) as [[a|e] w1]; intros H.
  - left. eauto.
  - right. inversion H; subst. eauto.
Qed.

Lemma bind_Ok_inv {A B} (m : M A) (k : A -> M B) (w w' : World) (b : B) :
  bind m k w = (Ok b, w') ->
  exists a w1, m w = (Ok a, w1) /\ k a w1 = (Ok b, w').
Proof.
  intros H. apply bind_inv in H as [H|(e & _ & H)]; [exact H|discriminate].
Qed.

(** A round trip that succeeds leaves everything but the fault plan. *)
Lemma db_access_Ok (w w' : World) (u : unit) :
  db_access w = (Ok u, w') ->
  db w' = db w /\ clock w' = clock w /\ trace w' = trace w /\ pool w' = pool w.
Proof.
  unfold db_access. destruct (faults w) as [|[] fs]; intros H; inversion H; subst;
    repeat split; reflexivity.
Qed.

Lemma db_access_up (w : World) : faults w = [] -> db_access w = (Ok tt, w).
Proof. unfold db_access. intros ->. reflexivity. Qed.

Ltac inv_step :=
  match goal with
  | H : bind _ _ _ = (Ok _, _) |- _ =>
      let a := fresh "a" in let w1 := fresh "w" in
      let H1 := fresh "Hm" in let H2 := fresh "Hk" in
      apply bind_Ok_inv in H as (a & w1 & H1 & H2)
  | H : ret _ _ = (_, _) |- _ => unfold ret in H; inversion H; subst; clear H
  | H : timezone_now _ = (_, _) |- _ => unfold timezone_now in H; inversion H; subst; clear H
  | H : get_db _ = (_, _) |- _ => unfold get_db in H; inversion H; subst; clear H
  | H : put_db _ _ = (_, _) |- _ => unfold put_db in H; inversion H; subst; clear H
  | H : emit _ _ = (_, _) |- _ => unfold emit in H; inversion H; subst; clear H
  | H : raise _ _ = (Ok _, _) |- _ => discriminate H
  | H : db_access _ = (Ok _, _) |- _ =>
      let Hd := fresh "Hdb" in let Hc := fresh "Hclock" in
      let Ht := fresh "Htrace" in let Hp := fresh "Hpool" in
      apply db_access_Ok in H as (Hd & Hc & Ht & Hp)
  end.

Ltac inv_steps := repeat inv_step.

(** ** The store operations *)

Lemma qs_delete_Ok (qs : QuerySet) (w w' : World) (u : unit) :
  qs_delete qs w = (Ok u, w') ->
  pending (db w') = List.filter (fun t => negb (qs t)) (pending (db w)) /\
  archive (db w') = archive (db w) /\ next_id (db w') = next_id (db w) /\
  clock w' = clock w /\ trace w' = trace w /\ pool w' = pool w.
Proof.
  unfold qs_delete. intros H. inv_steps. simpl.
  rewrite Hdb, Hclock, Htrace, Hpool. repeat split; reflexivity.
Qed.

Lemma qs_count_Ok (qs : QuerySet) (w w' : World) (n : Z) :
  qs_count qs w = (Ok n, w') ->
  n = Z.of_nat (length (List.filter qs (pending (db w)))) /\
  db w' = db w /\ clock w' = clock w /\ trace w' = trace w /\ pool w' = pool w.
Proof.
  unfold qs_count. intros H. inv_steps. rewrite Hdb. repeat split; assumption.
Qed.

Lemma existsb_false_filter {A} (p : A -> bool) (l : list A) :
  existsb p l = false -> List.filter p l = [].
Proof.
  induction l as [|x l IH]; simpl; [reflexivity|].
  destruct (p x); simpl; [discriminate|exact IH].
Qed.

Lemma qs_update_Ok (qs : QuerySet) (run_at : option datetime) (p : Z)
    (w w' : World) (n : Z) :
  qs_update qs run_at p w = (Ok n, w') ->
  n = Z.of_nat (length (List.filter qs (pending (db w)))) /\
  pending (db w') = match run_at with
                    | Some r => map (update_row qs (set_run_at_priority r p)) (pending (db w))
                    | None => pending (db w)
                    end /\
  archive (db w') = archive (db w) /\ next_id (db w') = next_id (db w) /\
  clock w' = clock w /\ trace w' = trace w /\ pool w' = pool w.
Proof.
  unfold qs_update. intros H. inv_steps. destruct run_at as [r|].
  - inv_steps. simpl. rewrite Hdb, Hclock, Htrace, Hpool. repeat split; reflexivity.
  - rewrite Hdb in *. destruct (existsb qs (pending (db w))) eqn:E; inv_steps.
    rewrite (existsb_false_filter _ _ E), Hdb. repeat split; assumption.
Qed.

Lemma save_new_Ok (task task' : Task) (w w' : World) :
  id task = None ->
  save task w = (Ok task', w') ->
  task' = set_id (Some (next_id (db w))) task /\
  pending (db w') = (pending (db w) ++ [task'])%list /\
  archive (db w') = archive (db w) /\ next_id (db w') = next_id (db w) + 1 /\
  clock w' = clock w /\ trace w' = trace w /\ pool w' = pool w.
Proof.
  unfold save. intros Hid H. inv_steps. rewrite Hid in Hk0. inv_steps. simpl.
  rewrite Hdb, Hclock, Htrace, Hpool. repeat split; reflexivity.
Qed.

Lemma new_task_Ok (env : Env) nm args kwargs run_at prio queue vn cr rp ru
    (rm : bool) (task : Task) (w w' : World) :
  new_task env nm args kwargs run_at prio queue vn cr rp ru rm w = (Ok task, w') ->
  task = mkTask None nm (dumps env args kwargs) (fingerprint env nm args kwargs) vn prio
           (default (clock w) run_at) rp ru queue 0 None None None cr /\
  pending (db w') =
    without_removed env (clock w) (fingerprint env nm args kwargs) rm (pending (db w)) /\
  archive (db w') = archive (db w) /\ next_id (db w') = next_id (db w) /\
  clock w' = clock w /\ trace w' = trace w /\ pool w' = pool w.
Proof.
  unfold new_task, fingerprint. intros H. inv_steps. destruct rm.
  - apply qs_delete_Ok in Hm0 as (? & ? & ? & ? & ? & ?). repeat split; assumption.
  - inv_steps. repeat split; reflexivity.
Qed.

(** ** Scheduling *)

Lemma length_filter_zero {A} (p : A -> bool) (l : list A) :
  truthy_Z (Z.of_nat (length (List.filter p l))) = false -> List.filter p l = [].
Proof.
  unfold truthy_Z. destruct (List.filter p l); [reflexivity|].
  simpl length. rewrite Nat2Z.inj_succ.
  destruct (Z.eqb_spec (Z.succ (Z.of_nat (length l0))) 0); [lia|discriminate].
Qed.

Lemma length_filter_nonzero {A} (p : A -> bool) (l : list A) :
  truthy_Z (Z.of_nat (length (List.filter p l))) = true -> List.filter p l <> [].
Proof. intros H E. rewrite E in H. discriminate. Qed.

Lemma update_none (qs : QuerySet) (f : Task -> Task) (l : list Task) :
  List.filter qs l = [] -> map (update_row qs f) l = l.
Proof.
  induction l as [|x l IH]; [reflexivity|]. simpl. unfold update_row at 1.
  destruct (qs x); [discriminate|]. intros H. f_equal. apply IH, H.
Qed.

Lemma schedule_insert_Ok (task : Task) (r : option Task) (w w' : World) :
  id task = None ->
  (task <- save task;; emit (task_created task);; ret (Some task)) w = (Ok r, w') ->
  exists task', r = Some task' /\
    task' = set_id (Some (next_id (db w))) task /\
    pending (db w') = (pending (db w) ++ [task'])%list /\
    trace w' = (trace w ++ [task_created task'])%list.
Proof.
  intros Hid H. inv_steps.
  apply save_new_Ok in Hm as (-> & Hp & _ & _ & _ & Ht & _); [|exact Hid].
  eexists. split; [reflexivity|]. simpl. rewrite Ht. repeat split; assumption.
Qed.

(** C3, as the code has it: a schedule call that returns gives back the
    newly persisted Task when it inserts -- appended to the pending table
    under the next key and announced by the creation signal -- and gives
    back nothing when RESCHEDULE_EXISTING or CHECK_EXISTING found a matching
    record, in which case no record is inserted and no signal is sent. *)
Theorem schedule_returns_inserted_task_or_nothing
    (env : Env) (self : DBTaskRunner) (nm : string) (args : pyargs) (kwargs : pykwargs)
    (run_at : option datetime) (prio action : Z) (queue vn cr : option string)
    (rp : option timedelta) (ru : option datetime) (rm : bool)
    (w w' : World) (r : option Task) :
  DBTaskRunner_schedule env self nm args kwargs run_at prio action queue vn cr rp ru rm w
    = (Ok r, w') ->
  let h := fingerprint env nm args kwargs in
  let before := without_removed env (clock w) h rm (pending (db w)) in
  let matched := List.filter (existing_tasks env (clock w) h queue) before in
  match r with
  | Some task =>
      id task = Some (next_id (db w)) /\ task_hash task = h /\
      pending (db w') = (before ++ [task])%list /\
      trace w' = (trace w ++ [task_created task])%list /\
      (action = RESCHEDULE_EXISTING \/ action = CHECK_EXISTING -> matched = [])
  | None =>
      (action = RESCHEDULE_EXISTING \/ action = CHECK_EXISTING) /\
      matched <> [] /\
      next_id (db w') = next_id (db w) /\
      length (pending (db w')) = length before /\
      trace w' = trace w
  end.
Proof.
  intros H h before matched. unfold DBTaskRunner_schedule in H.
  apply bind_Ok_inv in H as (task & w1 & Hnew & H).
  apply new_task_Ok in Hnew as (Htask & Hp1 & _ & Hn1 & Hc1 & Ht1 & _).
  fold h in Htask, Hp1. fold before in Hp1.
  assert (Hid : id task = None) by (subst task; reflexivity).
  assert (Hh : task_hash task = h) by (subst task; reflexivity).
  assert (Hins : forall w2 : World,
             pending (db w2) = before -> next_id (db w2) = next_id (db w) ->
             trace w2 = trace w ->
             (task <- save task;; emit (task_created task);; ret (Some task)) w2 = (Ok r, w') ->
             exists t, r = Some t /\ id t = Some (next_id (db w)) /\ task_hash t = h /\
               pending (db w') = (before ++ [t])%list /\
               trace w' = (trace w ++ [task_created t])%list).
  { intros w2 Hp2 Hn2 Ht2 Hs.
    apply schedule_insert_Ok in Hs as (t & -> & -> & Hp & Ht); [|exact Hid].
    eexists. split; [reflexivity|]. rewrite Hp, Ht, Hp2, Hn2, Ht2, <- Hh.
    repeat split; reflexivity. }
  destruct (Z.eqb_spec action SCHEDULE) as [Ha|Ha]; simpl in H.
  - destruct (Hins w1 Hp1 Hn1 Ht1 H) as (t & -> & ? & ? & ? & ?).
    repeat split; try assumption.
    intros [E|E]; rewrite E in Ha; discriminate.
  - apply bind_Ok_inv in H as (now & w2 & Hnow & H).
    unfold timezone_now in Hnow. inversion Hnow; subst now w2; clear Hnow.
    rewrite Hh, Hc1 in H.
    destruct (Z.eqb_spec action RESCHEDULE_EXISTING) as [Hr|Hr].
    + apply bind_Ok_inv in H as (n & w2 & Hu & H).
      apply qs_update_Ok in Hu as (-> & Hp2 & _ & Hn2 & _ & Ht2 & _).
      rewrite Hp1 in Hp2. rewrite Hp1 in H. fold matched in H.
      destruct (truthy_Z (Z.of_nat (length matched))) eqn:Hm.
      * unfold ret in H. inversion H; subst r w'; clear H.
        apply length_filter_nonzero in Hm.
        assert (Hlen : length (pending (db w2)) = length before).
        { rewrite Hp2. destruct run_at; [apply length_map|reflexivity]. }
        rewrite Hlen, Hn2, Hn1, Ht2, Ht1. repeat split; auto.
      * apply length_filter_zero in Hm.
        assert (Hsame : pending (db w2) = before).
        { rewrite Hp2. destruct run_at; [apply update_none, Hm|reflexivity]. }
        destruct (Hins w2 Hsame ltac:(congruence) ltac:(congruence) H)
          as (t & -> & ? & ? & ? & ?).
        repeat split; auto.
    + destruct (Z.eqb_spec action CHECK_EXISTING) as [Hc|Hc].
      * apply bind_Ok_inv in H as (n & w2 & Hu & H).
        apply qs_count_Ok in Hu as (-> & Hd2 & _ & Ht2 & _).
        rewrite Hp1 in H. fold matched in H.
        destruct (truthy_Z (Z.of_nat (length matched))) eqn:Hm.
        -- unfold ret in H. inversion H; subst r w'; clear H.
           apply length_filter_nonzero in Hm.
           rewrite Hd2, Hn1, Hp1, Ht2, Ht1. repeat split; auto.
        -- apply length_filter_zero in Hm.
           destruct (Hins w2 ltac:(congruence) ltac:(congruence) ltac:(congruence) H)
             as (t & -> & ? & ? & ? & ?).
           repeat split; auto.
      * destruct (Hins w1 Hp1 Hn1 Ht1 H) as (t & -> & ? & ? & ? & ?).
        repeat split; try assumption.
        intros [E|E]; contradiction.
Qed.

(** *** The dedup actions on a reachable store *)

(** The record a schedule call builds and the one it persists. *)
Lemma reschedule_existing_up (env : Env) (self : DBTaskRunner) nm args kwargs
    (r : datetime) (p : Z) queue vn cr rp ru (w : World) :
  faults w = [] ->
  let h := fingerprint env nm args kwargs in
  let existing := existing_tasks env (clock w) h queue in
  let task := mkTask (Some (next_id (db w))) nm (dumps env args kwargs) h vn p r rp ru
                queue 0 None None None cr in
  DBTaskRunner_schedule env self nm args kwargs (Some r) p RESCHEDULE_EXISTING queue
    vn cr rp ru false w
  = if truthy_Z (Z.of_nat (length (List.filter existing (pending (db w)))))
    then (Ok None,
          set_db (mkDB (map (update_row existing (set_run_at_priority r p)) (pending (db w)))
                    (archive (db w)) (next_id (db w))) w)
    else (Ok (Some task),
          set_trace (trace w ++ [task_created task])%list
            (set_db (mkDB (pending (db w) ++ [task])%list (archive (db w))
                       (next_id (db w) + 1)) w)).
Proof.
  destruct w as [[pd ar nx] c f tr pl]. simpl. intros ->.
  unfold DBTaskRunner_schedule, new_task, qs_update, save, bind, ret, timezone_now,
    db_access, get_db, put_db, emit, fingerprint; simpl.
  destruct (truthy_Z _) eqn:E; [reflexivity|].
  apply length_filter_zero in E. rewrite (update_none _ _ _ E). reflexivity.
Qed.

Lemma check_existing_up (env : Env) (self : DBTaskRunner) nm args kwargs
    (run_at : option datetime) (p : Z) queue vn cr rp ru (w : World) :
  faults w = [] ->
  let h := fingerprint env nm args kwargs in
  let existing := existing_tasks env (clock w) h queue in
  let task := mkTask (Some (next_id (db w))) nm (dumps env args kwargs) h vn p
                (default (clock w) run_at) rp ru queue 0 None None None cr in
  DBTaskRunner_schedule env self nm args kwargs run_at p CHECK_EXISTING queue
    vn cr rp ru false w
  = if truthy_Z (Z.of_nat (length (List.filter existing (pending (db w)))))
    then (Ok None, w)
    else (Ok (Some task),
          set_trace (trace w ++ [task_created task])%list
            (set_db (mkDB (pending (db w) ++ [task])%list (archive (db w))
                       (next_id (db w) + 1)) w)).
Proof.
  destruct w as [[pd ar nx] c f tr pl]. simpl. intros ->.
  unfold DBTaskRunner_schedule, new_task, qs_count, save, bind, ret, timezone_now,
    db_access, get_db, put_db, emit, fingerprint; simpl.
  destruct (truthy_Z _) eqn:E; reflexivity.
Qed.

(** On records that a dedup action can see, its queryset selects by
    fingerprint alone. *)
Lemma existing_is_fingerprint (env : Env) (now : datetime) (h : string)
    (queue : option string) (l : list Task) :
  dedup_visible h queue l ->
  forall t, In t l -> existing_tasks env now h queue t = String.eqb (task_hash t) h.
Proof.
  intros Hv t Ht.
  assert (Hbase : String.eqb (task_hash t) h = true ->
                  qs_filter_task_hash h (unlocked env now) t = true /\
                  (truthy_queue queue = true -> queue = Some (default "" queue) /\
                     in_queue queue t)).
  { intros Eh.
    assert (Hin : In t (with_fingerprint h l)).
    { unfold with_fingerprint. apply List.filter_In. split; assumption. }
    destruct (Hv t Hin) as [Hl Hq]. split.
    - unfold qs_filter_task_hash, unlocked. rewrite Hl, Eh. reflexivity.
    - intros Eq. split; [|exact (Hq Eq)]. destruct queue; [reflexivity|discriminate]. }
  unfold existing_tasks.
  destruct (String.eqb (task_hash t) h) eqn:Eh.
  - destruct (Hbase eq_refl) as [Hb Hq].
    destruct (truthy_queue queue) eqn:Eq; [|exact Hb].
    destruct (Hq eq_refl) as [Hs Hi]. unfold qs_filter_queue. rewrite Hb. simpl.
    apply bool_decide_eq_true. unfold in_queue in Hi. congruence.
  - destruct (truthy_queue queue); unfold qs_filter_queue, qs_filter_task_hash;
      rewrite Eh, ?andb_false_r; reflexivity.
Qed.

Lemma with_fingerprint_update (h : string) (qs : QuerySet) (f : Task -> Task)
    (l : list Task) :
  (forall t, task_hash (f t) = task_hash t) ->
  (forall t, In t l -> qs t = String.eqb (task_hash t) h) ->
  with_fingerprint h (map (update_row qs f) l) = map f (with_fingerprint h l).
Proof.
  intros Hf. unfold with_fingerprint. induction l as [|x l IH]; [reflexivity|].
  intros H.
  assert (IH' := IH (fun t Ht => H t (or_intror Ht))).
  assert (Hx : qs x = String.eqb (task_hash x) h) by (apply H; left; reflexivity).
  cbn [map List.filter]. change (update_row qs f x) with (if qs x then f x else x).
  rewrite Hx.
  destruct (String.eqb (task_hash x) h) eqn:Eh.
  - rewrite Hf, Eh. cbn [map]. f_equal. exact IH'.
  - rewrite Eh. exact IH'.
Qed.

Lemma map_id_update (qs : QuerySet) (f : Task -> Task) (l : list Task) :
  (forall t, id (f t) = id t) ->
  map id (map (update_row qs f) l) = map id l.
Proof.
  intros Hf. induction l as [|x l IH]; [reflexivity|]. simpl.
  unfold update_row at 1. destruct (qs x); rewrite ?Hf, IH; reflexivity.
Qed.

Lemma dedup_visible_update (h : string) (queue : option string) (qs : QuerySet)
    (r : datetime) (p : Z) (l : list Task) :
  dedup_visible h queue l ->
  dedup_visible h queue (map (update_row qs (set_run_at_priority r p)) l).
Proof.
  intros Hv t Ht. unfold with_fingerprint in Ht.
  apply List.filter_In in Ht as [Ht Eh]. apply List.in_map_iff in Ht as (x & <- & Hx).
  assert (Hh : task_hash (update_row qs (set_run_at_priority r p) x) = task_hash x)
    by (unfold update_row; destruct (qs x); reflexivity).
  rewrite Hh in Eh.
  assert (Hin : In x (with_fingerprint h l))
    by (unfold with_fingerprint; apply List.filter_In; split; assumption).
  destruct (Hv x Hin) as [Hl Hq].
  unfold update_row, in_queue in *. destruct (qs x); simpl; split; assumption.
Qed.

Lemma dedup_visible_insert (h : string) (queue : option string) (t : Task)
    (l : list Task) :
  dedup_visible h queue l -> locked_by t = None -> in_queue queue t ->
  dedup_visible h queue (l ++ [t]).
Proof.
  intros Hv Hl Hq x Hx. unfold with_fingerprint in Hx.
  apply List.filter_In in Hx as [Hx Eh]. apply List.in_app_iff in Hx as [Hx|[<-|[]]].
  - apply Hv. unfold with_fingerprint. apply List.filter_In. split; assumption.
  - split; [assumption|]. intros _. exact Hq.
Qed.

Section Dedup.

Context (env : Env) (self : DBTaskRunner).
Context (nm : string) (args : pyargs) (kwargs : pykwargs) (queue : option string).

Local Abbreviation h := (fingerprint env nm args kwargs).

Lemma one_with_fingerprint_counts (now : datetime) (t : Task) (l : list Task) :
  dedup_visible h queue l -> with_fingerprint h l = [t] ->
  truthy_Z (Z.of_nat (length (List.filter (existing_tasks env now h queue) l))) = true.
Proof.
  intros Hv H1.
  rewrite (List.filter_ext_in _ _ l (existing_is_fingerprint env now h queue l Hv)).
  fold (with_fingerprint h l). rewrite H1. reflexivity.
Qed.

Lemma none_with_fingerprint_counts (now : datetime) (l : list Task) :
  dedup_visible h queue l -> with_fingerprint h l = [] ->
  truthy_Z (Z.of_nat (length (List.filter (existing_tasks env now h queue) l))) = false.
Proof.
  intros Hv H0.
  rewrite (List.filter_ext_in _ _ l (existing_is_fingerprint env now h queue l Hv)).
  fold (with_fingerprint h l). rewrite H0. reflexivity.
Qed.

Lemma with_fingerprint_insert (t : Task) (l : list Task) :
  task_hash t = h -> with_fingerprint h (l ++ [t]) = (with_fingerprint h l ++ [t])%list.
Proof.
  intros Hh. unfold with_fingerprint. rewrite List.filter_app. simpl.
  rewrite Hh, String.eqb_refl. reflexivity.
Qed.

(** RESCHEDULE_EXISTING on a store where one visible record has the
    fingerprint: that record is rewritten where it stands. *)
Lemma reschedule_existing_updates (r : datetime) (p : Z) vn cr rp ru
    (t : Task) (w : World) :
  faults w = [] ->
  dedup_visible h queue (pending (db w)) ->
  with_fingerprint h (pending (db w)) = [t] ->
  exists w',
    DBTaskRunner_schedule env self nm args kwargs (Some r) p RESCHEDULE_EXISTING queue
      vn cr rp ru false w = (Ok None, w') /\
    with_fingerprint h (pending (db w')) = [set_run_at_priority r p t] /\
    map id (pending (db w')) = map id (pending (db w)) /\
    next_id (db w') = next_id (db w) /\ trace w' = trace w /\
    faults w' = [] /\ dedup_visible h queue (pending (db w')).
Proof.
  intros Hup Hv H1.
  rewrite (reschedule_existing_up env self nm args kwargs r p queue vn cr rp ru w Hup).
  fold h. rewrite (one_with_fingerprint_counts (clock w) t _ Hv H1).
  eexists. split; [reflexivity|]. destruct w as [[pd ar nx] c f tr pl]; simpl in *.
  split; [|split; [|split; [|split; [|split]]]]; try reflexivity; try assumption.
  - rewrite with_fingerprint_update, H1; [reflexivity|reflexivity|].
    apply existing_is_fingerprint, Hv.
  - apply map_id_update. reflexivity.
  - apply dedup_visible_update, Hv.
Qed.

(** A dedup action on a store without a record of the fingerprint inserts
    one, as SCHEDULE would. *)
Lemma reschedule_existing_inserts (r : datetime) (p : Z) vn cr rp ru (w : World) :
  faults w = [] ->
  dedup_visible h queue (pending (db w)) ->
  with_fingerprint h (pending (db w)) = [] ->
  exists task w',
    DBTaskRunner_schedule env self nm args kwargs (Some r) p RESCHEDULE_EXISTING queue
      vn cr rp ru false w = (Ok (Some task), w') /\
    with_fingerprint h (pending (db w')) = [task] /\
    faults w' = [] /\ dedup_visible h queue (pending (db w')).
Proof.
  intros Hup Hv H0.
  rewrite (reschedule_existing_up env self nm args kwargs r p queue vn cr rp ru w Hup).
  fold h. rewrite (none_with_fingerprint_counts (clock w) _ Hv H0).
  do 2 eexists. split; [reflexivity|]. destruct w as [[pd ar nx] c f tr pl]; simpl in *.
  split; [|split]; try assumption.
  - rewrite with_fingerprint_insert, H0; reflexivity.
  - apply dedup_visible_insert; [assumption|reflexivity|reflexivity].
Qed.

Lemma check_existing_inserts (run_at : option datetime) (p : Z) vn cr rp ru (w : World) :
  faults w = [] ->
  dedup_visible h queue (pending (db w)) ->
  with_fingerprint h (pending (db w)) = [] ->
  exists task w',
    DBTaskRunner_schedule env self nm args kwargs run_at p CHECK_EXISTING queue
      vn cr rp ru false w = (Ok (Some task), w') /\
    with_fingerprint h (pending (db w')) = [task] /\
    faults w' = [] /\ dedup_visible h queue (pending (db w')).
Proof.
  intros Hup Hv H0.
  rewrite (check_existing_up env self nm args kwargs run_at p queue vn cr rp ru w Hup).
  fold h. rewrite (none_with_fingerprint_counts (clock w) _ Hv H0).
  do 2 eexists. split; [reflexivity|]. destruct w as [[pd ar nx] c f tr pl]; simpl in *.
  split; [|split]; try assumption.
  - rewrite with_fingerprint_insert, H0; reflexivity.
  - apply dedup_visible_insert; [assumption|reflexivity|reflexivity].
Qed.

(** CHECK_EXISTING on a store where one visible record has the fingerprint
    changes nothing. *)
Lemma check_existing_skips (run_at : option datetime) (p : Z) vn cr rp ru
    (t : Task) (w : World) :
  faults w = [] ->
  dedup_visible h queue (pending (db w)) ->
  with_fingerprint h (pending (db w)) = [t] ->
  DBTaskRunner_schedule env self nm args kwargs run_at p CHECK_EXISTING queue
    vn cr rp ru false w = (Ok None, w).
Proof.
  intros Hup Hv H1.
  rewrite (check_existing_up env self nm args kwargs run_at p queue vn cr rp ru w Hup).
  fold h. rewrite (one_with_fingerprint_counts (clock w) t _ Hv H1). reflexivity.
Qed.

Lemma at_most_one {A} (l : list A) :
  (length l <= 1)%nat -> l = [] \/ exists x, l = [x].
Proof.
  destruct l as [|x [|y l]]; simpl; intros H; [left; reflexivity|right; eauto|lia].
Qed.

(** C1, as the code has it: two RESCHEDULE_EXISTING calls with the same
    fingerprint and queue and without [remove_existing_tasks], on a
    reachable store that holds at most one pending Task with that
    fingerprint before the first call, while no record with the fingerprint
    is locked (and each lies in the queue when one is given).  Both calls
    return; after them exactly one pending Task has the fingerprint, with
    the [run_at] and [priority] of the second call; and the second call,
    which finds the match, rewrites it in place: it returns nothing, the
    keys of the pending table and the key sequence are unchanged and no
    creation signal is sent. *)
Theorem reschedule_existing_twice_leaves_one
    (r1 r2 : datetime) (p1 p2 : Z) vn1 cr1 rp1 ru1 vn2 cr2 rp2 ru2
    (later : datetime) (w : World) :
  faults w = [] ->
  (length (with_fingerprint h (pending (db w))) <= 1)%nat ->
  dedup_visible h queue (pending (db w)) ->
  exists res1 w1 w2 t,
    DBTaskRunner_schedule env self nm args kwargs (Some r1) p1 RESCHEDULE_EXISTING queue
      vn1 cr1 rp1 ru1 false w = (Ok res1, w1) /\
    DBTaskRunner_schedule env self nm args kwargs (Some r2) p2 RESCHEDULE_EXISTING queue
      vn2 cr2 rp2 ru2 false (set_clock later w1) = (Ok None, w2) /\
    with_fingerprint h (pending (db w2)) = [t] /\
    run_at t = r2 /\ priority t = p2 /\
    map id (pending (db w2)) = map id (pending (db w1)) /\
    next_id (db w2) = next_id (db w1) /\
    trace w2 = trace w1.
Proof.
  intros Hup Hone Hv.
  assert (Hfirst : exists res1 w1 t1,
             DBTaskRunner_schedule env self nm args kwargs (Some r1) p1
               RESCHEDULE_EXISTING queue vn1 cr1 rp1 ru1 false w = (Ok res1, w1) /\
             with_fingerprint h (pending (db w1)) = [t1] /\
             faults w1 = [] /\ dedup_visible h queue (pending (db w1))).
  { destruct (at_most_one _ Hone) as [H0|[t0 H1]].
    - destruct (reschedule_existing_inserts r1 p1 vn1 cr1 rp1 ru1 w Hup Hv H0)
        as (task & w1 & E & ? & ? & ?).
      exists (Some task), w1, task. auto.
    - destruct (reschedule_existing_updates r1 p1 vn1 cr1 rp1 ru1 t0 w Hup Hv H1)
        as (w1 & E & ? & _ & _ & _ & ? & ?).
      exists None, w1, (set_run_at_priority r1 p1 t0). auto. }
  destruct Hfirst as (res1 & w1 & t1 & E1 & H1 & Hup1 & Hv1).
  destruct (reschedule_existing_updates r2 p2 vn2 cr2 rp2 ru2 t1 (set_clock later w1))
    as (w2 & E2 & Hw & Hids & Hn & Ht & _ & _); try assumption.
  exists res1, w1, w2, (set_run_at_priority r2 p2 t1).
  repeat split; try assumption; reflexivity.
Qed.

(** C2, as the code has it: two CHECK_EXISTING calls with the same
    fingerprint and queue and without [remove_existing_tasks], on a
    reachable store that holds at most one pending Task with that
    fingerprint before the first call, while no record with the fingerprint
    is locked (and each lies in the queue when one is given).  After the
    first call exactly one pending Task has the fingerprint, and the second
    call returns nothing and leaves the world as it found it: no insertion,
    no update, no signal. *)
Theorem check_existing_twice_leaves_one
    (run_at1 run_at2 : option datetime) (p1 p2 : Z) vn1 cr1 rp1 ru1 vn2 cr2 rp2 ru2
    (later : datetime) (w : World) :
  faults w = [] ->
  (length (with_fingerprint h (pending (db w))) <= 1)%nat ->
  dedup_visible h queue (pending (db w)) ->
  exists res1 w1 t,
    DBTaskRunner_schedule env self nm args kwargs run_at1 p1 CHECK_EXISTING queue
      vn1 cr1 rp1 ru1 false w = (Ok res1, w1) /\
    DBTaskRunner_schedule env self nm args kwargs run_at2 p2 CHECK_EXISTING queue
      vn2 cr2 rp2 ru2 false (set_clock later w1) = (Ok None, set_clock later w1) /\
    with_fingerprint h (pending (db (set_clock later w1))) = [t].
Proof.
  intros Hup Hone Hv.
  assert (Hfirst : exists res1 w1 t1,
             DBTaskRunner_schedule env self nm args kwargs run_at1 p1
               CHECK_EXISTING queue vn1 cr1 rp1 ru1 false w = (Ok res1, w1) /\
             with_fingerprint h (pending (db w1)) = [t1] /\
             faults w1 = [] /\ dedup_visible h queue (pending (db w1))).
  { destruct (at_most_one _ Hone) as [H0|[t0 H1]].
    - destruct (check_existing_inserts run_at1 p1 vn1 cr1 rp1 ru1 w Hup Hv H0)
        as (task & w1 & E & ? & ? & ?).
      exists (Some task), w1, task. auto.
    - exists None, w, t0. split; [|auto].
      apply (check_existing_skips run_at1 p1 vn1 cr1 rp1 ru1 t0 w Hup Hv H1). }
  destruct Hfirst as (res1 & w1 & t1 & E1 & H1 & Hup1 & Hv1).
  exists res1, w1, t1. split; [exact E1|]. split; [|exact H1].
  apply (check_existing_skips run_at2 p2 vn2 cr2 rp2 ru2 t1 (set_clock later w1));
    assumption.
Qed.

End Dedup.

(** ** Dispatch of an unregistered name *)

(** C6, as the code has it: when the name of the task is not in the
    registry, [Tasks.run_task] raises [KeyError] to its caller and leaves
    the world as it was: no function is invoked, no signal is sent and no
    record changes. *)
Theorem unregistered_name_raises_KeyError
    (env : Env) (tasks : Tasks) (task_or_name : task_ref)
    (args : option pyargs) (kwargs : option pykwargs) (w : World) :
  _tasks tasks !! ref_name task_or_name = None ->
  Tasks_run_task env tasks task_or_name args kwargs w
  = (Raise (KeyError (ref_name task_or_name)), w).
Proof.
  intros H. unfold Tasks_run_task.
  destruct task_or_name as [n|t]; simpl in *; rewrite H; reflexivity.
Qed.

(** ** The claim step *)

Lemma db_access_raises : raises_only_OperationalError db_access.
Proof.
  intros w e w'. unfold db_access.
  destruct (faults w) as [|[] fs]; intros H; inversion H; reflexivity.
Qed.

Lemma bind_raises {A B} (m : M A) (k : A -> M B) :
  raises_only_OperationalError m ->
  (forall a, raises_only_OperationalError (k a)) ->
  raises_only_OperationalError (bind m k).
Proof.
  intros Hm Hk w e w' H. apply bind_inv in H as [(a & w1 & _ & H)|(e' & H & He)].
  - exact (Hk a w1 e w' H).
  - inversion He; subst e'. exact (Hm w e w' H).
Qed.

Lemma pure_raises {A} (m : M A) :
  (forall w, exists a w1, m w = (Ok a, w1)) -> raises_only_OperationalError m.
Proof. intros H w e w' E. destruct (H w) as (a & w1 & Ha). congruence. Qed.

Lemma ret_raises {A} (a : A) : raises_only_OperationalError (ret a).
Proof. apply pure_raises. intros w. do 2 eexists. reflexivity. Qed.

Lemma find_available_raises (env : Env) (queue : option string) :
  raises_only_OperationalError (find_available env queue).
Proof.
  unfold find_available, qs_fetch.
  repeat first
    [ apply bind_raises; [|intros ?]
    | apply db_access_raises
    | apply ret_raises
    | apply pure_raises; intros ?; do 2 eexists; reflexivity ].
Qed.

Lemma lock_raises (env : Env) (task : Task) (locked_by : string) :
  raises_only_OperationalError (lock env task locked_by).
Proof.
  unfold lock.
  apply bind_raises; [apply pure_raises; intros ?; do 2 eexists; reflexivity|intros now].
  apply bind_raises; [apply db_access_raises|intros _].
  apply bind_raises; [apply pure_raises; intros ?; do 2 eexists; reflexivity|intros d].
  destruct (List.filter _ _) as [|row [|]]; try apply ret_raises.
  apply bind_raises; [apply pure_raises; intros ?; do 2 eexists; reflexivity|intros _].
  apply ret_raises.
Qed.

Lemma lock_first_raises (env : Env) (self : DBTaskRunner) (l : list Task) :
  raises_only_OperationalError (lock_first env self l).
Proof.
  induction l as [|t l IH]; simpl; [apply ret_raises|].
  apply bind_raises; [apply lock_raises|intros [locked|]]; [apply ret_raises|exact IH].
Qed.

Lemma get_task_to_run_try_raises (env : Env) (self : DBTaskRunner) (tasks : Tasks)
    (queue : option string) :
  raises_only_OperationalError (get_task_to_run_try env self tasks queue).
Proof.
  unfold get_task_to_run_try.
  apply bind_raises; [apply find_available_raises|intros found].
  apply lock_first_raises.
Qed.

(** An unreachable store makes the candidate selection raise. *)
Lemma unreachable_store_raises (env : Env) (self : DBTaskRunner) (tasks : Tasks)
    (queue : option string) (w : World) (fs : list bool) :
  faults w = true :: fs ->
  get_task_to_run_try env self tasks queue w = (Raise OperationalError, set_faults fs w).
Proof.
  intros H. unfold get_task_to_run_try, find_available, qs_fetch, bind, timezone_now,
    db_access. rewrite H. destruct queue as [q|]; [destruct (truthy_str q)|]; reflexivity.
Qed.

(** C5: when the store raises [OperationalError] during candidate
    selection or lock acquisition, [get_task_to_run] catches it, logs the
    warning and yields no Task, and [run_next_task] returns false; and in
    no world does the claim step pass an exception on to its caller. *)
Theorem store_outage_is_no_work
    (env : Env) (self : DBTaskRunner) (tasks : Tasks) (queue : option string)
    (w w' : World) :
  get_task_to_run_try env self tasks queue w = (Raise OperationalError, w') ->
  let warned :=
    set_trace
      (trace w' ++ [log_warning "Failed to retrieve tasks. Database unreachable."])%list
      w' in
  get_task_to_run env self tasks queue w = (Ok None, warned) /\
  run_next_task env self tasks queue w = (Ok false, warned) /\
  (forall v, exists found v', get_task_to_run env self tasks queue v = (Ok found, v')).
Proof.
  intros H warned.
  assert (Hget : get_task_to_run env self tasks queue w = (Ok None, warned)).
  { unfold get_task_to_run, try_except. rewrite H. reflexivity. }
  split; [exact Hget|]. split.
  - unfold run_next_task, bind. rewrite Hget. reflexivity.
  - intros v. unfold get_task_to_run, try_except.
    destruct (get_task_to_run_try env self tasks queue v) as [[found|e] v'] eqn:E.
    + eauto.
    + apply get_task_to_run_try_raises in E. subst e. do 2 eexists. reflexivity.
Qed.

Lemma In_insert_by_order (t x : Task) (l : list Task) :
  In x (insert_by_order t l) -> x = t \/ In x l.
Proof.
  induction l as [|y l IH]; simpl.
  - intros [<-|[]]. left. reflexivity.
  - destruct (runs_before t y); simpl.
    + intros [<-|[<-|H]]; [left|right; left|right; right]; auto.
    + intros [<-|H]; [right; left; reflexivity|].
      destruct (IH H) as [->|H']; [left; reflexivity|right; right; exact H'].
Qed.

Lemma In_order_by_priority_run_at (x : Task) (l : list Task) :
  In x (order_by_priority_run_at l) -> In x l.
Proof.
  unfold order_by_priority_run_at. induction l as [|y l IH]; simpl; [tauto|].
  intros H. apply In_insert_by_order in H as [->|H]; [left; reflexivity|right; auto].
Qed.

Lemma In_take {A} (x : A) (n : nat) (l : list A) : In x (take n l) -> In x l.
Proof.
  revert l. induction n as [|n IH]; intros [|y l]; simpl; try tauto.
  intros [<-|H]; [left; reflexivity|right; apply IH, H].
Qed.

(** The candidates are unlocked records of the pending table, and selecting
    them changes nothing but the fault plan. *)
Lemma find_available_Ok (env : Env) (queue : option string) (found : list Task)
    (w w1 : World) :
  find_available env queue w = (Ok found, w1) ->
  db w1 = db w /\ clock w1 = clock w /\ trace w1 = trace w /\ pool w1 = pool w /\
  forall c, In c found -> In c (pending (db w)) /\ unlocked env (clock w) c = true.
Proof.
  unfold find_available, qs_fetch. intros H. inv_steps.
  repeat split; try assumption. 
  - intros. apply In_order_by_priority_run_at in H. apply List.filter_In in H as [H _].
    rewrite Hdb in H. exact H.
  - apply In_order_by_priority_run_at in H. apply List.filter_In in H as [_ H].
    apply andb_prop in H as [H _].
    destruct queue as [q|]; [destruct (truthy_str q)|]; try exact H.
    unfold qs_filter_queue in H. apply andb_prop in H as [H _]. exact H.
Qed.

Lemma lock_Ok (env : Env) (task : Task) (locked_by : string) (r : option Task)
    (w w1 : World) :
  lock env task locked_by w = (Ok r, w1) ->
  clock w1 = clock w /\ trace w1 = trace w /\ pool w1 = pool w /\
  match r with
  | None => db w1 = db w
  | Some t =>
      exists row,
        List.filter (fun t => unlocked env (clock w) t && has_id (id task) t)
          (pending (db w)) = [row] /\
        t = set_lock (Some locked_by) (Some (clock w)) row
  end.
Proof.
  unfold lock. intros H. inv_steps. rewrite Hdb in *.
  destruct (List.filter _ _) as [|row [|]] eqn:E; inv_steps; simpl;
    repeat split; try assumption.
  exists row. split; reflexivity.
Qed.

Lemma lock_first_Some (env : Env) (self : DBTaskRunner) (l : list Task) (t : Task)
    (w w1 : World) :
  lock_first env self l w = (Ok (Some t), w1) ->
  (forall c, In c l -> In c (pending (db w)) /\ unlocked env (clock w) c = true) ->
  trace w1 = trace w /\ pool w1 = pool w /\
  exists c, In c l /\ t = set_lock (Some (worker_name self)) (Some (clock w)) c.
Proof.
  revert w. induction l as [|c l IH]; simpl; intros w H Hl.
  - inv_steps.
  - apply bind_Ok_inv in H as (r & w2 & Hlock & H).
    apply lock_Ok in Hlock as (Hc & Ht & Hp & Hr). destruct r as [t'|].
    + inv_steps. destruct Hr as (row & Hrow & ->).
      repeat split; try assumption. exists c. split; [left; reflexivity|].
      destruct (Hl c (or_introl eq_refl)) as [Hin Hun].
      assert (Hc' : In c [row]).
      { rewrite <- Hrow. apply List.filter_In. split; [exact Hin|].
        rewrite Hun. simpl. apply bool_decide_eq_true. reflexivity. }
      destruct Hc' as [->|[]]. reflexivity.
    + destruct (IH w2 H) as (Ht' & Hp' & c' & Hin & ->).
      { intros c' Hc'. rewrite Hr, Hc. apply Hl. right. exact Hc'. }
      rewrite Ht', Hp', Hc. repeat split; try assumption.
      exists c'. split; [right; exact Hin|reflexivity].
Qed.

(** The claim step only hands out tasks whose name is registered, and
    leaves trace and pool alone when it does. *)
Lemma claimed_task_is_registered (env : Env) (self : DBTaskRunner) (tasks : Tasks)
    (queue : option string) (t : Task) (w w1 : World) :
  get_task_to_run env self tasks queue w = (Ok (Some t), w1) ->
  is_Some (_tasks tasks !! task_name t) /\ trace w1 = trace w /\ pool w1 = pool w.
Proof.
  unfold get_task_to_run, try_except. intros H.
  destruct (get_task_to_run_try env self tasks queue w) as [[found|e] w2] eqn:E.
  - inversion H; subst found w2; clear H. unfold get_task_to_run_try in E.
    apply bind_Ok_inv in E as (found & w2 & Hf & E).
    apply find_available_Ok in Hf as (Hd & Hc & Ht & Hp & Hfound).
    apply lock_first_Some in E as (Ht' & Hp' & c & Hin & ->).
    + split; [|split; congruence]. simpl.
      apply In_take, List.filter_In in Hin as [_ Hreg].
      apply bool_decide_eq_true in Hreg. exact Hreg.
    + intros c Hc'. apply In_take, List.filter_In in Hc' as [Hc' _].
      rewrite Hd, Hc. apply Hfound, Hc'.
  - destruct e; discriminate.
Qed.

(** C4, as the code has it: when the claim step returns no Task,
    [run_next_task] returns false.  When it returns a Task, the name of
    the Task is registered, [run_next_task] logs it and hands it to
    [Tasks.run_task]: with BACKGROUND_TASK_RUN_ASYNC off that runs
    [bg_runner] on the Task before [run_next_task] returns true (or passes
    on what [bg_runner] lets through); with it on, the call is only
    submitted to the pool and [run_next_task] returns true at once. *)
Theorem run_next_task_runs_claimed_task
    (env : Env) (self : DBTaskRunner) (tasks : Tasks) (queue : option string)
    (found : option Task) (w w1 : World) :
  get_task_to_run env self tasks queue w = (Ok found, w1) ->
  match found with
  | None => run_next_task env self tasks queue w = (Ok false, w1)
  | Some task =>
      exists proxy_task,
        _tasks tasks !! task_name task = Some proxy_task /\
        let logged := set_trace (trace w1 ++ [log_info "Running" task])%list w1 in
        run_next_task env self tasks queue w =
          if BACKGROUND_TASK_RUN_ASYNC env
          then (Ok true,
                set_pool (Some (default [] (pool w1)
                                  ++ [mkJob proxy_task (Some task) [] []])%list) logged)
          else (bg_runner env proxy_task (Some task) [] [];; ret true) logged
  end.
Proof.
  intros H. destruct found as [task|].
  - destruct (claimed_task_is_registered _ _ _ _ _ _ _ H) as ([proxy_task Hreg] & _ & _).
    exists proxy_task. split; [exact Hreg|]. intros logged.
    unfold run_next_task, bind at 1. rewrite H.
    unfold DBTaskRunner_run_task, Tasks_run_task, bind at 1 2. simpl.
    fold logged. rewrite Hreg.
    destruct (BACKGROUND_TASK_RUN_ASYNC env); [reflexivity|].
    unfold bind. destruct (bg_runner env proxy_task (Some task) [] [] logged) as [[u|e] w2];
      reflexivity.
  - unfold run_next_task, bind. rewrite H. reflexivity.
Qed.

(** ** Running a task *)

(** *** Computations that only talk to the store *)

Lemma store_only_ret {A} (a : A) : store_only (ret a).
Proof. intros w. simpl. split; [reflexivity|]. intros H. eauto. Qed.

Lemma store_only_bind {A B} (m : M A) (k : A -> M B) :
  store_only m -> (forall a, store_only (k a)) -> store_only (bind m k).
Proof.
  intros Hm Hk w. unfold bind. destruct (Hm w) as [Ht Hf].
  destruct (m w) as [[a|e] w1]; simpl in *.
  - destruct (Hk a w1) as [Ht' Hf']. split; [congruence|].
    intros Hup. destruct (Hf Hup) as [Hup1 _]. exact (Hf' Hup1).
  - split; [exact Ht|]. intros Hup. destruct (Hf Hup) as [_ [a Ha]]. discriminate.
Qed.

Lemma store_only_db_access : store_only db_access.
Proof.
  intros w. unfold db_access. destruct (faults w) as [|[] fs] eqn:E; simpl;
    (split; [reflexivity|]); intros H; try discriminate. eauto.
Qed.

Lemma store_only_timezone_now : store_only timezone_now.
Proof. intros w. simpl. split; [reflexivity|]. eauto. Qed.

Lemma store_only_get_db : store_only get_db.
Proof. intros w. simpl. split; [reflexivity|]. eauto. Qed.

Lemma store_only_put_db (d : DB) : store_only (put_db d).
Proof. intros w. simpl. split; [reflexivity|]. eauto. Qed.

Ltac store_only :=
  repeat first
    [ apply store_only_ret
    | apply store_only_db_access
    | apply store_only_timezone_now
    | apply store_only_get_db
    | apply store_only_put_db
    | apply store_only_bind; [|intros ?]
    | match goal with
      | |- store_only (match ?x with _ => _ end) => destruct x
      | |- store_only (if ?x then _ else _) => destruct x
      end ].

Lemma store_only_save (task : Task) : store_only (save task).
Proof. unfold save. store_only. Qed.

Lemma store_only_qs_fetch (qs : QuerySet) : store_only (qs_fetch qs).
Proof. unfold qs_fetch. store_only. Qed.

Lemma store_only_delete_task (task : Task) : store_only (delete_task task).
Proof. unfold delete_task, qs_delete. store_only. Qed.

Lemma store_only_archive_task (task : Task) (has_error : bool) :
  store_only (archive_task task has_error).
Proof. unfold archive_task. store_only. Qed.

Lemma store_only_increment_attempts (task : Task) : store_only (increment_attempts task).
Proof. apply store_only_save. Qed.

Lemma store_only_create_repetition (task : Task) : store_only (create_repetition task).
Proof.
  unfold create_repetition. destruct (repeat task); [|apply store_only_ret].
  destruct (match repeat_until task with Some _ => _ | None => _ end);
    [|apply store_only_ret].
  apply store_only_bind; [apply store_only_save|intros ?; apply store_only_ret].
Qed.

Lemma store_only_reschedule (env : Env) (task : Task) (e : exn) :
  store_only (reschedule env task e).
Proof.
  unfold reschedule. apply store_only_bind; [apply store_only_timezone_now|intros now].
  destruct (_ <? _).
  - apply store_only_bind; [apply store_only_save|intros ?; apply store_only_ret].
  - apply store_only_bind; [apply store_only_archive_task|intros ?].
    apply store_only_delete_task.
Qed.

(** A store-only statement of the [try] block hands its value on when the
    store is reachable. *)
Lemma attempt_store_only {A} (task : option Task) (m : M A)
    (k : A -> M try_outcome) (w : World) :
  store_only m -> faults w = [] ->
  exists a w1, attempt task m k w = k a w1 /\ faults w1 = [] /\ trace w1 = trace w.
Proof.
  intros Hm Hup. destruct (Hm w) as [Ht Hf]. destruct (Hf Hup) as [Hup1 [a Ha]].
  unfold attempt. destruct (m w) as [r w1]; simpl in *. subst r. eauto.
Qed.

(** *** The events of a computation *)

Lemma emits_ret (P : event -> bool) {A} (a : A) : emits P (ret a).
Proof. intros w. exists []. simpl. rewrite List.app_nil_r. split; reflexivity. Qed.

Lemma emits_raise (P : event -> bool) {A} (e : exn) : emits P (@raise A e).
Proof. intros w. exists []. simpl. rewrite List.app_nil_r. split; reflexivity. Qed.

Lemma emits_emit (P : event -> bool) (e : event) : P e = true -> emits P (emit e).
Proof. intros H w. exists [e]. simpl. rewrite H. split; reflexivity. Qed.

Lemma emits_store_only (P : event -> bool) {A} (m : M A) : store_only m -> emits P m.
Proof.
  intros H w. exists []. destruct (H w) as [Ht _]. rewrite Ht, List.app_nil_r.
  split; reflexivity.
Qed.

Lemma emits_bind (P : event -> bool) {A B} (m : M A) (k : A -> M B) :
  emits P m -> (forall a, emits P (k a)) -> emits P (bind m k).
Proof.
  intros Hm Hk w. unfold bind. destruct (Hm w) as (tr & Ht & HP).
  destruct (m w) as [[a|e] w1]; simpl in *.
  - destruct (Hk a w1) as (tr' & Ht' & HP'). exists (tr ++ tr')%list.
    rewrite Ht', Ht, List.app_assoc, forallb_app, HP, HP'. split; reflexivity.
  - exists tr. split; assumption.
Qed.

Lemma emits_attempt (P : event -> bool) {A} (task : option Task) (m : M A)
    (k : A -> M try_outcome) :
  emits P m -> (forall a, emits P (k a)) -> emits P (attempt task m k).
Proof.
  intros Hm Hk w. unfold attempt. destruct (Hm w) as (tr & Ht & HP).
  destruct (m w) as [[a|e] w1]; simpl in *.
  - destruct (Hk a w1) as (tr' & Ht' & HP'). exists (tr ++ tr')%list.
    rewrite Ht', Ht, List.app_assoc, forallb_app, HP, HP'. split; reflexivity.
  - exists tr. split; assumption.
Qed.

Lemma emits_call (P : event -> bool) (func : callable) (args : pyargs)
    (kwargs : pykwargs) :
  P (invoked (fn_name func) args kwargs) = true -> emits P (call func args kwargs).
Proof.
  intros H w. exists [invoked (fn_name func) args kwargs]. unfold call, bind, emit.
  simpl. destruct (fn_body func args kwargs (db w)) as [r d]. simpl. rewrite H.
  split; reflexivity.
Qed.

Lemma emits_task_done (P : event -> bool) (task : Task) :
  (forall i c, P (task_successful i c) = true) ->
  (forall msg t, P (log_info msg t) = true) ->
  emits P (task_done task).
Proof.
  intros Hs Hl. unfold task_done.
  apply emits_attempt; [apply emits_store_only, store_only_increment_attempts|intros t].
  apply emits_attempt; [apply emits_store_only, store_only_archive_task|intros c].
  apply emits_attempt; [apply emits_emit, Hs|intros _].
  apply emits_attempt; [apply emits_store_only, store_only_create_repetition|intros _].
  apply emits_attempt; [apply emits_store_only, store_only_delete_task|intros _].
  apply emits_attempt; [apply emits_emit, Hl|intros _].
  apply emits_ret.
Qed.

Lemma emits_bg_runner_except (P : event -> bool) (env : Env) (e : exn)
    (task : option Task) :
  (forall x t, P (task_error x t) = true) ->
  (forall msg t, P (log_error msg t) = true) ->
  emits P (bg_runner_except env e task).
Proof.
  intros He Hl. unfold bg_runner_except. destruct (is_Exception e); [|apply emits_raise].
  destruct task as [t|]; [|apply emits_ret].
  apply emits_bind; [apply emits_emit, Hl|intros _].
  apply emits_bind; [apply emits_emit, He|intros _].
  apply emits_store_only, store_only_reschedule.
Qed.

Lemma emits_bg_runner_apply (P : event -> bool) (func : option callable)
    (task : option Task) (args : pyargs) (kwargs : pykwargs) :
  (forall i c, P (task_successful i c) = true) ->
  (forall msg t, P (log_info msg t) = true) ->
  (forall f a k, P (invoked f a k) = true) ->
  emits P (bg_runner_apply func task args kwargs).
Proof.
  intros Hs Hl Hi. unfold bg_runner_apply. destruct func as [func|]; [|apply emits_ret].
  apply emits_attempt; [apply emits_call, Hi|intros _].
  destruct task as [t|]; [apply emits_task_done; assumption|apply emits_ret].
Qed.

Lemma emits_bg_runner_resolve (P : event -> bool) (env : Env) (proxy_task : TaskProxy)
    (task : option Task) (args : pyargs) (kwargs : pykwargs) :
  emits P (bg_runner_resolve env proxy_task task args kwargs).
Proof.
  unfold bg_runner_resolve. destruct task as [t|].
  - unfold params. destruct (loads env (task_params t)).
    + apply emits_bind; [apply emits_ret|intros ?; apply emits_ret].
    + apply emits_bind; [apply emits_raise|intros ?; apply emits_ret].
  - apply emits_bind; [apply emits_store_only, store_only_qs_fetch|intros ?].
    apply emits_ret.
Qed.

Lemma emits_bg_runner_try (P : event -> bool) (env : Env) (proxy_task : TaskProxy)
    (task : option Task) (args : pyargs) (kwargs : pykwargs) :
  (forall i c, P (task_successful i c) = true) ->
  (forall msg t, P (log_info msg t) = true) ->
  (forall f a k, P (invoked f a k) = true) ->
  emits P (bg_runner_try env proxy_task task args kwargs).
Proof.
  intros Hs Hl Hi. unfold bg_runner_try.
  apply emits_attempt; [apply emits_bg_runner_resolve|].
  intros [[task' args'] kwargs']. apply emits_bg_runner_apply; assumption.
Qed.

(** *** The signals of [bg_runner] *)

Lemma emitted_app {A} (m : M A) (w : World) (tr : list event) :
  trace (m w).2 = (trace w ++ tr)%list -> emitted m w = tr.
Proof. unfold emitted. intros ->. apply drop_app_length. Qed.

Lemma count_of_none (p : event -> bool) (tr : list event) :
  forallb (fun e => negb (p e)) tr = true -> count_of p tr = 0%nat.
Proof.
  unfold count_of. induction tr as [|e tr IH]; [reflexivity|]. simpl.
  destruct (p e); simpl; [discriminate|exact IH].
Qed.

Lemma qs_fetch_up (qs : QuerySet) (w : World) :
  faults w = [] -> qs_fetch qs w = (Ok (List.filter qs (pending (db w))), w).
Proof. intros H. unfold qs_fetch, bind, db_access, get_db, ret. rewrite H. reflexivity. Qed.

Lemma qs_fetch_Ok (qs : QuerySet) (rows : list Task) (w w1 : World) :
  qs_fetch qs w = (Ok rows, w1) ->
  rows = List.filter qs (pending (db w)) /\ trace w1 = trace w.
Proof. unfold qs_fetch. intros H. inv_steps. rewrite Hdb. split; [reflexivity|assumption]. Qed.

Lemma call_trace (func : callable) (args : pyargs) (kwargs : pykwargs) (w : World) :
  trace (call func args kwargs w).2 = (trace w ++ [invoked (fn_name func) args kwargs])%list /\
  faults (call func args kwargs w).2 = faults w.
Proof.
  unfold call, bind, emit. simpl.
  destruct (fn_body func args kwargs (db w)) as [r d]. split; reflexivity.
Qed.

(** On a reachable store the success bookkeeping runs to its end and sends
    the success signal. *)
Lemma task_done_up (task : Task) (w : World) :
  faults w = [] ->
  exists w1 i c t,
    task_done task w = (Ok Completed, w1) /\ faults w1 = [] /\
    trace w1 = (trace w ++ [task_successful i c; log_info "Ran task and deleting" t])%list.
Proof.
  intros Hup. unfold task_done.
  destruct (attempt_store_only (Some task) (increment_attempts task)
              (fun task => completed <-[ Some task ]- create_completed_task task;;
                 _ <-[ Some task ]- emit (task_successful (id task) completed);;
                 _ <-[ Some task ]- create_repetition task;;
                 _ <-[ Some task ]- delete_task task;;
                 _ <-[ Some task ]- emit (log_info "Ran task and deleting" task);;
                 ret Completed) w (store_only_increment_attempts task) Hup)
    as (t & w1 & -> & Hup1 & Ht1).
  destruct (attempt_store_only (Some t) (create_completed_task t)
              (fun completed =>
                 _ <-[ Some t ]- emit (task_successful (id t) completed);;
                 _ <-[ Some t ]- create_repetition t;;
                 _ <-[ Some t ]- delete_task t;;
                 _ <-[ Some t ]- emit (log_info "Ran task and deleting" t);;
                 ret Completed) w1 (store_only_archive_task t false) Hup1)
    as (c & w2 & -> & Hup2 & Ht2).
  unfold attempt at 1, emit at 1.
  destruct (attempt_store_only (Some t) (create_repetition t)
              (fun _ =>
                 _ <-[ Some t ]- delete_task t;;
                 _ <-[ Some t ]- emit (log_info "Ran task and deleting" t);;
                 ret Completed)
              (set_trace (trace w2 ++ [task_successful (id t) c]) w2)
              (store_only_create_repetition t) Hup2)
    as (rep & w3 & -> & Hup3 & Ht3).
  destruct (attempt_store_only (Some t) (delete_task t)
              (fun _ =>
                 _ <-[ Some t ]- emit (log_info "Ran task and deleting" t);;
                 ret Completed) w3 (store_only_delete_task t) Hup3)
    as (u & w4 & -> & Hup4 & Ht4).
  unfold attempt, emit, ret. exists (set_trace (trace w4 ++ [log_info "Ran task and deleting" t]) w4), (id t), c, t.
  split; [reflexivity|]. split; [exact Hup4|]. simpl.
  rewrite Ht4, Ht3. simpl. rewrite Ht2, Ht1, <- List.app_assoc. reflexivity.
Qed.

(** On a reachable store the handler sends the error signal and
    reschedules. *)
Lemma bg_runner_except_up (env : Env) (e : exn) (task : Task) (w : World) :
  faults w = [] -> is_Exception e = true ->
  exists w1,
    bg_runner_except env e (Some task) w = (Ok tt, w1) /\ faults w1 = [] /\
    trace w1 = (trace w ++ [log_error "Rescheduling" task; task_error e task])%list.
Proof.
  intros Hup He. unfold bg_runner_except. rewrite He.
  unfold bind at 1, emit at 1. unfold bind at 1, emit at 1.
  set (w0 := set_trace _ (set_trace _ w)).
  destruct (store_only_reschedule env task e w0) as [Ht Hf].
  destruct (Hf Hup) as [Hup1 [[] Ha]].
  destruct (reschedule env task e w0) as [r w1]; simpl in *. subst r.
  exists w1. split; [reflexivity|]. split; [exact Hup1|].
  rewrite Ht. unfold w0. simpl. rewrite <- List.app_assoc. reflexivity.
Qed.

Lemma count_of_app (p : event -> bool) (l k : list event) :
  count_of p (l ++ k) = (count_of p l + count_of p k)%nat.
Proof. unfold count_of. rewrite List.filter_app, length_app. reflexivity. Qed.

Lemma bg_runner_apply_attached_up (func : option callable) (task : Task)
    (args : pyargs) (kwargs : pykwargs) (w : World) :
  faults w = [] ->
  exists o w1 tr,
    bg_runner_apply func (Some task) args kwargs w = (Ok o, w1) /\
    faults w1 = [] /\ trace w1 = (trace w ++ tr)%list /\
    match o with
    | Completed => count_of is_outcome_signal tr = 1%nat
    | Raised e tk => count_of is_outcome_signal tr = 0%nat /\ is_Some tk
    end.
Proof.
  intros Hup. unfold bg_runner_apply. destruct func as [func|].
  - destruct (call_trace func args kwargs w) as [Ht Hf]. unfold attempt.
    destruct (call func args kwargs w) as [[v|e] w1]; simpl in Ht, Hf.
    + destruct (task_done_up task w1) as (w2 & i & c & t & E & Hup2 & Ht2);
        [congruence|].
      exists Completed, w2, [invoked (fn_name func) args kwargs; task_successful i c;
                             log_info "Ran task and deleting" t].
      split; [exact E|]. split; [exact Hup2|]. split; [|reflexivity].
      rewrite Ht2, Ht, <- List.app_assoc. reflexivity.
    + exists (Raised e (Some task)), w1, [invoked (fn_name func) args kwargs].
      split; [reflexivity|]. split; [congruence|]. split; [exact Ht|].
      split; [reflexivity|eauto].
  - exists (Raised (BackgroundTaskError "Function is None, can't execute!") (Some task)),
      w, []. rewrite List.app_nil_r. repeat split; eauto.
Qed.

Lemma bg_runner_try_attached_up (env : Env) (proxy_task : TaskProxy)
    (task : option Task) (args : pyargs) (kwargs : pykwargs) (w : World) :
  faults w = [] ->
  is_Some (attached_task env proxy_task task args kwargs w) ->
  exists o w1 tr,
    bg_runner_try env proxy_task task args kwargs w = (Ok o, w1) /\
    faults w1 = [] /\ trace w1 = (trace w ++ tr)%list /\
    match o with
    | Completed => count_of is_outcome_signal tr = 1%nat
    | Raised e tk => count_of is_outcome_signal tr = 0%nat /\ is_Some tk
    end.
Proof.
  intros Hup [t0 Hat]. unfold bg_runner_try, attempt at 1, bg_runner_resolve.
  destruct task as [t|]; simpl in Hat.
  - unfold params, bind. destruct (loads env (task_params t)) as [[a k]|]; simpl.
    + apply bg_runner_apply_attached_up, Hup.
    + exists (Raised ValueError (Some t)), w, []. rewrite List.app_nil_r.
      repeat split; eauto.
  - unfold bind. rewrite (qs_fetch_up _ w Hup). simpl. rewrite Hat.
    apply bg_runner_apply_attached_up, Hup.
Qed.

Lemma bg_runner_unattached (env : Env) (proxy_task : TaskProxy)
    (task : option Task) (args : pyargs) (kwargs : pykwargs) (w : World) :
  attached_task env proxy_task task args kwargs w = None ->
  exists tr,
    trace (bg_runner env proxy_task task args kwargs w).2 = (trace w ++ tr)%list /\
    forallb (fun e => negb (is_outcome_signal e)) tr = true.
Proof.
  intros Hat. destruct task as [t|]; [discriminate|]. simpl in Hat.
  unfold bg_runner, bind at 1, emit at 1.
  set (w0 := set_trace (trace w ++ [task_started]) w).
  assert (Htry : exists o w1 tr,
             bg_runner_try env proxy_task None args kwargs w0 = (Ok o, w1) /\
             trace w1 = (trace w0 ++ tr)%list /\
             forallb (fun e => negb (is_outcome_signal e)) tr = true /\
             match o with Completed => True | Raised _ tk => tk = None end).
  { unfold bg_runner_try, attempt at 1, bg_runner_resolve, bind.
    destruct (qs_fetch (bg_runner_task_qs env proxy_task args kwargs) w0)
      as [[rows|e] w1] eqn:E.
    - apply qs_fetch_Ok in E as [-> Ht]. change (db w0) with (db w). rewrite Hat.
      simpl. unfold bg_runner_apply. destruct (task_function proxy_task) as [func|].
      + destruct (call_trace func args kwargs w1) as [Hc _]. unfold attempt.
        destruct (call func args kwargs w1) as [[v|e] w2]; simpl in Hc.
        * exists Completed, w2, [invoked (fn_name func) args kwargs].
          rewrite Hc, Ht. repeat split.
        * exists (Raised e None), w2, [invoked (fn_name func) args kwargs].
          rewrite Hc, Ht. repeat split.
      + eexists _, w1, []. rewrite List.app_nil_r. repeat split. exact Ht.
    - destruct (store_only_qs_fetch (bg_runner_task_qs env proxy_task args kwargs) w0)
        as [Ht _]. rewrite E in Ht. simpl in Ht.
      exists (Raised e None), w1, []. rewrite List.app_nil_r. repeat split. exact Ht. }
  destruct Htry as (o & w1 & tr & E & Ht & Hno & Ho).
  unfold bind at 1. rewrite E. unfold bind. destruct o as [|e tk].
  - exists (task_started :: tr ++ [task_finished])%list. simpl.
    rewrite Ht. unfold w0. simpl. rewrite <- !List.app_assoc. split; [reflexivity|].
    rewrite forallb_app, Hno. reflexivity.
  - subst tk. unfold bg_runner_except. destruct (is_Exception e); simpl.
    + exists (task_started :: tr ++ [task_finished])%list.
      rewrite Ht. unfold w0. simpl. rewrite <- !List.app_assoc. split; [reflexivity|].
      rewrite forallb_app, Hno. reflexivity.
    + exists (task_started :: tr). rewrite Ht. unfold w0. simpl.
      rewrite <- List.app_assoc. split; [reflexivity|exact Hno].
Qed.

(** The events of a run: the started signal, then events that are neither
    started nor finished signals, then the finished signal if the run
    returns. *)
Lemma bg_runner_shape (env : Env) (proxy_task : TaskProxy) (task : option Task)
    (args : pyargs) (kwargs : pykwargs) (w : World) :
  exists mid r w',
    bg_runner env proxy_task task args kwargs w = (r, w') /\
    forallb is_internal mid = true /\
    trace w' = (trace w ++ task_started :: mid ++ match r with
                                                  | Ok _ => [task_finished]
                                                  | Raise _ => []
                                                  end)%list.
Proof.
  unfold bg_runner, bind at 1, emit at 1.
  set (w0 := set_trace (trace w ++ [task_started]) w).
  destruct (emits_bg_runner_try is_internal env proxy_task task args kwargs
              ltac:(reflexivity) ltac:(reflexivity) ltac:(reflexivity) w0)
    as (tr1 & Ht1 & HP1).
  unfold bind at 1.
  destruct (bg_runner_try env proxy_task task args kwargs w0) as [[o|e] w1];
    simpl in Ht1.
  - assert (Hrest : exists tr2 r w2,
               forallb is_internal tr2 = true /\
               match o with
               | Completed => ret tt
               | Raised e task => bg_runner_except env e task
               end w1 = (r, w2) /\ trace w2 = (trace w1 ++ tr2)%list).
    { destruct o as [|e tk].
      - exists [], (Ok tt), w1. rewrite List.app_nil_r. repeat split.
      - destruct (emits_bg_runner_except is_internal env e tk
                    ltac:(reflexivity) ltac:(reflexivity) w1) as (tr2 & Ht2 & HP2).
        destruct (bg_runner_except env e tk w1) as [r w2].
        exists tr2, r, w2. repeat split; assumption. }
    destruct Hrest as (tr2 & r & w2 & HP2 & E & Ht2). unfold bind. rewrite E.
    exists (tr1 ++ tr2)%list. destruct r as [u|e].
    + do 2 eexists. split; [reflexivity|].
      split; [rewrite forallb_app, HP1, HP2; reflexivity|].
      simpl. rewrite Ht2, Ht1. unfold w0. simpl. rewrite <- !List.app_assoc. reflexivity.
    + do 2 eexists. split; [reflexivity|].
      split; [rewrite forallb_app, HP1, HP2; reflexivity|].
      rewrite Ht2, Ht1. unfold w0. simpl. rewrite <- !List.app_assoc, List.app_nil_r.
      reflexivity.
  - exists tr1. do 2 eexists. split; [reflexivity|]. split; [exact HP1|].
    rewrite Ht1. unfold w0. simpl. rewrite <- List.app_assoc, List.app_nil_r. reflexivity.
Qed.

(** With a Task record attached and the store reachable, a run that
    returns sends exactly one of the success and the error signal. *)
Lemma bg_runner_attached_up (env : Env) (proxy_task : TaskProxy) (task : option Task)
    (args : pyargs) (kwargs : pykwargs) (w w' : World) :
  faults w = [] ->
  is_Some (attached_task env proxy_task task args kwargs w) ->
  bg_runner env proxy_task task args kwargs w = (Ok tt, w') ->
  exists tr, trace w' = (trace w ++ tr)%list /\ count_of is_outcome_signal tr = 1%nat.
Proof.
  intros Hup Hat. unfold bg_runner, bind at 1, emit at 1.
  set (w0 := set_trace (trace w ++ [task_started]) w).
  destruct (bg_runner_try_attached_up env proxy_task task args kwargs w0 Hup Hat)
    as (o & w1 & tr & E & Hup1 & Ht1 & Ho).
  unfold bind at 1. rewrite E. destruct o as [|e tk].
  - unfold bind, ret, emit. intros H. inversion H; subst w'; clear H.
    exists ([task_started] ++ tr ++ [task_finished])%list. simpl trace.
    rewrite Ht1. unfold w0. simpl trace. rewrite <- !List.app_assoc.
    split; [reflexivity|]. rewrite !count_of_app, Ho. reflexivity.
  - destruct Ho as [Ho [t ->]]. destruct (is_Exception e) eqn:He.
    + destruct (bg_runner_except_up env e t w1 Hup1 He) as (w2 & E2 & _ & Ht2).
      unfold bind, emit. rewrite E2. intros H. inversion H; subst w'; clear H.
      exists ([task_started] ++ tr ++ [log_error "Rescheduling" t; task_error e t]
                ++ [task_finished])%list.
      simpl trace. rewrite Ht2, Ht1. unfold w0. simpl trace. rewrite <- !List.app_assoc.
      split; [reflexivity|]. rewrite !count_of_app, Ho. reflexivity.
    + unfold bind, bg_runner_except. rewrite He. discriminate.
Qed.

Lemma call_result (func : callable) (args : pyargs) (kwargs : pykwargs)
    (r : result pyval) (w w1 : World) :
  call func args kwargs w = (r, w1) ->
  exists d,
    fn_body func args kwargs (db w) = (r, d) /\
    w1 = set_db d (set_trace (trace w ++ [invoked (fn_name func) args kwargs]) w).
Proof.
  unfold call, bind, emit. simpl.
  destruct (fn_body func args kwargs (db w)) as [r' d]. intros H. inversion H; subst.
  exists d. split; reflexivity.
Qed.

Lemma bg_runner_apply_up (func : option callable) (task : option Task)
    (args : pyargs) (kwargs : pykwargs) (w : World) :
  faults w = [] ->
  (forall f, func = Some f -> raises_only_Exceptions f) ->
  exists o w1,
    bg_runner_apply func task args kwargs w = (Ok o, w1) /\ faults w1 = [] /\
    match o with
    | Completed => True
    | Raised e _ => is_Exception e = true
    end.
Proof.
  intros Hup Hf. unfold bg_runner_apply. destruct func as [func|].
  - unfold attempt. destruct (call func args kwargs w) as [[v|e] w1] eqn:Ec.
    + apply call_result in Ec as (d & _ & ->). destruct task as [t|].
      * destruct (task_done_up t (set_db d (set_trace
                    (trace w ++ [invoked (fn_name func) args kwargs]) w)) Hup)
          as (w2 & i & c & t' & E & Hup2 & _).
        exists Completed, w2. repeat split; assumption.
      * do 2 eexists. repeat split. exact Hup.
    + apply call_result in Ec as (d & Hb & ->).
      exists (Raised e task). eexists. split; [reflexivity|]. split; [exact Hup|].
      exact (Hf func eq_refl _ _ _ _ _ Hb).
  - do 2 eexists. split; [reflexivity|]. split; [exact Hup|reflexivity].
Qed.

Lemma bg_runner_try_up (env : Env) (proxy_task : TaskProxy) (task : option Task)
    (args : pyargs) (kwargs : pykwargs) (w : World) :
  faults w = [] ->
  (forall f, task_function proxy_task = Some f -> raises_only_Exceptions f) ->
  exists o w1,
    bg_runner_try env proxy_task task args kwargs w = (Ok o, w1) /\ faults w1 = [] /\
    match o with
    | Completed => True
    | Raised e _ => is_Exception e = true
    end.
Proof.
  intros Hup Hf. unfold bg_runner_try, attempt at 1, bg_runner_resolve.
  destruct task as [t|].
  - unfold params, bind. destruct (loads env (task_params t)) as [[a k]|]; simpl.
    + apply bg_runner_apply_up; assumption.
    + do 2 eexists. split; [reflexivity|]. split; [exact Hup|reflexivity].
  - unfold bind. rewrite (qs_fetch_up _ w Hup). simpl.
    apply bg_runner_apply_up; assumption.
Qed.

Lemma bg_runner_returns_up
    (env : Env) (proxy_task : TaskProxy) (task : option Task)
    (args : pyargs) (kwargs : pykwargs) (w : World) :
  faults w = [] ->
  (forall f, task_function proxy_task = Some f -> raises_only_Exceptions f) ->
  exists w',
    bg_runner env proxy_task task args kwargs w = (Ok tt, w') /\
    faults w' = [] /\
    last (trace w') = Some task_finished.
Proof.
  intros Hup Hf. unfold bg_runner, bind at 1, emit at 1.
  destruct (bg_runner_try_up env proxy_task task args kwargs
              (set_trace (trace w ++ [task_started]) w) Hup Hf)
    as (o & w1 & E & Hup1 & Ho).
  unfold bind at 1. rewrite E. destruct o as [|e tk].
  - unfold bind, ret, emit. eexists. split; [reflexivity|]. split; [exact Hup1|].
    simpl. apply last_snoc.
  - destruct tk as [t|].
    + destruct (bg_runner_except_up env e t w1 Hup1 Ho) as (w2 & E2 & Hup2 & _).
      unfold bind, emit. rewrite E2. eexists. split; [reflexivity|].
      split; [exact Hup2|]. simpl. apply last_snoc.
    + unfold bind, bg_runner_except, ret, emit. rewrite Ho.
      eexists. split; [reflexivity|]. split; [exact Hup1|]. simpl. apply last_snoc.
Qed.

(** With a Task record attached, the [try] block is the call of the
    function on the arguments of the run, followed by the bookkeeping. *)
Lemma bg_runner_try_call_up (env : Env) (proxy_task : TaskProxy) (task : option Task)
    (args : pyargs) (kwargs : pykwargs) (w : World) (t : Task) (func : callable)
    (a : pyargs) (k : pykwargs) :
  faults w = [] ->
  attached_task env proxy_task task args kwargs w = Some t ->
  task_function proxy_task = Some func ->
  call_arguments env task args kwargs = Some (a, k) ->
  bg_runner_try env proxy_task task args kwargs w
  = bg_runner_apply (Some func) (Some t) a k w.
Proof.
  intros Hup Hat Hf Hargs. unfold bg_runner_try, attempt at 1, bg_runner_resolve.
  destruct task as [t'|]; simpl in Hat, Hargs.
  - inversion Hat; subst t'. unfold params, bind. rewrite Hargs, Hf. reflexivity.
  - inversion Hargs; subst a k. unfold bind. rewrite (qs_fetch_up _ w Hup). simpl.
    rewrite Hat, Hf. reflexivity.
Qed.

(** On a reachable store, with a Task record attached: an [Exception] of
    the function is followed by the error log line, the error signal and
    the finished signal, and the run returns. *)
Lemma failing_run_up (env : Env) (proxy_task : TaskProxy) (task : option Task)
    (args : pyargs) (kwargs : pykwargs) (w : World) (t : Task) (func : callable)
    (a : pyargs) (k : pykwargs) (e : exn) (d : DB) :
  faults w = [] ->
  attached_task env proxy_task task args kwargs w = Some t ->
  task_function proxy_task = Some func ->
  call_arguments env task args kwargs = Some (a, k) ->
  fn_body func a k (db w) = (Raise e, d) ->
  is_Exception e = true ->
  exists w',
    bg_runner env proxy_task task args kwargs w = (Ok tt, w') /\
    trace w' = (trace w ++ [task_started; invoked (fn_name func) a k;
                            log_error "Rescheduling" t; task_error e t;
                            task_finished])%list.
Proof.
  intros Hup Hat Hf Hargs Hbody He. unfold bg_runner, bind at 1, emit at 1.
  set (w0 := set_trace (trace w ++ [task_started]) w).
  set (w1 := set_db d (set_trace (trace w0 ++ [invoked (fn_name func) a k]) w0)).
  assert (Htry : bg_runner_try env proxy_task task args kwargs w0
                 = (Ok (Raised e (Some t)), w1)).
  { rewrite (bg_runner_try_call_up env proxy_task task args kwargs w0 t func a k
               Hup Hat Hf Hargs).
    unfold bg_runner_apply, attempt, call, bind, emit. simpl. rewrite Hbody. reflexivity. }
  destruct (bg_runner_except_up env e t w1 Hup He) as (w2 & E2 & _ & Ht2).
  unfold bind at 1. rewrite Htry. unfold bind, emit. rewrite E2.
  eexists. split; [reflexivity|]. simpl. rewrite Ht2. unfold w1, w0. simpl.
  rewrite <- !List.app_assoc. reflexivity.
Qed.

(** On a reachable store, with a Task record attached: when the function
    returns, the success signal and the log line follow the invocation,
    then the finished signal, and the run returns. *)
Lemma returning_run_up (env : Env) (proxy_task : TaskProxy) (task : option Task)
    (args : pyargs) (kwargs : pykwargs) (w : World) (t : Task) (func : callable)
    (a : pyargs) (k : pykwargs) (v : pyval) (d : DB) :
  faults w = [] ->
  attached_task env proxy_task task args kwargs w = Some t ->
  task_function proxy_task = Some func ->
  call_arguments env task args kwargs = Some (a, k) ->
  fn_body func a k (db w) = (Ok v, d) ->
  exists w' i c t',
    bg_runner env proxy_task task args kwargs w = (Ok tt, w') /\
    trace w' = (trace w ++ [task_started; invoked (fn_name func) a k;
                            task_successful i c; log_info "Ran task and deleting" t';
                            task_finished])%list.
Proof.
  intros Hup Hat Hf Hargs Hbody. unfold bg_runner, bind at 1, emit at 1.
  set (w0 := set_trace (trace w ++ [task_started]) w).
  set (w1 := set_db d (set_trace (trace w0 ++ [invoked (fn_name func) a k]) w0)).
  destruct (task_done_up t w1 Hup) as (w2 & i & c & t' & E & _ & Ht2).
  assert (Htry : bg_runner_try env proxy_task task args kwargs w0 = (Ok Completed, w2)).
  { rewrite (bg_runner_try_call_up env proxy_task task args kwargs w0 t func a k
               Hup Hat Hf Hargs).
    unfold bg_runner_apply, attempt at 1.
    assert (Hcall : call func a k w0 = (Ok v, w1)).
    { unfold call, bind, emit. simpl. rewrite Hbody. reflexivity. }
    rewrite Hcall. exact E. }
  unfold bind at 1. rewrite Htry. unfold bind, ret, emit.
  exists (set_trace (trace w2 ++ [task_finished]) w2), i, c, t'.
  split; [reflexivity|]. simpl. rewrite Ht2. unfold w1, w0. simpl.
  rewrite <- !List.app_assoc. reflexivity.
Qed.

(** C7, as the code has it.  In every run of [bg_runner] the started
    signal is the first event, before any invocation; the events after it
    hold no second started signal, and when [bg_runner] returns they end
    with the one finished signal.  When no Task record is attached (none
    was given and the lookup finds none), neither the success nor the error
    signal is sent.  When a Task record is attached, the store is reachable
    and [bg_runner] returns, exactly one of the two is sent.  On a reachable
    store an [Exception] of the function is contained: [bg_runner] returns
    whenever the function raises nothing but [Exception]s, and with a Task
    record attached the events of a run are the started signal, the
    invocation, then the success signal and the log line when the function
    returns, or the error log line and the error signal carrying the
    exception when it raises, and the finished signal. *)
Theorem bg_runner_signals
    (env : Env) (proxy_task : TaskProxy) (task : option Task)
    (args : pyargs) (kwargs : pykwargs) (w : World) :
  let run := bg_runner env proxy_task task args kwargs in
  (exists rest,
      emitted run w = task_started :: rest /\
      count_of is_start rest = 0%nat /\
      ((run w).1 = Ok tt ->
       exists mid, rest = (mid ++ [task_finished])%list /\
                   count_of is_finish mid = 0%nat)) /\
  (attached_task env proxy_task task args kwargs w = None ->
   count_of is_outcome_signal (emitted run w) = 0%nat) /\
  (faults w = [] ->
   is_Some (attached_task env proxy_task task args kwargs w) ->
   (run w).1 = Ok tt ->
   count_of is_outcome_signal (emitted run w) = 1%nat) /\
  (faults w = [] ->
   (forall f, task_function proxy_task = Some f -> raises_only_Exceptions f) ->
   (run w).1 = Ok tt) /\
  (forall t func a k e d,
      faults w = [] ->
      attached_task env proxy_task task args kwargs w = Some t ->
      task_function proxy_task = Some func ->
      call_arguments env task args kwargs = Some (a, k) ->
      fn_body func a k (db w) = (Raise e, d) ->
      is_Exception e = true ->
      (run w).1 = Ok tt /\
      emitted run w = [task_started; invoked (fn_name func) a k;
                       log_error "Rescheduling" t; task_error e t; task_finished]) /\
  (forall t func a k v d,
      faults w = [] ->
      attached_task env proxy_task task args kwargs w = Some t ->
      task_function proxy_task = Some func ->
      call_arguments env task args kwargs = Some (a, k) ->
      fn_body func a k (db w) = (Ok v, d) ->
      (run w).1 = Ok tt /\
      exists i c t',
        emitted run w = [task_started; invoked (fn_name func) a k;
                         task_successful i c; log_info "Ran task and deleting" t';
                         task_finished]).
Proof.
  intros run. split; [|split; [|split; [|split; [|split]]]].
  - destruct (bg_runner_shape env proxy_task task args kwargs w)
      as (mid & r & w' & E & HP & Ht).
    assert (Hmid : count_of is_start mid = 0%nat /\ count_of is_finish mid = 0%nat).
    { clear -HP. unfold count_of. induction mid as [|e mid IH]; [split; reflexivity|].
      simpl in HP. apply andb_prop in HP as [He HP]. destruct (IH HP) as [IH1 IH2].
      destruct e; try discriminate He; simpl; split; assumption. }
    destruct Hmid as [Hs Hf].
    exists (mid ++ match r with Ok _ => [task_finished] | Raise _ => [] end)%list.
    unfold run. rewrite E. simpl. split; [apply emitted_app; rewrite E; exact Ht|].
    split; [rewrite count_of_app, Hs; destruct r; reflexivity|].
    intros ->. exists mid. split; [reflexivity|exact Hf].
  - intros Hat. destruct (bg_runner_unattached _ _ _ _ _ _ Hat) as (tr & Ht & Hno).
    unfold run. rewrite (emitted_app _ _ _ Ht). apply count_of_none, Hno.
  - intros Hup Hat Hok. unfold run in *.
    destruct (bg_runner env proxy_task task args kwargs w) as [r w'] eqn:E.
    simpl in Hok. subst r.
    destruct (bg_runner_attached_up _ _ _ _ _ _ _ Hup Hat E) as (tr & Ht & Hc).
    rewrite (emitted_app _ w tr); [exact Hc|]. rewrite E. exact Ht.
  - intros Hup Hf.
    destruct (bg_runner_returns_up env proxy_task task args kwargs w Hup Hf)
      as (w' & E & _). unfold run. rewrite E. reflexivity.
  - intros t func a k e d Hup Hat Hf Hargs Hbody He.
    destruct (failing_run_up env proxy_task task args kwargs w t func a k e d
                Hup Hat Hf Hargs Hbody He) as (w' & E & Ht).
    unfold run. rewrite E. split; [reflexivity|]. apply emitted_app. rewrite E. exact Ht.
  - intros t func a k v d Hup Hat Hf Hargs Hbody.
    destruct (returning_run_up env proxy_task task args kwargs w t func a k v d
                Hup Hat Hf Hargs Hbody) as (w' & i & c & t' & E & Ht).
    unfold run. rewrite E. split; [reflexivity|]. exists i, c, t'.
    apply emitted_app. rewrite E. exact Ht.
Qed.

(** *** The arguments of a run on a Task instance *)



(** * Sample runs *)

(** A function that raises: the error signal is sent, and the task is
    unlocked and rescheduled with one attempt counted. *)
Example failing_function_is_rescheduled :
  (bg_runner (Sample.env false) Sample.broken_proxy (Some Sample.locked_task) [] []
     Sample.after_claim).1 = Ok tt /\
  map (fun t => (attempts t, run_at t, locked_by t))
    (pending (db (Sample.after (bg_runner (Sample.env false) Sample.broken_proxy
                                  (Some Sample.locked_task) [] []) Sample.after_claim)))
  = [(1, 200000000 + timedelta_seconds 6, None)] /\
  count_of is_outcome_signal
    (emitted (bg_runner (Sample.env false) Sample.broken_proxy (Some Sample.locked_task) [] [])
       Sample.after_claim) = 1%nat.
Proof. repeat split; vm_compute; reflexivity. Qed.

(** The store going away while the handler reschedules: the exception
    leaves [bg_runner] and the finished signal is not sent. *)
Example failing_handler_skips_finished :
  (bg_runner (Sample.env false) Sample.broken_proxy (Some Sample.locked_task) [] []
     (set_faults [true] Sample.after_claim)).1 = Raise OperationalError /\
  count_of is_finish
    (emitted (bg_runner (Sample.env false) Sample.broken_proxy (Some Sample.locked_task) [] [])
       (set_faults [true] Sample.after_claim)) = 0%nat.
Proof. split; vm_compute; reflexivity. Qed.

(** The store going away at [task.delete()], after the success signal: the
    handler sends the error signal as well. *)
Example failing_bookkeeping_sends_both_signals :
  count_of is_outcome_signal
    (emitted (bg_runner (Sample.env false) Sample.notify_proxy (Some Sample.locked_task) [] [])
       (set_faults [false; false; true] Sample.after_claim)) = 2%nat.
Proof. vm_compute; reflexivity. Qed.

(** Of two due tasks the one with the larger priority is offered first. *)
Example larger_priority_is_offered_first :
  (find_available (Sample.env false) None Sample.two_priorities).1
  = Ok (order_by_priority_run_at (pending (db Sample.two_priorities))) /\
  map priority (order_by_priority_run_at (pending (db Sample.two_priorities))) = [5; 1].
Proof. split; vm_compute; reflexivity. Qed.

(** With [remove_existing_tasks] the pending record of the fingerprint is
    deleted before the dedup action looks for it, so CHECK_EXISTING inserts
    a new record in its place. *)
Example remove_existing_tasks_replaces_the_match :
  map id (pending (db (Sample.after
                         (DBTaskRunner_schedule (Sample.env false) Sample.runner
                            "app.tasks.notify" [] [] (Some 20) 1 CHECK_EXISTING None
                            None None None None true) Sample.one_pending)))
  = [Some 2].
Proof. vm_compute; reflexivity. Qed.

(** * The properties at sample inputs *)

Lemma reschedule_existing_twice_leaves_one_witness :
  faults Sample.one_pending = [] /\
  (length (with_fingerprint Sample.notify_fingerprint (pending (db Sample.one_pending)))
   <= 1)%nat /\
  dedup_visible Sample.notify_fingerprint None (pending (db Sample.one_pending)) /\
  exists res1 w1 w2 t,
    Sample.schedule_call RESCHEDULE_EXISTING 20 1 Sample.one_pending = (Ok res1, w1) /\
    Sample.schedule_call RESCHEDULE_EXISTING 30 2 (set_clock 500 w1) = (Ok None, w2) /\
    with_fingerprint Sample.notify_fingerprint (pending (db w2)) = [t] /\
    run_at t = 30 /\ priority t = 2 /\
    map id (pending (db w2)) = map id (pending (db w1)) /\
    next_id (db w2) = next_id (db w1) /\
    trace w2 = trace w1.
Proof.
  assert (H1 : faults Sample.one_pending = []) by reflexivity.
  assert (H2 : (length (with_fingerprint Sample.notify_fingerprint
                          (pending (db Sample.one_pending))) <= 1)%nat)
    by (vm_compute; lia).
  assert (H3 : dedup_visible Sample.notify_fingerprint None
                 (pending (db Sample.one_pending))).
  { intros t Ht. vm_compute in Ht. destruct Ht as [<-|[]].
    split; [reflexivity|]. intros H. vm_compute in H. discriminate H. }
  split; [exact H1|]. split; [exact H2|]. split; [exact H3|].
  exact (reschedule_existing_twice_leaves_one (Sample.env false) Sample.runner
           "app.tasks.notify" [] [] None 20 30 1 2 None None None None None None None None
           500 Sample.one_pending H1 H2 H3).
Defined.

Lemma check_existing_twice_leaves_one_witness :
  faults (Sample.world 100) = [] /\
  le (length (with_fingerprint Sample.notify_fingerprint (pending (db (Sample.world 100)))))
     1%nat /\
  dedup_visible Sample.notify_fingerprint None (pending (db (Sample.world 100))) /\
  exists res1 w1 t,
    Sample.schedule_call CHECK_EXISTING 20 1 (Sample.world 100) = (Ok res1, w1) /\
    Sample.schedule_call CHECK_EXISTING 30 2 (set_clock 500 w1)
    = (Ok None, set_clock 500 w1) /\
    with_fingerprint Sample.notify_fingerprint (pending (db (set_clock 500 w1))) = [t].
Proof.
  assert (H1 : faults (Sample.world 100) = []) by reflexivity.
  assert (H2 : le (length (with_fingerprint Sample.notify_fingerprint
                              (pending (db (Sample.world 100))))) 1%nat)
    by (vm_compute; lia).
  assert (H3 : dedup_visible Sample.notify_fingerprint None
                 (pending (db (Sample.world 100)))).
  { intros t Ht. vm_compute in Ht. destruct Ht. }
  split; [exact H1|]. split; [exact H2|]. split; [exact H3|].
  exact (check_existing_twice_leaves_one (Sample.env false) Sample.runner
           "app.tasks.notify" [] [] None (Some 20) (Some 30) 1 2
           None None None None None None None None 500 (Sample.world 100) H1 H2 H3).
Defined.

Lemma schedule_returns_inserted_task_or_nothing_witness :
  Sample.schedule_call CHECK_EXISTING 20 1 Sample.one_pending = (Ok None, Sample.one_pending) /\
  (CHECK_EXISTING = RESCHEDULE_EXISTING \/ CHECK_EXISTING = CHECK_EXISTING) /\
  List.filter
    (existing_tasks (Sample.env false) (clock Sample.one_pending)
       Sample.notify_fingerprint None)
    (without_removed (Sample.env false) (clock Sample.one_pending)
       Sample.notify_fingerprint false (pending (db Sample.one_pending))) <> [] /\
  next_id (db Sample.one_pending) = next_id (db Sample.one_pending) /\
  length (pending (db Sample.one_pending))
  = length (without_removed (Sample.env false) (clock Sample.one_pending)
              Sample.notify_fingerprint false (pending (db Sample.one_pending))) /\
  trace Sample.one_pending = trace Sample.one_pending.
Proof.
  assert (H : Sample.schedule_call CHECK_EXISTING 20 1 Sample.one_pending
              = (Ok None, Sample.one_pending)) by reflexivity.
  split; [exact H|].
  exact (schedule_returns_inserted_task_or_nothing (Sample.env false) Sample.runner
           "app.tasks.notify" [] [] (Some 20) 1 CHECK_EXISTING None None None None None
           false Sample.one_pending Sample.one_pending None H).
Defined.

Lemma run_next_task_runs_claimed_task_witness :
  get_task_to_run (Sample.env false) Sample.runner Sample.tasks None Sample.due
  = (Ok (Some Sample.locked_task), Sample.after_claim) /\
  exists proxy_task,
    _tasks Sample.tasks !! task_name Sample.locked_task = Some proxy_task /\
    run_next_task (Sample.env false) Sample.runner Sample.tasks None Sample.due
    = (bg_runner (Sample.env false) proxy_task (Some Sample.locked_task) [] [];; ret true)
        (set_trace (trace Sample.after_claim ++ [log_info "Running" Sample.locked_task])%list
           Sample.after_claim).
Proof.
  assert (H : get_task_to_run (Sample.env false) Sample.runner Sample.tasks None Sample.due
              = (Ok (Some Sample.locked_task), Sample.after_claim))
    by (vm_compute; reflexivity).
  split; [exact H|].
  exact (run_next_task_runs_claimed_task (Sample.env false) Sample.runner Sample.tasks None
           (Some Sample.locked_task) Sample.due Sample.after_claim H).
Defined.

Lemma store_outage_is_no_work_witness :
  get_task_to_run_try (Sample.env false) Sample.runner Sample.tasks None
    Sample.outage_at_lock = (Raise OperationalError, Sample.due) /\
  get_task_to_run (Sample.env false) Sample.runner Sample.tasks None Sample.outage_at_lock
  = (Ok None,
     set_trace
       (trace Sample.due ++ [log_warning "Failed to retrieve tasks. Database unreachable."])%list
       Sample.due) /\
  run_next_task (Sample.env false) Sample.runner Sample.tasks None Sample.outage_at_lock
  = (Ok false,
     set_trace
       (trace Sample.due ++ [log_warning "Failed to retrieve tasks. Database unreachable."])%list
       Sample.due).
Proof.
  assert (H : get_task_to_run_try (Sample.env false) Sample.runner Sample.tasks None
                Sample.outage_at_lock = (Raise OperationalError, Sample.due))
    by (vm_compute; reflexivity).
  split; [exact H|].
  destruct (store_outage_is_no_work (Sample.env false) Sample.runner Sample.tasks None
              Sample.outage_at_lock Sample.due H) as (Hget & Hrun & _).
  split; [exact Hget|exact Hrun].
Defined.

Lemma unregistered_name_raises_KeyError_witness :
  _tasks Sample.empty_tasks !! ref_name (ByName "ghost") = None /\
  Tasks_run_task (Sample.env false) Sample.empty_tasks (ByName "ghost") (Some []) (Some [])
    (Sample.world 100)
  = (Raise (KeyError "ghost"), Sample.world 100).
Proof.
  assert (H : _tasks Sample.empty_tasks !! ref_name (ByName "ghost") = None)
    by reflexivity.
  split; [exact H|].
  exact (unregistered_name_raises_KeyError (Sample.env false) Sample.empty_tasks
           (ByName "ghost") (Some []) (Some []) (Sample.world 100) H).
Defined.

Lemma bg_runner_signals_witness :
  faults Sample.after_claim = [] /\
  is_Some (attached_task (Sample.env false) Sample.notify_proxy (Some Sample.locked_task)
             [] [] Sample.after_claim) /\
  (bg_runner (Sample.env false) Sample.notify_proxy (Some Sample.locked_task) [] []
     Sample.after_claim).1 = Ok tt /\
  count_of is_outcome_signal
    (emitted (bg_runner (Sample.env false) Sample.notify_proxy (Some Sample.locked_task) [] [])
       Sample.after_claim) = 1%nat /\
  attached_task (Sample.env false) Sample.broken_proxy (Some Sample.locked_task) [] []
    Sample.after_claim = Some Sample.locked_task /\
  task_function Sample.broken_proxy = Some Sample.broken /\
  call_arguments (Sample.env false) (Some Sample.locked_task) [] [] = Some ([], []) /\
  fn_body Sample.broken [] [] (db Sample.after_claim)
  = (Raise (UserError "boom"), db Sample.after_claim) /\
  is_Exception (UserError "boom") = true /\
  (bg_runner (Sample.env false) Sample.broken_proxy (Some Sample.locked_task) [] []
     Sample.after_claim).1 = Ok tt /\
  emitted (bg_runner (Sample.env false) Sample.broken_proxy (Some Sample.locked_task) [] [])
    Sample.after_claim
  = [task_started; invoked "broken" [] []; log_error "Rescheduling" Sample.locked_task;
     task_error (UserError "boom") Sample.locked_task; task_finished].
Proof.
  assert (H1 : faults Sample.after_claim = []) by (vm_compute; reflexivity).
  assert (H2 : is_Some (attached_task (Sample.env false) Sample.notify_proxy
                          (Some Sample.locked_task) [] [] Sample.after_claim))
    by (exists Sample.locked_task; reflexivity).
  assert (H3 : (bg_runner (Sample.env false) Sample.notify_proxy (Some Sample.locked_task)
                  [] [] Sample.after_claim).1 = Ok tt) by (vm_compute; reflexivity).
  assert (H4 : attached_task (Sample.env false) Sample.broken_proxy
                 (Some Sample.locked_task) [] [] Sample.after_claim
               = Some Sample.locked_task) by reflexivity.
  assert (H5 : task_function Sample.broken_proxy = Some Sample.broken) by reflexivity.
  assert (H6 : call_arguments (Sample.env false) (Some Sample.locked_task) [] []
               = Some ([], [])) by (vm_compute; reflexivity).
  assert (H7 : fn_body Sample.broken [] [] (db Sample.after_claim)
               = (Raise (UserError "boom"), db Sample.after_claim)) by reflexivity.
  assert (H8 : is_Exception (UserError "boom") = true) by reflexivity.
  split; [exact H1|]. split; [exact H2|]. split; [exact H3|].
  destruct (bg_runner_signals (Sample.env false) Sample.notify_proxy
              (Some Sample.locked_task) [] [] Sample.after_claim) as (_ & _ & Hone & _).
  split; [exact (Hone H1 H2 H3)|].
  split; [exact H4|]. split; [exact H5|]. split; [exact H6|]. split; [exact H7|].
  split; [exact H8|].
  destruct (bg_runner_signals (Sample.env false) Sample.broken_proxy
              (Some Sample.locked_task) [] [] Sample.after_claim)
    as (_ & _ & _ & _ & Hfail & _).
  exact (Hfail Sample.locked_task Sample.broken [] [] (UserError "boom")
           (db Sample.after_claim) H1 H4 H5 H6 H7 H8).
Defined.

Lemma run_at_normalized_at_call_time_witness :
  in_timedelta (timedelta_seconds 60) = true /\
  in_datetime (clock (Sample.world 100) + timedelta_seconds 60) = true /\
  get_run_at (create (SchedInt 60)) (Sample.world 100) = (Ok 60000100, Sample.world 100) /\
  in_datetime (clock (Sample.world 100) + timedelta_seconds 90) = true /\
  get_run_at (create (SchedDelta (timedelta_seconds 90))) (Sample.world 100)
  = (Ok 90000100, Sample.world 100) /\
  1000000000000 <> 0 /\
  in_timedelta (timedelta_seconds 1000000000000)
  && in_datetime (clock (Sample.world 100) + timedelta_seconds 1000000000000) = false /\
  get_run_at (create (SchedInt 1000000000000)) (Sample.world 100)
  = (Raise OverflowError, Sample.world 100).
Proof.
  assert (H1 : in_timedelta (timedelta_seconds 60) = true) by reflexivity.
  assert (H2 : in_datetime (clock (Sample.world 100) + timedelta_seconds 60) = true)
    by reflexivity.
  assert (H3 : in_datetime (clock (Sample.world 100) + timedelta_seconds 90) = true)
    by reflexivity.
  assert (H4 : 1000000000000 <> 0) by lia.
  assert (H5 : in_timedelta (timedelta_seconds 1000000000000)
               && in_datetime (clock (Sample.world 100) + timedelta_seconds 1000000000000)
               = false) by reflexivity.
  destruct run_at_normalized_at_call_time as (_ & Hint & Hdelta & _ & Hover & _).
  split; [exact H1|]. split; [exact H2|].
  split; [exact (Hint 60 (Sample.world 100) H1 H2)|]. split; [exact H3|].
  split; [exact (Hdelta (timedelta_seconds 90) (Sample.world 100) H3)|].
  split; [exact H4|]. split; [exact H5|].
  exact (Hover 1000000000000 (Sample.world 100) H4 H5).
Defined.


(** * Where the stated properties fail *)

(** C1 as stated: with two unlocked pending records of the fingerprint
    (two plain SCHEDULE calls put them there), two RESCHEDULE_EXISTING calls
    rewrite both and two pending Tasks with the fingerprint remain. *)
Lemma reschedule_existing_keeps_duplicates :
  forallb (fun t => bool_decide (locked_by t = None)) (pending (db Sample.two_pending))
  = true /\
  (Sample.schedule_call RESCHEDULE_EXISTING 20 1 Sample.two_pending).1 = Ok None /\
  (Sample.schedule_call RESCHEDULE_EXISTING 30 2
     (Sample.after (Sample.schedule_call RESCHEDULE_EXISTING 20 1) Sample.two_pending)).1
  = Ok None /\
  length (with_fingerprint Sample.notify_fingerprint
            (pending (db (Sample.after (Sample.schedule_call RESCHEDULE_EXISTING 30 2)
                            (Sample.after (Sample.schedule_call RESCHEDULE_EXISTING 20 1)
                               Sample.two_pending)))))
  = 2%nat.
Proof. repeat split; vm_compute; reflexivity. Qed.

(** C2 as stated: with two unlocked pending records of the fingerprint, two
    CHECK_EXISTING calls change nothing and two pending Tasks with the
    fingerprint remain. *)
Lemma check_existing_keeps_duplicates :
  forallb (fun t => bool_decide (locked_by t = None)) (pending (db Sample.two_pending))
  = true /\
  Sample.schedule_call CHECK_EXISTING 20 1 Sample.two_pending
  = (Ok None, Sample.two_pending) /\
  Sample.schedule_call CHECK_EXISTING 30 2 Sample.two_pending
  = (Ok None, Sample.two_pending) /\
  length (with_fingerprint Sample.notify_fingerprint (pending (db Sample.two_pending)))
  = 2%nat.
Proof. repeat split; vm_compute; reflexivity. Qed.

(** C3 as stated: a schedule call whose dedup action finds a match returns
    nothing, for CHECK_EXISTING and for RESCHEDULE_EXISTING alike. *)
Lemma dedup_match_returns_nothing :
  (Sample.schedule_call CHECK_EXISTING 20 1 Sample.one_pending).1 = Ok None /\
  (Sample.schedule_call RESCHEDULE_EXISTING 20 1 Sample.one_pending).1 = Ok None.
Proof. split; vm_compute; reflexivity. Qed.

(** C4 as stated: with BACKGROUND_TASK_RUN_ASYNC on, [run_next_task]
    returns true when the claimed task has only been submitted to the pool:
    nothing was started or invoked, and the task is still pending with no
    attempt counted and nothing archived. *)
Lemma run_async_returns_before_the_task_runs :
  (run_next_task (Sample.env true) Sample.runner Sample.tasks None Sample.due).1 = Ok true /\
  count_of is_start
    (emitted (run_next_task (Sample.env true) Sample.runner Sample.tasks None) Sample.due)
  = 0%nat /\
  count_of is_invocation
    (emitted (run_next_task (Sample.env true) Sample.runner Sample.tasks None) Sample.due)
  = 0%nat /\
  map attempts
    (pending (db (Sample.after (run_next_task (Sample.env true) Sample.runner Sample.tasks None)
                    Sample.due))) = [0] /\
  archive (db (Sample.after (run_next_task (Sample.env true) Sample.runner Sample.tasks None)
                 Sample.due)) = [] /\
  (length <$> pool (Sample.after (run_next_task (Sample.env true) Sample.runner Sample.tasks None)
                      Sample.due)) = Some 1%nat.
Proof. repeat split; vm_compute; reflexivity. Qed.

(** C6 as stated: the dispatch of a name that is not registered does not
    produce an outcome; the [KeyError] leaves [Tasks.run_task]. *)
Lemma unregistered_name_escapes_as_KeyError :
  Tasks_run_task (Sample.env false) Sample.empty_tasks (ByName "ghost") (Some []) (Some [])
    (Sample.world 100)
  = (Raise (KeyError "ghost"), Sample.world 100) /\
  ~ exists u w',
      Tasks_run_task (Sample.env false) Sample.empty_tasks (ByName "ghost") (Some [])
        (Some []) (Sample.world 100) = (Ok u, w').
Proof.
  split; [reflexivity|]. intros (u & w' & H). vm_compute in H. discriminate H.
Qed.

(** C7 as stated: a run by name that finds no pending record invokes the
    function between the started and the finished signal and sends neither
    the success nor the error signal. *)
Lemma run_without_task_sends_no_outcome_signal :
  emitted (bg_runner (Sample.env false) Sample.notify_proxy None [] []) (Sample.world 100)
  = [task_started; invoked "notify" [] []; task_finished] /\
  count_of is_outcome_signal
    (emitted (bg_runner (Sample.env false) Sample.notify_proxy None [] []) (Sample.world 100))
  = 0%nat.
Proof. split; vm_compute; reflexivity. Qed.

(** C8 as stated: an integer offset of 10^12 seconds is a [timedelta], but
    the sum with the time of the call is past [datetime.max]; an offset of
    10^18 seconds is past [timedelta.max].  In both cases the property
    raises [OverflowError] instead of giving [now + n] seconds, and the call
    of the unit schedules nothing. *)
Lemma offset_out_of_range_raises_OverflowError :
  in_timedelta (timedelta_seconds 1000000000000) = true /\
  in_datetime (clock (Sample.world 100) + timedelta_seconds 1000000000000) = false /\
  get_run_at (create (SchedInt 1000000000000)) (Sample.world 100)
  = (Raise OverflowError, Sample.world 100) /\
  in_timedelta (timedelta_seconds 1000000000000000000) = false /\
  get_run_at (create (SchedInt 1000000000000000000)) (Sample.world 100)
  = (Raise OverflowError, Sample.world 100) /\
  TaskProxy_call (Sample.env false) Sample.notify_proxy Sample.runner []
    (Sample.with_schedule (SchedInt 1000000000000)) (Sample.world 100)
  = (Raise OverflowError, Sample.world 100).
Proof. repeat split; vm_compute; reflexivity. Qed.

(** * Further properties *)

(** ** Schedules *)

(** [merge] is associative, the schedule without overrides is its identity
    on both sides, and merging a schedule with itself gives it back. *)
Theorem merge_is_a_monoid (a b c : TaskSchedule) :
  merge (merge a b) c = merge a (merge b c) /\
  merge no_schedule a = a /\
  merge a no_schedule = a /\
  merge a a = a.
Proof.
  destruct a as [[r1|] [p1|] [a1|]], b as [[r2|] [p2|] [a2|]], c as [[r3|] [p3|] [a3|]];
    repeat split; reflexivity.
Qed.

(** A per-call schedule given in a bare form only ever sets [run_at]: the
    priority and the action resolve to those of the registered default, and
    a bare form that is true also fixes the merged [run_at]. *)
Theorem bare_schedule_keeps_registered_priority_and_action
    (per_call : schedule_arg) (registered : TaskSchedule) :
  is_bare per_call = true ->
  get_priority (merge (create per_call) registered) = get_priority registered /\
  get_action (merge (create per_call) registered) = get_action registered /\
  (truthy_schedule per_call = true ->
   _run_at (merge (create per_call) registered) = _run_at (create per_call) /\
   is_Some (_run_at (create per_call))).
Proof.
  intros Hb. destruct per_call as [|s|n|d|t|r p a]; try discriminate Hb; simpl.
  - unfold create, truthy_schedule. destruct (truthy_Z n); simpl;
      repeat split; try discriminate; eauto.
  - unfold create, truthy_schedule. destruct (truthy_Z d); simpl;
      repeat split; try discriminate; eauto.
  - repeat split; eauto.
Qed.

(** ** What a schedule call leaves alone *)

Lemma keeps_bind {A B} (I : World -> Prop) (m : M A) (k : A -> M B)
    (Q : A -> Prop) (R : B -> Prop) :
  keeps I m Q -> (forall a, Q a -> keeps I (k a) R) -> keeps I (bind m k) R.
Proof.
  intros Hm Hk w HI. unfold bind. destruct (Hm w HI) as [HI1 HQ].
  destruct (m w) as [[a|e] w1]; simpl in *.
  - exact (Hk a (HQ a eq_refl) w1 HI1).
  - split; [exact HI1|]. intros b Hb. discriminate.
Qed.

Lemma keeps_ret {A} (I : World -> Prop) (a : A) (Q : A -> Prop) :
  Q a -> keeps I (ret a) Q.
Proof. intros HQ w HI. split; [exact HI|]. intros b Hb. inversion Hb; subst. exact HQ. Qed.

Lemma keeps_weaken {A} (I : World -> Prop) (m : M A) (Q R : A -> Prop) :
  (forall a, Q a -> R a) -> keeps I m Q -> keeps I m R.
Proof. intros H Hm w HI. destruct (Hm w HI) as [H1 H2]. split; auto. Qed.

Section PendingAt.

Context (t : Task) (c : datetime).

Lemma keeps_timezone_now :
  keeps (pending_at t c) timezone_now (fun now => now = c).
Proof.
  intros w [Hc Hin]. split; [split; assumption|]. intros a Ha. inversion Ha. exact Hc.
Qed.

Lemma keeps_emit (e : event) : keeps (pending_at t c) (emit e) (fun _ => True).
Proof. intros w [Hc Hin]. split; [split; assumption|]. trivial. Qed.

Lemma keeps_qs_count (qs : QuerySet) : keeps (pending_at t c) (qs_count qs) (fun _ => True).
Proof.
  intros w [Hc Hin]. split; [|trivial]. unfold qs_count, bind, db_access, get_db, ret.
  destruct (faults w) as [|[] fs]; split; assumption.
Qed.

Lemma keeps_qs_delete (qs : QuerySet) :
  qs t = false -> keeps (pending_at t c) (qs_delete qs) (fun _ => True).
Proof.
  intros Hqs w [Hc Hin]. split; [|trivial]. unfold qs_delete, bind, db_access, get_db, put_db.
  destruct (faults w) as [|[] fs]; split; simpl; try assumption;
    apply List.filter_In; rewrite Hqs; split; auto.
Qed.

Lemma In_update_row (qs : QuerySet) (f : Task -> Task) (l : list Task) :
  qs t = false -> In t l -> In t (map (update_row qs f) l).
Proof.
  intros Hqs Hin. apply List.in_map_iff. exists t. split; [|exact Hin].
  unfold update_row. rewrite Hqs. reflexivity.
Qed.

Lemma keeps_qs_update (qs : QuerySet) (run_at : option datetime) (p : Z) :
  qs t = false -> keeps (pending_at t c) (qs_update qs run_at p) (fun _ => True).
Proof.
  intros Hqs w [Hc Hin]. split; [|trivial].
  unfold qs_update, bind, db_access, get_db, put_db, raise, ret.
  destruct (faults w) as [|[] fs], run_at as [r|]; simpl;
    try destruct (existsb qs (pending (db w))); split; simpl; try assumption;
    apply In_update_row; assumption.
Qed.

Lemma keeps_save_new (task : Task) :
  id task = None -> keeps (pending_at t c) (save task) (fun _ => True).
Proof.
  intros Hid w [Hc Hin]. split; [|trivial].
  unfold save, bind, db_access, get_db, put_db, ret. rewrite Hid.
  destruct (faults w) as [|[] fs]; split; simpl; try assumption;
    apply List.in_app_iff; left; assumption.
Qed.

Lemma keeps_new_task (env : Env) nm args kwargs run_at prio queue vn cr rp ru (rm : bool) :
  (rm = true ->
   qs_filter_task_hash (fingerprint env nm args kwargs) (unlocked env c) t = false) ->
  keeps (pending_at t c)
    (new_task env nm args kwargs run_at prio queue vn cr rp ru rm)
    (fun task => id task = None /\ task_hash task = fingerprint env nm args kwargs).
Proof.
  intros Hrm. unfold new_task.
  eapply keeps_bind; [apply keeps_timezone_now|]. intros now ->.
  eapply keeps_bind with (Q := fun _ => True).
  - destruct rm; [apply keeps_qs_delete, Hrm; reflexivity|apply keeps_ret; trivial].
  - intros _ _. apply keeps_ret. split; reflexivity.
Qed.

(** A pending record that the dedup queryset does not select, and that
    [remove_existing_tasks] does not remove, is still pending after the
    call, however the call ends. *)
Lemma schedule_keeps_unselected (env : Env) (self : DBTaskRunner) nm args kwargs
    run_at prio action queue vn cr rp ru (rm : bool) :
  existing_tasks env c (fingerprint env nm args kwargs) queue t = false ->
  (rm = true ->
   qs_filter_task_hash (fingerprint env nm args kwargs) (unlocked env c) t = false) ->
  keeps (pending_at t c)
    (DBTaskRunner_schedule env self nm args kwargs run_at prio action queue vn cr rp ru rm)
    (fun _ => True).
Proof.
  intros Hex Hrm. unfold DBTaskRunner_schedule.
  eapply keeps_bind; [apply keeps_new_task, Hrm|]. intros task [Hid Hh].
  assert (Hins : keeps (pending_at t c)
                   (task <- save task;; emit (task_created task);; ret (Some task))
                   (fun _ => True)).
  { eapply keeps_bind; [apply keeps_save_new, Hid|]. intros task' _.
    eapply keeps_bind; [apply keeps_emit|]. intros _ _. apply keeps_ret. trivial. }
  destruct (negb (action =? SCHEDULE)); [|exact Hins].
  eapply keeps_bind; [apply keeps_timezone_now|]. intros now ->. rewrite Hh.
  destruct (action =? RESCHEDULE_EXISTING).
  - eapply keeps_bind; [apply keeps_qs_update, Hex|]. intros n _.
    destruct (truthy_Z n); [apply keeps_ret; trivial|exact Hins].
  - destruct (action =? CHECK_EXISTING); [|exact Hins].
    eapply keeps_bind; [apply keeps_qs_count|]. intros n _.
    destruct (truthy_Z n); [apply keeps_ret; trivial|exact Hins].
Qed.

End PendingAt.

Lemma existing_within_unlocked_fingerprint (env : Env) (now : datetime) (h : string)
    (queue : option string) (t : Task) :
  qs_filter_task_hash h (unlocked env now) t = false ->
  existing_tasks env now h queue t = false.
Proof.
  intros H. unfold existing_tasks. destruct (truthy_queue queue); [|exact H].
  unfold qs_filter_queue. rewrite H. reflexivity.
Qed.

(** A schedule call, whatever its action and options and however it ends,
    leaves every pending record that is locked (its lock not expired) or
    that has another fingerprint in the pending table, as it was. *)
Theorem schedule_leaves_locked_and_unrelated_records
    (env : Env) (self : DBTaskRunner) (nm : string) (args : pyargs) (kwargs : pykwargs)
    (run_at : option datetime) (prio action : Z) (queue vn cr : option string)
    (rp : option timedelta) (ru : option datetime) (rm : bool) (w : World) (t : Task) :
  In t (pending (db w)) ->
  unlocked env (clock w) t = false \/ task_hash t <> fingerprint env nm args kwargs ->
  In t (pending (db (DBTaskRunner_schedule env self nm args kwargs run_at prio action
                       queue vn cr rp ru rm w).2)).
Proof.
  intros Hin Hout.
  assert (Hbase : qs_filter_task_hash (fingerprint env nm args kwargs)
                    (unlocked env (clock w)) t = false).
  { unfold qs_filter_task_hash. destruct Hout as [Hl|Hh].
    - rewrite Hl. reflexivity.
    - apply andb_false_iff. right. apply String.eqb_neq. exact Hh. }
  destruct (schedule_keeps_unselected t (clock w) env self nm args kwargs run_at prio
              action queue vn cr rp ru rm
              (existing_within_unlocked_fingerprint _ _ _ _ _ Hbase)
              (fun _ => Hbase) w (conj eq_refl Hin)) as [[_ H] _].
  exact H.
Qed.

(** Without [remove_existing_tasks], a schedule call for a queue leaves
    every pending record of another queue in the pending table, as it
    was. *)
Theorem schedule_leaves_other_queues
    (env : Env) (self : DBTaskRunner) (nm : string) (args : pyargs) (kwargs : pykwargs)
    (run_at : option datetime) (prio action : Z) (q : string) (vn cr : option string)
    (rp : option timedelta) (ru : option datetime) (w : World) (t : Task) :
  q <> "" ->
  In t (pending (db w)) ->
  queue t <> Some q ->
  In t (pending (db (DBTaskRunner_schedule env self nm args kwargs run_at prio action
                       (Some q) vn cr rp ru false w).2)).
Proof.
  intros Hq Hin Hother.
  assert (Hex : existing_tasks env (clock w) (fingerprint env nm args kwargs) (Some q) t
                = false).
  { unfold existing_tasks, truthy_queue, truthy_str.
    destruct (String.eqb_spec q "") as [E|_]; [contradiction|]. simpl.
    unfold qs_filter_queue. apply andb_false_iff. right.
    apply bool_decide_eq_false. exact Hother. }
  destruct (schedule_keeps_unselected t (clock w) env self nm args kwargs run_at prio
              action (Some q) vn cr rp ru false Hex ltac:(discriminate) w
              (conj eq_refl Hin)) as [[_ H] _].
  exact H.
Qed.

(** ** Scheduling without dedup *)

Lemma plain_schedule_up
    (env : Env) (self : DBTaskRunner) (nm : string) (args : pyargs) (kwargs : pykwargs)
    (run_at : option datetime) (prio action : Z) (queue vn cr : option string)
    (rp : option timedelta) (ru : option datetime) (w : World) :
  faults w = [] ->
  action <> RESCHEDULE_EXISTING ->
  action <> CHECK_EXISTING ->
  let task := mkTask (Some (next_id (db w))) nm (dumps env args kwargs)
                (fingerprint env nm args kwargs) vn prio (default (clock w) run_at)
                rp ru queue 0 None None None cr in
  DBTaskRunner_schedule env self nm args kwargs run_at prio action queue vn cr rp ru
    false w
  = (Ok (Some task),
     set_trace (trace w ++ [task_created task])%list
       (set_db (mkDB (pending (db w) ++ [task])%list (archive (db w))
                  (next_id (db w) + 1)) w)).
Proof.
  destruct w as [[pd ar nx] c f tr pl]. simpl. intros -> Hr Hc.
  unfold DBTaskRunner_schedule, new_task, save, bind, ret, timezone_now,
    db_access, get_db, put_db, emit, fingerprint; simpl.
  destruct (Z.eqb_spec action SCHEDULE) as [_|_]; simpl; [reflexivity|].
  destruct (Z.eqb_spec action RESCHEDULE_EXISTING) as [E|_]; [contradiction|].
  destruct (Z.eqb_spec action CHECK_EXISTING) as [E|_]; [contradiction|].
  reflexivity.
Qed.

(** On a reachable store and without [remove_existing_tasks], a schedule
    call whose action is neither RESCHEDULE_EXISTING nor CHECK_EXISTING never
    looks at the pending records: it appends one new record under the next
    key -- unlocked, with no attempts, with the given fields and [run_at]
    defaulting to now -- sends the creation signal and returns the
    record. *)
Theorem plain_schedule_always_inserts
    (env : Env) (self : DBTaskRunner) (nm : string) (args : pyargs) (kwargs : pykwargs)
    (run_at : option datetime) (prio action : Z) (queue vn cr : option string)
    (rp : option timedelta) (ru : option datetime) (w : World) :
  faults w = [] ->
  action <> RESCHEDULE_EXISTING ->
  action <> CHECK_EXISTING ->
  let task := mkTask (Some (next_id (db w))) nm (dumps env args kwargs)
                (fingerprint env nm args kwargs) vn prio (default (clock w) run_at)
                rp ru queue 0 None None None cr in
  DBTaskRunner_schedule env self nm args kwargs run_at prio action queue vn cr rp ru
    false w
  = (Ok (Some task),
     set_trace (trace w ++ [task_created task])%list
       (set_db (mkDB (pending (db w) ++ [task])%list (archive (db w))
                  (next_id (db w) + 1)) w)).
Proof. apply plain_schedule_up. Qed.

Lemma filter_none {A} (p : A -> bool) (l : list A) :
  (forall x, In x l -> p x = false) -> List.filter p l = [].
Proof.
  induction l as [|x l IH]; [reflexivity|]. intros H. simpl.
  rewrite (H x (or_introl eq_refl)). apply IH. intros y Hy. apply H. right. exact Hy.
Qed.

(** The dedup actions do not see locked records: on a reachable store,
    without [remove_existing_tasks], when every pending record of the
    fingerprint is locked (its lock not expired), RESCHEDULE_EXISTING and
    CHECK_EXISTING insert a further record of that fingerprint and return
    it. *)
Theorem dedup_inserts_beside_locked_records
    (env : Env) (self : DBTaskRunner) (nm : string) (args : pyargs) (kwargs : pykwargs)
    (r : datetime) (prio action : Z) (queue vn cr : option string)
    (rp : option timedelta) (ru : option datetime) (w : World) :
  faults w = [] ->
  (forall t, In t (pending (db w)) ->
             task_hash t = fingerprint env nm args kwargs ->
             unlocked env (clock w) t = false) ->
  action = RESCHEDULE_EXISTING \/ action = CHECK_EXISTING ->
  let task := mkTask (Some (next_id (db w))) nm (dumps env args kwargs)
                (fingerprint env nm args kwargs) vn prio r rp ru queue 0 None None None cr in
  DBTaskRunner_schedule env self nm args kwargs (Some r) prio action queue vn cr rp ru
    false w
  = (Ok (Some task),
     set_trace (trace w ++ [task_created task])%list
       (set_db (mkDB (pending (db w) ++ [task])%list (archive (db w))
                  (next_id (db w) + 1)) w)).
Proof.
  intros Hup Hlocked Hact task.
  assert (Hnone : List.filter
                    (existing_tasks env (clock w) (fingerprint env nm args kwargs) queue)
                    (pending (db w)) = []).
  { apply filter_none. intros t Hin. apply existing_within_unlocked_fingerprint.
    unfold qs_filter_task_hash.
    destruct (String.eqb_spec (task_hash t) (fingerprint env nm args kwargs)) as [E|_];
      [|apply andb_false_r].
    rewrite (Hlocked t Hin E). reflexivity. }
  destruct Hact as [-> | ->].
  - rewrite (reschedule_existing_up env self nm args kwargs r prio queue vn cr rp ru w Hup).
    rewrite Hnone. reflexivity.
  - rewrite (check_existing_up env self nm args kwargs (Some r) prio queue vn cr rp ru w Hup).
    rewrite Hnone. reflexivity.
Qed.

(** ** What the claim step hands out *)

Lemma find_available_due (env : Env) (queue : option string) (found : list Task)
    (w w1 : World) :
  find_available env queue w = (Ok found, w1) ->
  forall c, In c found ->
    run_at c <= clock w /\ (truthy_queue queue = true -> in_queue queue c).
Proof.
  unfold find_available, qs_fetch. intros H. inv_steps. intros c Hc.
  apply In_order_by_priority_run_at, List.filter_In in Hc as [_ Hc].
  apply andb_prop in Hc as [Hq Hdue]. split; [apply Z.leb_le, Hdue|].
  intros Ht. destruct queue as [q|]; [|discriminate]. simpl in Ht. rewrite Ht in Hq.
  unfold qs_filter_queue in Hq. apply andb_prop in Hq as [_ Hq].
  apply bool_decide_eq_true in Hq. exact Hq.
Qed.

Lemma lock_Some_db (env : Env) (task : Task) (locked_by : string) (t : Task)
    (w w1 : World) :
  lock env task locked_by w = (Ok (Some t), w1) ->
  In t (pending (db w1)) /\
  length (pending (db w1)) = length (pending (db w)) /\
  archive (db w1) = archive (db w) /\ next_id (db w1) = next_id (db w).
Proof.
  unfold lock. intros H. inv_steps. rewrite Hdb in *.
  destruct (List.filter _ _) as [|row [|]] eqn:E; inv_steps. simpl.
  rewrite length_map. repeat split.
  assert (Hrow : In row (List.filter
                           (fun t => unlocked env (clock w0) t && has_id (id task) t)
                           (pending (db w0)))) by (rewrite E; left; reflexivity).
  apply List.filter_In in Hrow as [Hin Hqs]. apply List.in_map_iff. exists row.
  split; [|exact Hin]. unfold update_row. rewrite Hqs. reflexivity.
Qed.

Lemma lock_first_Some_db (env : Env) (self : DBTaskRunner) (l : list Task) (t : Task)
    (w w1 : World) :
  lock_first env self l w = (Ok (Some t), w1) ->
  In t (pending (db w1)) /\
  length (pending (db w1)) = length (pending (db w)) /\
  archive (db w1) = archive (db w) /\ next_id (db w1) = next_id (db w).
Proof.
  revert w. induction l as [|c l IH]; simpl; intros w H.
  - inv_steps.
  - apply bind_Ok_inv in H as (r & w2 & Hlock & H). destruct r as [t'|].
    + inv_steps. apply lock_Some_db in Hlock. exact Hlock.
    + apply lock_Ok in Hlock as (_ & _ & _ & Hd). rewrite <- Hd. apply IH, H.
Qed.

(** The Task that the claim step returns is a pending record of the store
    as the poll found it -- unlocked or lock-expired, due, of the queue
    when one is given, and of a registered name -- now carrying the lock of
    this worker, taken at the time of the poll; it is pending in the store
    the poll leaves, which holds as many pending records as before and the
    same archive. *)
Theorem claimed_task_is_locked_for_this_worker
    (env : Env) (self : DBTaskRunner) (tasks : Tasks) (queue : option string)
    (t : Task) (w w1 : World) :
  get_task_to_run env self tasks queue w = (Ok (Some t), w1) ->
  (exists c,
      In c (pending (db w)) /\ unlocked env (clock w) c = true /\
      t = set_lock (Some (worker_name self)) (Some (clock w)) c) /\
  locked_by t = Some (worker_name self) /\
  locked_at t = Some (clock w) /\
  run_at t <= clock w /\
  (truthy_queue queue = true -> in_queue queue t) /\
  is_Some (_tasks tasks !! task_name t) /\
  In t (pending (db w1)) /\
  length (pending (db w1)) = length (pending (db w)) /\
  archive (db w1) = archive (db w).
Proof.
  unfold get_task_to_run, try_except. intros H.
  destruct (get_task_to_run_try env self tasks queue w) as [[found|e] w2] eqn:E;
    [|destruct e; discriminate].
  inversion H; subst found w2; clear H. unfold get_task_to_run_try in E.
  apply bind_Ok_inv in E as (found & w2 & Hf & E).
  pose proof (find_available_due _ _ _ _ _ Hf) as Hdue.
  apply find_available_Ok in Hf as (Hd & Hc & _ & _ & Hfound).
  pose proof (lock_first_Some_db _ _ _ _ _ _ E) as (Hin1 & Hlen & Har & _).
  apply lock_first_Some in E as (_ & _ & c & Hin & Ht).
  - apply In_take, List.filter_In in Hin as [Hin Hreg].
    apply bool_decide_eq_true in Hreg.
    destruct (Hfound c Hin) as [Hpend Hun]. destruct (Hdue c Hin) as [Hrun Hq].
    rewrite Hc in Ht. subst t. simpl. rewrite Hd in Hlen, Har.
    split; [exists c; repeat split; assumption|]. repeat split; assumption.
  - intros c Hc'. apply In_take, List.filter_In in Hc' as [Hc' _].
    rewrite Hd, Hc. apply Hfound, Hc'.
Qed.

(** *** Round trips to the database *)

Lemma spends_bind {A B} (n k' : nat) (m : M A) (k : A -> M B) :
  spends n m -> (forall a, spends k' (k a)) -> spends (n + k') (bind m k).
Proof.
  intros Hm Hk w. unfold bind. destruct (Hm w) as [H1 H2].
  destruct (m w) as [[a|e] w1]; simpl in *.
  - destruct (Hk a w1) as [H3 H4]. split; lia.
  - split; lia.
Qed.

Lemma spends_free {A} (m : M A) : (forall w, faults (m w).2 = faults w) -> spends 0 m.
Proof. intros H w. rewrite H. split; lia. Qed.

Lemma spends_more {A} (n k : nat) (m : M A) : (n <= k)%nat -> spends n m -> spends k m.
Proof. intros Hle Hm w. destruct (Hm w). split; lia. Qed.

Lemma spends_db_access : spends 1 db_access.
Proof.
  intros w. unfold db_access. destruct (faults w) as [|[] fs] eqn:E; simpl;
    rewrite ?E; simpl; split; lia.
Qed.

Lemma spends_find_available (env : Env) (queue : option string) :
  spends 1 (find_available env queue).
Proof.
  unfold find_available, qs_fetch.
  apply (spends_bind 0 1); [apply spends_free; reflexivity|intros now].
  apply (spends_bind 1 0); [|intros ?; apply spends_free; reflexivity].
  apply (spends_bind 1 0); [apply spends_db_access|intros _].
  apply (spends_bind 0 0); [apply spends_free; reflexivity|intros d].
  apply spends_free; reflexivity.
Qed.

Lemma spends_lock (env : Env) (task : Task) (locked_by : string) :
  spends 1 (lock env task locked_by).
Proof.
  unfold lock.
  apply (spends_bind 0 1); [apply spends_free; reflexivity|intros now].
  apply (spends_bind 1 0); [apply spends_db_access|intros _].
  apply (spends_bind 0 0); [apply spends_free; reflexivity|intros d].
  destruct (List.filter _ _) as [|row [|]]; apply spends_free; reflexivity.
Qed.

Lemma spends_lock_first (env : Env) (self : DBTaskRunner) (l : list Task) :
  spends (length l) (lock_first env self l).
Proof.
  induction l as [|c l IH]; simpl; [apply spends_free; reflexivity|].
  apply (spends_bind 1 (length l)); [apply spends_lock|intros [t|]].
  - apply (spends_more 0); [lia|apply spends_free; reflexivity].
  - exact IH.
Qed.

Lemma get_task_to_run_spends (env : Env) (self : DBTaskRunner) (tasks : Tasks)
    (queue : option string) :
  spends 6 (get_task_to_run env self tasks queue).
Proof.
  assert (Htry : spends 6 (get_task_to_run_try env self tasks queue)).
  { unfold get_task_to_run_try.
    apply (spends_bind 1 5); [apply spends_find_available|intros found].
    eapply spends_more; [|apply spends_lock_first]. rewrite length_take. lia. }
  intros w. unfold get_task_to_run, try_except. destruct (Htry w) as [H1 H2].
  destruct (get_task_to_run_try env self tasks queue w) as [[found|e] w1]; simpl in *.
  - split; assumption.
  - destruct e; simpl; split; assumption.
Qed.

(** One poll makes at most six calls into the store, however many tasks are
    pending: the selection of the candidates and, because of the [[:5]]
    slice, at most five attempts to lock one.  Each call is counted as one
    step of the fault plan, and the plan never grows. *)
Theorem claim_step_tries_at_most_five_locks
    (env : Env) (self : DBTaskRunner) (tasks : Tasks) (queue : option string) (w : World) :
  (length (faults (get_task_to_run env self tasks queue w).2) <= length (faults w))%nat /\
  (length (faults w)
   <= length (faults (get_task_to_run env self tasks queue w).2) + 6)%nat.
Proof. apply get_task_to_run_spends. Qed.

(** A poll never locks what this process cannot run: when no pending
    record has a registered name, the claim step yields no Task,
    [run_next_task] returns false, and pending records, archive, trace and
    pool are as before, whether the store is reachable or not (an outage
    adds the warning to the trace). *)
Theorem nothing_registered_nothing_claimed
    (env : Env) (self : DBTaskRunner) (tasks : Tasks) (queue : option string) (w : World) :
  (forall t, In t (pending (db w)) -> _tasks tasks !! task_name t = None) ->
  exists w1,
    get_task_to_run env self tasks queue w = (Ok None, w1) /\
    run_next_task env self tasks queue w = (Ok false, w1) /\
    db w1 = db w /\ pool w1 = pool w /\
    (trace w1 = trace w \/
     trace w1
     = (trace w ++ [log_warning "Failed to retrieve tasks. Database unreachable."])%list).
Proof.
  intros Hnone.
  assert (Hget : exists w1,
             get_task_to_run env self tasks queue w = (Ok None, w1) /\
             db w1 = db w /\ pool w1 = pool w /\
             (trace w1 = trace w \/
              trace w1
              = (trace w ++ [log_warning "Failed to retrieve tasks. Database unreachable."])%list)).
  { unfold get_task_to_run, try_except, get_task_to_run_try, bind at 1.
    destruct (find_available env queue w) as [[found|e] w1] eqn:Hf.
    - pose proof (find_available_Ok _ _ _ _ _ Hf) as (Hd & _ & Ht & Hp & Hfound).
      assert (Hempty : List.filter
                         (fun task => bool_decide (is_Some (_tasks tasks !! task_name task)))
                         found = []).
      { apply filter_none. intros c Hc. apply bool_decide_eq_false.
        rewrite (Hnone c (proj1 (Hfound c Hc))). intros [x Hx]. discriminate. }
      rewrite Hempty. simpl. exists w1. repeat split; auto.
    - pose proof (find_available_raises _ _ _ _ _ Hf) as ->.
      assert (Hsame : db w1 = db w /\ pool w1 = pool w /\ trace w1 = trace w).
      { revert Hf. unfold find_available, qs_fetch, bind, timezone_now, db_access.
        destruct (faults w) as [|[] fs]; intros H; inversion H; subst; auto. }
      destruct Hsame as (Hd & Hp & Ht). eexists. split; [reflexivity|]. simpl.
      rewrite Ht. repeat split; auto. }
  destruct Hget as (w1 & Hget & Hrest). exists w1. split; [exact Hget|].
  split; [|exact Hrest]. unfold run_next_task, bind. rewrite Hget. reflexivity.
Qed.

(** ** Registration and dispatch *)


(** A dispatch by name needs both [args] and [kwargs]: called for a
    registered name with either left at its default [None], [Tasks.run_task]
    raises [TypeError] before anything runs, in both execution modes. *)
Theorem run_task_by_name_needs_args
    (env : Env) (self : Tasks) (n : string) (proxy : TaskProxy)
    (args : option pyargs) (kwargs : option pykwargs) (w : World) :
  _tasks self !! n = Some proxy ->
  args = None \/ kwargs = None ->
  Tasks_run_task env self (ByName n) args kwargs w = (Raise TypeError, w).
Proof.
  intros Hreg Hnone. unfold Tasks_run_task. rewrite Hreg.
  destruct Hnone as [-> | ->]; [|destruct args]; reflexivity.
Qed.

(** ** Runs on a reachable store *)

(** No [Exception] leaves [bg_runner] while the store is reachable: when
    the task function raises nothing but [Exception]s, every run returns,
    with or without a Task record, whether the function is missing, the
    params do not deserialize or the function raises; the store is still
    reachable and the finished signal is the last event. *)
Theorem bg_runner_contains_exceptions
    (env : Env) (proxy_task : TaskProxy) (task : option Task)
    (args : pyargs) (kwargs : pykwargs) (w : World) :
  faults w = [] ->
  (forall f, task_function proxy_task = Some f -> raises_only_Exceptions f) ->
  exists w',
    bg_runner env proxy_task task args kwargs w = (Ok tt, w') /\
    faults w' = [] /\
    last (trace w') = Some task_finished.
Proof. apply bg_runner_returns_up. Qed.

(** *** The effect of a run *)

Lemma task_done_effect (task : Task) (i : Z) (w : World) :
  faults w = [] ->
  id task = Some i ->
  let done := set_attempts (attempts task + 1) task in
  let completed := mkCompletedTask done (clock w) false in
  exists w1,
    task_done task w = (Ok Completed, w1) /\
    faults w1 = [] /\
    trace w1 = (trace w ++ [task_successful (Some i) completed;
                            log_info "Ran task and deleting" done])%list /\
    archive (db w1) = (archive (db w) ++ [completed])%list /\
    (forall x, In x (pending (db w1)) -> id x <> Some i).
Proof.
  destruct w as [[pd ar nx] c f tr pl]. simpl. intros -> Hid.
  assert (Hgone : forall l x,
             In x (List.filter (fun t => negb (has_id (Some i) t)) l) -> id x <> Some i).
  { intros l x Hx. apply List.filter_In in Hx as [_ Hx].
    apply negb_true_iff, bool_decide_eq_false in Hx. exact Hx. }
  unfold task_done, attempt, increment_attempts, create_completed_task, archive_task,
    create_repetition, delete_task, qs_delete, save, bind, ret, timezone_now, db_access,
    get_db, put_db, emit; simpl. rewrite Hid. simpl.
  destruct (existsb _ pd); simpl; destruct (repeat task) as [every|]; simpl;
    try (destruct (match repeat_until task with Some _ => _ | None => _ end); simpl);
    rewrite ?Hid; simpl; eexists; (split; [reflexivity|]); simpl;
    repeat split; try reflexivity; try (rewrite <- List.app_assoc; reflexivity);
    intros x Hx; eapply Hgone; exact Hx.
Qed.

Lemma successful_run_up
    (env : Env) (proxy_task : TaskProxy) (task : Task) (i : Z) (func : callable)
    (stored_args : pyargs) (stored_kwargs : pykwargs) (args : pyargs) (kwargs : pykwargs)
    (v : pyval) (d : DB) (w : World) :
  faults w = [] ->
  id task = Some i ->
  task_function proxy_task = Some func ->
  loads env (task_params task) = Some (stored_args, stored_kwargs) ->
  fn_body func stored_args stored_kwargs (db w) = (Ok v, d) ->
  let done := set_attempts (attempts task + 1) task in
  let completed := mkCompletedTask done (clock w) false in
  exists w',
    bg_runner env proxy_task (Some task) args kwargs w = (Ok tt, w') /\
    trace w'
    = (trace w ++ [task_started; invoked (fn_name func) stored_args stored_kwargs;
                   task_successful (Some i) completed;
                   log_info "Ran task and deleting" done; task_finished])%list /\
    archive (db w') = (archive d ++ [completed])%list /\
    (forall x, In x (pending (db w')) -> id x <> Some i).
Proof.
  intros Hup Hid Hf Hl Hbody done completed.
  unfold bg_runner, bind at 1, emit at 1.
  set (w0 := set_trace (trace w ++ [task_started]) w).
  set (w1 := set_db d (set_trace (trace w0 ++ [invoked (fn_name func) stored_args
                                                 stored_kwargs]) w0)).
  assert (Hcall : call func stored_args stored_kwargs w0 = (Ok v, w1)).
  { unfold call, bind, emit. simpl. rewrite Hbody. reflexivity. }
  destruct (task_done_effect task i w1 Hup Hid) as (w2 & E & Hup2 & Ht & Har & Hgone).
  assert (Htry : bg_runner_try env proxy_task (Some task) args kwargs w0
                 = (Ok Completed, w2)).
  { unfold bg_runner_try, attempt at 1, bg_runner_resolve, params, bind.
    rewrite Hl, Hf. simpl. unfold bg_runner_apply, attempt at 1. rewrite Hcall.
    exact E. }
  unfold bind at 1. rewrite Htry. unfold bind, ret, emit.
  eexists. split; [reflexivity|]. simpl. rewrite Ht. unfold w1, w0. simpl.
  rewrite <- !List.app_assoc. repeat split; assumption.
Qed.

(** A successful run of a persisted Task on a reachable store: the events
    are the started signal, the invocation on the stored params, the
    success signal with the key of the Task and its archive entry, the log
    line and the finished signal; the archive entry, with one more attempt
    and no error, is the newest of the archive; and no pending record has
    the key of the Task any more. *)
Theorem successful_run_archives_and_deletes
    (env : Env) (proxy_task : TaskProxy) (task : Task) (i : Z) (func : callable)
    (stored_args : pyargs) (stored_kwargs : pykwargs) (args : pyargs) (kwargs : pykwargs)
    (v : pyval) (d : DB) (w : World) :
  faults w = [] ->
  id task = Some i ->
  task_function proxy_task = Some func ->
  loads env (task_params task) = Some (stored_args, stored_kwargs) ->
  fn_body func stored_args stored_kwargs (db w) = (Ok v, d) ->
  let done := set_attempts (attempts task + 1) task in
  let completed := mkCompletedTask done (clock w) false in
  exists w',
    bg_runner env proxy_task (Some task) args kwargs w = (Ok tt, w') /\
    trace w'
    = (trace w ++ [task_started; invoked (fn_name func) stored_args stored_kwargs;
                   task_successful (Some i) completed;
                   log_info "Ran task and deleting" done; task_finished])%list /\
    archive (db w') = (archive d ++ [completed])%list /\
    (forall x, In x (pending (db w')) -> id x <> Some i).
Proof. apply successful_run_up. Qed.

(** A failing run of a persisted Task on a reachable store: when the
    function raises an [Exception], [bg_runner] returns, and the events are
    the started signal, the invocation on the stored params, the error log
    line and the error signal -- carrying the exception and the Task as it
    was handed in -- and the finished signal; no success signal is sent. *)
Theorem failing_run_sends_the_error_signal
    (env : Env) (proxy_task : TaskProxy) (task : Task) (func : callable)
    (stored_args : pyargs) (stored_kwargs : pykwargs) (args : pyargs) (kwargs : pykwargs)
    (e : exn) (d : DB) (w : World) :
  faults w = [] ->
  task_function proxy_task = Some func ->
  loads env (task_params task) = Some (stored_args, stored_kwargs) ->
  fn_body func stored_args stored_kwargs (db w) = (Raise e, d) ->
  is_Exception e = true ->
  exists w',
    bg_runner env proxy_task (Some task) args kwargs w = (Ok tt, w') /\
    trace w'
    = (trace w ++ [task_started; invoked (fn_name func) stored_args stored_kwargs;
                   log_error "Rescheduling" task; task_error e task;
                   task_finished])%list.
Proof.
  intros Hup Hf Hl Hbody He.
  unfold bg_runner, bind at 1, emit at 1.
  set (w0 := set_trace (trace w ++ [task_started]) w).
  set (w1 := set_db d (set_trace (trace w0 ++ [invoked (fn_name func) stored_args
                                                 stored_kwargs]) w0)).
  assert (Htry : bg_runner_try env proxy_task (Some task) args kwargs w0
                 = (Ok (Raised e (Some task)), w1)).
  { unfold bg_runner_try, attempt at 1, bg_runner_resolve, params, bind.
    rewrite Hl, Hf. simpl. unfold bg_runner_apply, attempt, call, bind, emit. simpl.
    rewrite Hbody. reflexivity. }
  destruct (bg_runner_except_up env e task w1 Hup He) as (w2 & E2 & _ & Ht2).
  unfold bind at 1. rewrite Htry. unfold bind, emit. rewrite E2.
  eexists. split; [reflexivity|]. simpl. rewrite Ht2. unfold w1, w0. simpl.
  rewrite <- !List.app_assoc. reflexivity.
Qed.

(** ** From the schedule call to the run *)

Lemma no_fingerprint_no_match (h : string) (l : list Task) :
  with_fingerprint h l = [] ->
  forall x, In x l -> String.eqb (task_hash x) h = false.
Proof.
  intros H x Hx. destruct (String.eqb (task_hash x) h) eqn:E; [|reflexivity].
  assert (Hin : In x (with_fingerprint h l))
    by (unfold with_fingerprint; apply List.filter_In; split; assumption).
  rewrite H in Hin. destruct Hin.
Qed.

(** On a reachable store that holds no pending record of the fingerprint,
    a schedule call (any action, no [remove_existing_tasks]) inserts the
    record, and a run by name with the same arguments -- through a proxy of
    the scheduled name whose queue, if it has one, is the scheduled queue --
    finds exactly that record as its Task. *)
Theorem scheduled_task_is_found_by_name
    (env : Env) (self : DBTaskRunner) (proxy_task : TaskProxy)
    (args : pyargs) (kwargs : pykwargs) (r : datetime) (prio action : Z)
    (queue vn cr : option string) (rp : option timedelta) (ru : option datetime)
    (w : World) :
  faults w = [] ->
  with_fingerprint (fingerprint env (name proxy_task) args kwargs) (pending (db w)) = [] ->
  (truthy_queue (proxy_queue proxy_task) = true -> proxy_queue proxy_task = queue) ->
  exists task w',
    DBTaskRunner_schedule env self (name proxy_task) args kwargs (Some r) prio action
      queue vn cr rp ru false w = (Ok (Some task), w') /\
    pending (db w') = (pending (db w) ++ [task])%list /\
    attached_task env proxy_task None args kwargs w' = Some task.
Proof.
  intros Hup Hnone Hq.
  set (h := fingerprint env (name proxy_task) args kwargs) in *.
  set (task := mkTask (Some (next_id (db w))) (name proxy_task) (dumps env args kwargs)
                 h vn prio r rp ru queue 0 None None None cr).
  set (w' := set_trace (trace w ++ [task_created task])%list
               (set_db (mkDB (pending (db w) ++ [task])%list (archive (db w))
                          (next_id (db w) + 1)) w)).
  assert (Hex : List.filter (existing_tasks env (clock w) h queue) (pending (db w)) = []).
  { apply filter_none. intros x Hx. apply existing_within_unlocked_fingerprint.
    unfold qs_filter_task_hash. rewrite (no_fingerprint_no_match h _ Hnone x Hx).
    apply andb_false_r. }
  assert (Hcall : DBTaskRunner_schedule env self (name proxy_task) args kwargs (Some r)
                    prio action queue vn cr rp ru false w = (Ok (Some task), w')).
  { destruct (Z.eq_dec action RESCHEDULE_EXISTING) as [->|Hr].
    - rewrite (reschedule_existing_up env self _ args kwargs r prio queue vn cr rp ru w Hup).
      fold h. rewrite Hex. reflexivity.
    - destruct (Z.eq_dec action CHECK_EXISTING) as [->|Hc].
      + rewrite (check_existing_up env self _ args kwargs (Some r) prio queue vn cr rp ru
                   w Hup).
        fold h. rewrite Hex. reflexivity.
      + apply (plain_schedule_up env self (name proxy_task) args kwargs (Some r) prio
                 action queue vn cr rp ru w Hup Hr Hc). }
  exists task, w'. split; [exact Hcall|]. split; [reflexivity|].
  unfold attached_task, w'. simpl. rewrite List.filter_app.
  assert (Hold : List.filter (bg_runner_task_qs env proxy_task args kwargs)
                   (pending (db w)) = []).
  { apply filter_none. intros x Hx.
    pose proof (no_fingerprint_no_match h _ Hnone x Hx) as Hx'.
    unfold bg_runner_task_qs, get_task, qs_filter_queue, qs_filter_task_hash.
    fold (fingerprint env (name proxy_task) args kwargs). fold h.
    destruct (proxy_queue proxy_task) as [q|]; [destruct (truthy_str q)|];
      rewrite Hx'; reflexivity. }
  rewrite Hold. simpl.
  assert (Hnew : bg_runner_task_qs env proxy_task args kwargs task = true).
  { unfold bg_runner_task_qs, get_task, qs_filter_queue, qs_filter_task_hash.
    fold (fingerprint env (name proxy_task) args kwargs). fold h.
    assert (Hh : String.eqb (task_hash task) h = true) by apply String.eqb_refl.
    destruct (proxy_queue proxy_task) as [q|] eqn:Epq; [|rewrite Hh; reflexivity].
    destruct (truthy_str q) eqn:Et; [|rewrite Hh; reflexivity].
    rewrite Hh. simpl. apply bool_decide_eq_true. symmetry. apply Hq. exact Et. }
  rewrite Hnew. reflexivity.
Qed.

Lemma schedule_Some_is_new_task
    (env : Env) (self : DBTaskRunner) (nm : string) (args : pyargs) (kwargs : pykwargs)
    (run_at : option datetime) (prio action : Z) (queue vn cr : option string)
    (rp : option timedelta) (ru : option datetime) (rm : bool)
    (w w' : World) (task : Task) :
  DBTaskRunner_schedule env self nm args kwargs run_at prio action queue vn cr rp ru rm w
    = (Ok (Some task), w') ->
  exists key,
    task = mkTask (Some key) nm (dumps env args kwargs) (fingerprint env nm args kwargs)
             vn prio (default (clock w) run_at) rp ru queue 0 None None None cr.
Proof.
  unfold DBTaskRunner_schedule. intros H.
  apply bind_Ok_inv in H as (task0 & w1 & Hnew & H).
  apply new_task_Ok in Hnew as (Htask & _).
  assert (Hins : forall w2 : World,
             (task <- save task0;; emit (task_created task);; ret (Some task)) w2
             = (Ok (Some task), w') ->
             exists key,
               task = mkTask (Some key) nm (dumps env args kwargs)
                        (fingerprint env nm args kwargs) vn prio
                        (default (clock w) run_at) rp ru queue 0 None None None cr).
  { intros w2 Hs. apply schedule_insert_Ok in Hs as (t & Ht & -> & _);
      [|subst task0; reflexivity].
    inversion Ht; subst task. exists (next_id (db w2)). subst task0. reflexivity. }
  destruct (negb (action =? SCHEDULE)); [|exact (Hins _ H)].
  apply bind_Ok_inv in H as (now & w2 & _ & H).
  destruct (action =? RESCHEDULE_EXISTING).
  - apply bind_Ok_inv in H as (n & w3 & _ & H).
    destruct (truthy_Z n); [discriminate|exact (Hins _ H)].
  - destruct (action =? CHECK_EXISTING); [|exact (Hins _ H)].
    apply bind_Ok_inv in H as (n & w3 & _ & H).
    destruct (truthy_Z n); [discriminate|exact (Hins _ H)].
Qed.

(** What is scheduled is what runs: the Task that a schedule call returns
    carries the scheduled name, and when it is run -- whatever arguments
    are handed to [bg_runner] alongside it -- the [try] block calls the
    proxy's function on the arguments of the schedule call, provided the
    decoder undoes the encoder on them. *)
Theorem scheduled_arguments_reach_the_function
    (env : Env) (self : DBTaskRunner) (nm : string) (args : pyargs) (kwargs : pykwargs)
    (run_at : option datetime) (prio action : Z) (queue vn cr : option string)
    (rp : option timedelta) (ru : option datetime) (rm : bool)
    (w w' : World) (task : Task) (proxy_task : TaskProxy) (func : callable) :
  DBTaskRunner_schedule env self nm args kwargs run_at prio action queue vn cr rp ru rm w
    = (Ok (Some task), w') ->
  round_trips env args kwargs ->
  task_function proxy_task = Some func ->
  task_name task = nm /\
  forall args' kwargs' v,
    bg_runner_try env proxy_task (Some task) args' kwargs' v
    = (_ <-[ Some task ]- call func args kwargs;; task_done task) v.
Proof.
  intros Hs Hrt Hf. apply schedule_Some_is_new_task in Hs as (key & ->).
  split; [reflexivity|]. intros args' kwargs' v.
  unfold bg_runner_try, attempt at 1, bg_runner_resolve, params, bind. simpl.
  unfold round_trips in Hrt. rewrite Hrt, Hf. reflexivity.
Qed.

(** A call of a registered unit whose resolved action is neither
    RESCHEDULE_EXISTING nor CHECK_EXISTING, without [remove_existing_tasks]
    and on a reachable store.  When the offset of the merged schedule can be
    added to the time of the call, the call inserts one Task: under the
    unit's name, with the arguments left after the control keywords are
    popped, the normalized [run_at] of the merged schedule, the [priority]
    keyword or else the merged priority, and the [queue] keyword or else the
    unit's queue.  When it cannot, the call raises [OverflowError] and
    leaves the store, the trace and the pool as they were. *)
Theorem unit_call_inserts_one_task
    (env : Env) (self : TaskProxy) (runner : DBTaskRunner) (args : pyargs)
    (kwargs : call_kwargs) (w : World) :
  let merged := merge (create (kw_schedule kwargs)) (schedule self) in
  faults w = [] ->
  get_action merged <> RESCHEDULE_EXISTING ->
  get_action merged <> CHECK_EXISTING ->
  default (proxy_remove_existing_tasks self) (kw_remove_existing_tasks kwargs) = false ->
  let task :=
    mkTask (Some (next_id (db w))) (name self) (dumps env args (kw_rest kwargs))
      (fingerprint env (name self) args (kw_rest kwargs)) (kw_verbose_name kwargs)
      (default (get_priority merged) (kw_priority kwargs))
      (normalized_run_at (_run_at merged) (clock w))
      (kw_repeat kwargs) (kw_repeat_until kwargs)
      (default (proxy_queue self) (kw_queue kwargs)) 0 None None None
      (kw_creator kwargs) in
  TaskProxy_call env self runner args kwargs w
  = if representable (_run_at merged) (clock w)
    then (Ok (Some task),
          set_trace (trace w ++ [task_created task])%list
            (set_db (mkDB (pending (db w) ++ [task])%list (archive (db w))
                       (next_id (db w) + 1)) w))
    else (Raise OverflowError, w).
Proof.
  intros merged Hup Hr Hc Hrm task. unfold TaskProxy_call, bind.
  rewrite get_run_at_normalized. fold merged.
  destruct (representable (_run_at merged) (clock w)); [|reflexivity]. rewrite Hrm.
  apply (plain_schedule_up env runner (name self) args (kw_rest kwargs)
           (Some (normalized_run_at (_run_at merged) (clock w)))
           (default (get_priority merged) (kw_priority kwargs)) (get_action merged)
           (default (proxy_queue self) (kw_queue kwargs)) (kw_verbose_name kwargs)
           (kw_creator kwargs) (kw_repeat kwargs) (kw_repeat_until kwargs) w Hup Hr Hc).
Qed.

(** ** [autodiscover] *)

Lemma In_list_remove (x a : string) (l : list string) :
  In x (list_remove a l) -> In x l.
Proof.
  induction l as [|y l IH]; simpl; [tauto|].
  destruct (String.eqb y a); [auto|]. intros [<-|H]; auto.
Qed.

Lemma list_remove_absent (a : string) (l : list string) :
  existsb (fun app => String.eqb app a) l = false -> list_remove a l = l.
Proof.
  induction l as [|y l IH]; simpl; [reflexivity|].
  destruct (String.eqb y a); simpl; [discriminate|]. intros H. f_equal. apply IH, H.
Qed.

Lemma autodiscover_imports_without_first (apps : list string)
    (import_module : string -> import_result) :
  autodiscover apps import_module
  = import_each import_module (list_remove "report_builder" apps).
Proof.
  unfold autodiscover.
  destruct (existsb _ apps) eqn:E; [reflexivity|]. rewrite (list_remove_absent _ _ E).
  reflexivity.
Qed.

Lemma import_each_all (import_module : string -> import_result) (apps : list string) :
  (forall app, In app apps -> forall e, import_module (tasks_module app) <> ImportFailed e) ->
  import_each import_module apps = (map tasks_module apps, Ok tt).
Proof.
  induction apps as [|app rest IH]; [reflexivity|]. intros H. simpl.
  rewrite IH by (intros a Ha; apply H; right; exact Ha).
  destruct (import_module (tasks_module app)) as [| |e] eqn:E; try reflexivity.
  exfalso. exact (H app (or_introl eq_refl) e E).
Qed.

Lemma import_each_stops (import_module : string -> import_result)
    (before after : list string) (app : string) (e : exn) :
  (forall a, In a before -> forall e', import_module (tasks_module a) <> ImportFailed e') ->
  import_module (tasks_module app) = ImportFailed e ->
  import_each import_module (before ++ app :: after)
  = ((map tasks_module before ++ [tasks_module app])%list, Raise e).
Proof.
  intros Hb Ha. induction before as [|b before IH]; simpl.
  - rewrite Ha. reflexivity.
  - rewrite IH by (intros a Hin; apply Hb; right; exact Hin).
    destruct (import_module (tasks_module b)) as [| |e'] eqn:E; try reflexivity.
    exfalso. exact (Hb b (or_introl eq_refl) e' E).
Qed.

(** [autodiscover] never stops at an [ImportError]: when no tasks module
    raises anything else, it returns after it has tried the tasks module of
    every installed app, in the order of the list, the first
    [report_builder] entry left out. *)
Theorem autodiscover_skips_ImportError
    (INSTALLED_APPS : list string) (import_module : string -> import_result) :
  (forall app, In app INSTALLED_APPS ->
     forall e, import_module (tasks_module app) <> ImportFailed e) ->
  autodiscover INSTALLED_APPS import_module
  = (map tasks_module (list_remove "report_builder" INSTALLED_APPS), Ok tt).
Proof.
  intros H. rewrite autodiscover_imports_without_first. apply import_each_all.
  intros app Happ. apply H. apply In_list_remove in Happ. exact Happ.
Qed.

(** An exception other than [ImportError] from a tasks module ends
    [autodiscover] there: the modules before it have been tried, the apps
    after it are never tried, and the exception goes on to the caller. *)
Theorem autodiscover_stops_at_other_exceptions
    (INSTALLED_APPS before after : list string) (app : string) (e : exn)
    (import_module : string -> import_result) :
  list_remove "report_builder" INSTALLED_APPS = (before ++ app :: after)%list ->
  (forall a, In a before -> forall e', import_module (tasks_module a) <> ImportFailed e') ->
  import_module (tasks_module app) = ImportFailed e ->
  autodiscover INSTALLED_APPS import_module
  = ((map tasks_module before ++ [tasks_module app])%list, Raise e).
Proof.
  intros Hl Hb Ha. rewrite autodiscover_imports_without_first, Hl.
  apply import_each_stops; assumption.
Qed.

Lemma length_append (a b : string) :
  String.length (a +:+ b) = (String.length a + String.length b)%nat.
Proof. induction a as [|c a IH]; simpl; [reflexivity|]. rewrite IH. reflexivity. Qed.

Lemma append_cancel_r (a b s : string) : a +:+ s = b +:+ s -> a = b.
Proof.
  revert b. induction a as [|c a IH]; intros [|c' b] H; simpl in H.
  - reflexivity.
  - apply (f_equal String.length) in H. rewrite !length_append in H.
    cbn [String.length] in H. lia.
  - apply (f_equal String.length) in H. rewrite !length_append in H.
    cbn [String.length] in H. lia.
  - inversion H; subst. f_equal. apply IH. assumption.
Qed.

Lemma import_each_tried (import_module : string -> import_result) (apps : list string)
    (m : string) :
  In m (import_each import_module apps).1 -> exists app, In app apps /\ m = tasks_module app.
Proof.
  induction apps as [|app rest IH]; simpl; [tauto|].
  destruct (import_module (tasks_module app)) as [| |e];
    try (destruct (import_each import_module rest) as [tried r]; simpl in *;
         intros [<-|H]; [eauto|destruct (IH H) as (a & Ha & ->); eauto]).
  simpl. intros [<-|[]]. eauto.
Qed.

Lemma list_remove_once (a : string) (l : list string) :
  (count_occ String.string_dec l a <= 1)%nat -> ~ In a (list_remove a l).
Proof.
  induction l as [|y l IH]; simpl; [tauto|].
  destruct (String.eqb_spec y a) as [->|Hne].
  - destruct (String.string_dec a a) as [_|N]; [|contradiction]. intros H Hin.
    apply (count_occ_In String.string_dec) in Hin. lia.
  - destruct (String.string_dec y a) as [E|_]; [contradiction|]. intros H [E|Hin];
      [contradiction|]. exact (IH H Hin).
Qed.

(** When [report_builder] is listed at most once in INSTALLED_APPS,
    [autodiscover] never tries to import [report_builder.tasks], however
    the imports end. *)
Theorem autodiscover_never_imports_report_builder
    (INSTALLED_APPS : list string) (import_module : string -> import_result) :
  (count_occ String.string_dec INSTALLED_APPS "report_builder" <= 1)%nat ->
  ~ In "report_builder.tasks" (autodiscover INSTALLED_APPS import_module).1.
Proof.
  intros Hone Hin. rewrite autodiscover_imports_without_first in Hin.
  apply import_each_tried in Hin as (app & Happ & E).
  change "report_builder.tasks" with (tasks_module "report_builder") in E.
  unfold tasks_module in E. apply append_cancel_r in E. subst app.
  exact (list_remove_once _ _ Hone Happ).
Qed.

(** ** Rewriting the matches *)

Lemma existing_update_stable (env : Env) (now : datetime) (h : string)
    (queue : option string) (r : datetime) (p : Z) (t : Task) :
  existing_tasks env now h queue (set_run_at_priority r p t)
  = existing_tasks env now h queue t.
Proof.
  unfold existing_tasks. destruct (truthy_queue queue); reflexivity.
Qed.

(** RESCHEDULE_EXISTING rewrites every match, not one of them: on a
    reachable store, without [remove_existing_tasks], when some pending
    record is selected by the dedup queryset, the call returns nothing,
    inserts nothing, and afterwards every record the queryset selects has
    the [run_at] and [priority] of the call, while the records it does not
    select are as they were. *)
Theorem reschedule_existing_rewrites_every_match
    (env : Env) (self : DBTaskRunner) (nm : string) (args : pyargs) (kwargs : pykwargs)
    (r : datetime) (prio : Z) (queue vn cr : option string)
    (rp : option timedelta) (ru : option datetime) (w : World) (m : Task) :
  faults w = [] ->
  In m (pending (db w)) ->
  existing_tasks env (clock w) (fingerprint env nm args kwargs) queue m = true ->
  exists w',
    DBTaskRunner_schedule env self nm args kwargs (Some r) prio RESCHEDULE_EXISTING queue
      vn cr rp ru false w = (Ok None, w') /\
    length (pending (db w')) = length (pending (db w)) /\
    (forall x, In x (pending (db w')) ->
       existing_tasks env (clock w) (fingerprint env nm args kwargs) queue x = true ->
       run_at x = r /\ priority x = prio) /\
    (forall x, In x (pending (db w)) ->
       existing_tasks env (clock w) (fingerprint env nm args kwargs) queue x = false ->
       In x (pending (db w'))).
Proof.
  intros Hup Hin Hm.
  rewrite (reschedule_existing_up env self nm args kwargs r prio queue vn cr rp ru w Hup).
  set (existing := existing_tasks env (clock w) (fingerprint env nm args kwargs) queue) in *.
  assert (Hsome : truthy_Z (Z.of_nat (length (List.filter existing (pending (db w)))))
                  = true).
  { assert (Hf : In m (List.filter existing (pending (db w))))
      by (apply List.filter_In; split; assumption).
    destruct (List.filter existing (pending (db w))) as [|y l]; [destruct Hf|].
    unfold truthy_Z. simpl length. rewrite Nat2Z.inj_succ.
    destruct (Z.eqb_spec (Z.succ (Z.of_nat (length l))) 0); [lia|reflexivity]. }
  rewrite Hsome. eexists. split; [reflexivity|]. simpl.
  split; [apply length_map|]. split.
  - intros x Hx Hex. apply List.in_map_iff in Hx as (y & <- & Hy).
    unfold update_row in *. destruct (existing y) eqn:Ey; [split; reflexivity|].
    rewrite Ey in Hex. discriminate.
  - intros x Hx Hex. apply In_update_row; assumption.
Qed.

(** ** One poll, from claim to outcome *)

(** In the synchronous mode and on a reachable store, a poll that claims a
    Task returns true whether the task function succeeds or raises an
    [Exception]: the return value says that there was work, not that it
    went well.  The store is still reachable afterwards and the finished
    signal is the last event. *)
Theorem poll_returns_true_whatever_the_outcome
    (env : Env) (self : DBTaskRunner) (tasks : Tasks) (queue : option string)
    (task : Task) (w w1 : World) :
  faults w = [] ->
  BACKGROUND_TASK_RUN_ASYNC env = false ->
  (forall n proxy f, _tasks tasks !! n = Some proxy -> task_function proxy = Some f ->
                     raises_only_Exceptions f) ->
  get_task_to_run env self tasks queue w = (Ok (Some task), w1) ->
  exists w',
    run_next_task env self tasks queue w = (Ok true, w') /\
    faults w' = [] /\
    last (trace w') = Some task_finished.
Proof.
  intros Hup Hsync Hfn Hget.
  destruct (claimed_task_is_registered _ _ _ _ _ _ _ Hget) as ([proxy Hreg] & _ & _).
  assert (Hup1 : faults w1 = []).
  { destruct (get_task_to_run_spends env self tasks queue w) as [Hle _].
    rewrite Hget, Hup in Hle. simpl in Hle. destruct (faults w1); [reflexivity|].
    simpl in Hle. lia. }
  unfold run_next_task, bind at 1. rewrite Hget.
  unfold DBTaskRunner_run_task, Tasks_run_task, bind at 1 2. simpl.
  rewrite Hreg, Hsync.
  destruct (bg_runner_returns_up env proxy (Some task) [] []
              (set_trace (trace w1 ++ [log_info "Running" task]) w1) Hup1
              (fun f Hf => Hfn _ proxy f Hreg Hf)) as (w' & E & Hup' & Hlast).
  unfold bind. rewrite E. exists w'. repeat split; assumption.
Qed.

(** In the synchronous mode and on a reachable store, a poll that claims a
    persisted Task whose function returns leaves no pending record with
    the key of that Task and has archived it, with one more attempt and no
    error, as the newest entry of the archive; the poll returns true. *)
Theorem poll_completes_a_successful_task
    (env : Env) (self : DBTaskRunner) (tasks : Tasks) (queue : option string)
    (task : Task) (i : Z) (proxy : TaskProxy) (func : callable)
    (stored_args : pyargs) (stored_kwargs : pykwargs) (v : pyval) (d : DB)
    (w w1 : World) :
  faults w = [] ->
  BACKGROUND_TASK_RUN_ASYNC env = false ->
  get_task_to_run env self tasks queue w = (Ok (Some task), w1) ->
  id task = Some i ->
  _tasks tasks !! task_name task = Some proxy ->
  task_function proxy = Some func ->
  loads env (task_params task) = Some (stored_args, stored_kwargs) ->
  fn_body func stored_args stored_kwargs (db w1) = (Ok v, d) ->
  exists w',
    run_next_task env self tasks queue w = (Ok true, w') /\
    (forall x, In x (pending (db w')) -> id x <> Some i) /\
    archive (db w')
    = (archive d ++ [mkCompletedTask (set_attempts (attempts task + 1) task)
                       (clock w1) false])%list.
Proof.
  intros Hup Hsync Hget Hid Hreg Hf Hl Hbody.
  assert (Hup1 : faults w1 = []).
  { destruct (get_task_to_run_spends env self tasks queue w) as [Hle _].
    rewrite Hget, Hup in Hle. simpl in Hle. destruct (faults w1); [reflexivity|].
    simpl in Hle. lia. }
  unfold run_next_task, bind at 1. rewrite Hget.
  unfold DBTaskRunner_run_task, Tasks_run_task, bind at 1 2. simpl.
  rewrite Hreg, Hsync.
  destruct (successful_run_up env proxy task i func stored_args stored_kwargs [] [] v d
              (set_trace (trace w1 ++ [log_info "Running" task]) w1)
              Hup1 Hid Hf Hl Hbody) as (w' & E & _ & Har & Hgone).
  unfold bind. rewrite E. exists w'. repeat split; assumption.
Qed.

(** ** One poll in the asynchronous mode *)

(** With BACKGROUND_TASK_RUN_ASYNC set, a poll that claims a Task returns
    true without running it: between the claim and the return it writes
    one log line and hands one call to the pool -- the registered proxy of
    the Task's name, the Task itself, no positional and no keyword
    arguments.  The store is as the claim left it (the Task still pending
    and locked), no store round trip is made and no signal is sent. *)
Theorem async_poll_hands_the_task_to_the_pool
    (env : Env) (self : DBTaskRunner) (tasks : Tasks) (queue : option string)
    (task : Task) (w w1 : World) :
  BACKGROUND_TASK_RUN_ASYNC env = true ->
  get_task_to_run env self tasks queue w = (Ok (Some task), w1) ->
  exists proxy w',
    _tasks tasks !! task_name task = Some proxy /\
    run_next_task env self tasks queue w = (Ok true, w') /\
    db w' = db w1 /\
    faults w' = faults w1 /\
    trace w' = (trace w ++ [log_info "Running" task])%list /\
    pool w' = Some (default [] (pool w) ++ [mkJob proxy (Some task) [] []])%list.
Proof.
  intros Hasync Hget.
  destruct (claimed_task_is_registered _ _ _ _ _ _ _ Hget) as ([proxy Hreg] & Htr & Hpool).
  exists proxy. eexists. split; [exact Hreg|].
  unfold run_next_task, bind at 1. rewrite Hget.
  unfold DBTaskRunner_run_task, Tasks_run_task, bind at 1 2. simpl.
  rewrite Hreg, Hasync. unfold PoolRunner_run, bind. simpl.
  split; [reflexivity|]. simpl. rewrite Htr, Hpool. repeat split; reflexivity.
Qed.


(** ** Runs and schedule calls that raise *)

Lemma db_access_Raise (w w' : World) (e : exn) :
  db_access w = (Raise e, w') ->
  e = OperationalError /\ db w' = db w /\ trace w' = trace w /\ pool w' = pool w.
Proof.
  unfold db_access. destruct (faults w) as [|[] fs]; intros H; inversion H; subst;
    repeat split; reflexivity.
Qed.

Lemma DB_ext (d d' : DB) :
  pending d' = pending d -> archive d' = archive d -> next_id d' = next_id d -> d' = d.
Proof. destruct d, d'. simpl. intros -> -> ->. reflexivity. Qed.

Lemma schedule_insert_Raise (task : Task) (e : exn) (w w' : World) :
  id task = None ->
  (task <- save task;; emit (task_created task);; ret (Some task)) w = (Raise e, w') ->
  e = OperationalError /\ db w' = db w /\ trace w' = trace w /\ pool w' = pool w.
Proof.
  intros Hid H. apply bind_inv in H as [(t' & w1 & _ & H)|(e' & H & E)].
  - unfold bind, emit, ret in H. discriminate.
  - inversion E; subst e'. unfold save in H.
    apply bind_inv in H as [(u & w1 & _ & H)|(e' & H & E')].
    + rewrite Hid in H. unfold bind, get_db, put_db, ret in H. discriminate.
    + inversion E'; subst e'. apply db_access_Raise in H. exact H.
Qed.

(** A schedule call that fails changes nothing: without
    [remove_existing_tasks] and with a [run_at], the only exception that
    leaves [schedule] is the store's, and then the store holds what it held
    before the call, no creation signal was sent and nothing was handed to
    the pool. *)
Theorem failed_schedule_changes_nothing
    (env : Env) (self : DBTaskRunner) (nm : string) (args : pyargs) (kwargs : pykwargs)
    (r : datetime) (prio action : Z) (queue vn cr : option string)
    (rp : option timedelta) (ru : option datetime) (w w' : World) (e : exn) :
  DBTaskRunner_schedule env self nm args kwargs (Some r) prio action queue vn cr rp ru
    false w = (Raise e, w') ->
  e = OperationalError /\ db w' = db w /\ trace w' = trace w /\ pool w' = pool w.
Proof.
  intros H. unfold DBTaskRunner_schedule in H.
  apply bind_inv in H as [(task & w1 & Hnew & H)|(e' & Hnew & _)];
    [|unfold new_task, bind, timezone_now, ret in Hnew; discriminate].
  apply new_task_Ok in Hnew as (Htask & Hp & Ha & Hn & _ & Ht & Hpl).
  simpl in Hp. pose proof (DB_ext _ _ Hp Ha Hn) as Hdb.
  assert (Hid : id task = None) by (rewrite Htask; reflexivity).
  assert (Hins : forall w2, db w2 = db w1 -> trace w2 = trace w1 -> pool w2 = pool w1 ->
            (task <- save task;; emit (task_created task);; ret (Some task)) w2
            = (Raise e, w') ->
            e = OperationalError /\ db w' = db w /\ trace w' = trace w /\ pool w' = pool w).
  { intros w2 E1 E2 E3 Hi. apply (schedule_insert_Raise _ _ _ _ Hid) in Hi
      as (-> & F1 & F2 & F3).
    rewrite F1, F2, F3, E1, E2, E3, Hdb, Ht, Hpl. repeat split; reflexivity. }
  destruct (action =? SCHEDULE); simpl in H; [exact (Hins w1 eq_refl eq_refl eq_refl H)|].
  apply bind_inv in H as [(now & w2 & Hnow & H)|(e' & Hnow & _)];
    [|unfold timezone_now in Hnow; discriminate].
  unfold timezone_now in Hnow. inversion Hnow; subst now w2; clear Hnow.
  destruct (action =? RESCHEDULE_EXISTING).
  - apply bind_inv in H as [(n & w2 & Hu & H)|(e' & Hu & E)].
    + destruct (truthy_Z n) eqn:En; [unfold ret in H; discriminate|].
      apply qs_update_Ok in Hu as (-> & Hp2 & Ha2 & Hn2 & _ & Ht2 & Hpl2).
      rewrite (update_none _ _ _ (length_filter_zero _ _ En)) in Hp2.
      exact (Hins w2 (DB_ext _ _ Hp2 Ha2 Hn2) Ht2 Hpl2 H).
    + inversion E; subst e'. unfold qs_update in Hu.
      apply bind_inv in Hu as [(u & w2 & _ & Hu)|(e' & Hu & E')].
      * unfold bind, get_db, put_db, ret in Hu. discriminate.
      * inversion E'; subst e'. apply db_access_Raise in Hu as (-> & F1 & F2 & F3).
        rewrite F1, F2, F3, Hdb, Ht, Hpl. repeat split; reflexivity.
  - destruct (action =? CHECK_EXISTING); [|exact (Hins w1 eq_refl eq_refl eq_refl H)].
    apply bind_inv in H as [(n & w2 & Hc & H)|(e' & Hc & E)].
    + destruct (truthy_Z n); [unfold ret in H; discriminate|].
      apply qs_count_Ok in Hc as (_ & Hd2 & _ & Ht2 & Hpl2).
      exact (Hins w2 Hd2 Ht2 Hpl2 H).
    + inversion E; subst e'. unfold qs_count in Hc.
      apply bind_inv in Hc as [(u & w2 & _ & Hc)|(e' & Hc & E')].
      * unfold bind, get_db, ret in Hc. discriminate.
      * inversion E'; subst e'. apply db_access_Raise in Hc as (-> & F1 & F2 & F3).
        rewrite F1, F2, F3, Hdb, Ht, Hpl. repeat split; reflexivity.
Qed.

(** A run that raises does not finish: when an exception leaves
    [bg_runner] -- one that is no [Exception], or one raised while the
    handler reschedules -- the started signal has been sent and the finished
    signal has not. *)
Theorem raising_run_sends_no_finished_signal
    (env : Env) (proxy_task : TaskProxy) (task : option Task)
    (args : pyargs) (kwargs : pykwargs) (w : World) (e : exn) :
  (bg_runner env proxy_task task args kwargs w).1 = Raise e ->
  exists rest,
    emitted (bg_runner env proxy_task task args kwargs) w = task_started :: rest /\
    count_of is_finish rest = 0%nat.
Proof.
  intros Hr.
  destruct (bg_runner_shape env proxy_task task args kwargs w)
    as (mid & r & w' & E & HP & Ht).
  rewrite E in Hr. simpl in Hr. subst r. rewrite List.app_nil_r in Ht.
  exists mid. split; [apply emitted_app; rewrite E; exact Ht|].
  clear -HP. unfold count_of. induction mid as [|x mid IH]; [reflexivity|].
  simpl in HP. apply andb_prop in HP as [Hx HP]. specialize (IH HP).
  destruct x; try discriminate Hx; simpl; assumption.
Qed.

(** * The further properties at sample inputs *)

Lemma bare_schedule_keeps_registered_priority_and_action_witness :
  is_bare (SchedInt 30) = true /\
  get_priority (merge (create (SchedInt 30)) Cases.registered) = 5 /\
  get_action (merge (create (SchedInt 30)) Cases.registered) = CHECK_EXISTING.
Proof.
  assert (H : is_bare (SchedInt 30) = true) by reflexivity.
  split; [exact H|].
  destruct (bare_schedule_keeps_registered_priority_and_action (SchedInt 30)
              Cases.registered H) as (Hp & Ha & _).
  split; [exact Hp|exact Ha].
Defined.

Lemma plain_schedule_always_inserts_witness :
  faults (Sample.world 100) = [] /\
  SCHEDULE <> RESCHEDULE_EXISTING /\
  SCHEDULE <> CHECK_EXISTING /\
  Sample.schedule_call SCHEDULE 10 0 (Sample.world 100)
  = (Ok (Some Cases.first_task), Sample.one_pending).
Proof.
  assert (H1 : faults (Sample.world 100) = []) by reflexivity.
  assert (H2 : SCHEDULE <> RESCHEDULE_EXISTING) by discriminate.
  assert (H3 : SCHEDULE <> CHECK_EXISTING) by discriminate.
  split; [exact H1|]. split; [exact H2|]. split; [exact H3|].
  exact (plain_schedule_always_inserts (Sample.env false) Sample.runner "app.tasks.notify"
           [] [] (Some 10) 0 SCHEDULE None None None None None (Sample.world 100)
           H1 H2 H3).
Defined.

Lemma schedule_leaves_locked_and_unrelated_records_witness :
  In Sample.locked_task (pending (db Sample.after_claim)) /\
  unlocked (Sample.env false) (clock Sample.after_claim) Sample.locked_task = false /\
  In Sample.locked_task
    (pending (db (DBTaskRunner_schedule (Sample.env false) Sample.runner "app.tasks.notify"
                    [] [] (Some 20) 1 RESCHEDULE_EXISTING None None None None None true
                    Sample.after_claim).2)).
Proof.
  assert (H1 : In Sample.locked_task (pending (db Sample.after_claim)))
    by (vm_compute; left; reflexivity).
  assert (H2 : unlocked (Sample.env false) (clock Sample.after_claim) Sample.locked_task
               = false) by (vm_compute; reflexivity).
  split; [exact H1|]. split; [exact H2|].
  exact (schedule_leaves_locked_and_unrelated_records (Sample.env false) Sample.runner
           "app.tasks.notify" [] [] (Some 20) 1 RESCHEDULE_EXISTING None None None None None
           true Sample.after_claim Sample.locked_task H1 (or_introl H2)).
Defined.

Lemma schedule_leaves_other_queues_witness :
  "mail" <> "" /\
  In Cases.first_task (pending (db Sample.one_pending)) /\
  queue Cases.first_task <> Some "mail" /\
  In Cases.first_task
    (pending (db (DBTaskRunner_schedule (Sample.env false) Sample.runner "app.tasks.notify"
                    [] [] (Some 20) 1 RESCHEDULE_EXISTING (Some "mail") None None None None
                    false Sample.one_pending).2)).
Proof.
  assert (H1 : "mail" <> "") by discriminate.
  assert (H2 : In Cases.first_task (pending (db Sample.one_pending)))
    by (vm_compute; left; reflexivity).
  assert (H3 : queue Cases.first_task <> Some "mail") by discriminate.
  split; [exact H1|]. split; [exact H2|]. split; [exact H3|].
  exact (schedule_leaves_other_queues (Sample.env false) Sample.runner "app.tasks.notify"
           [] [] (Some 20) 1 RESCHEDULE_EXISTING "mail" None None None None
           Sample.one_pending Cases.first_task H1 H2 H3).
Defined.

Lemma dedup_inserts_beside_locked_records_witness :
  faults Sample.after_claim = [] /\
  unlocked (Sample.env false) (clock Sample.after_claim) Sample.locked_task = false /\
  length (pending (db (Sample.schedule_call CHECK_EXISTING 20 1 Sample.after_claim).2))
  = 2%nat.
Proof.
  assert (H1 : faults Sample.after_claim = []) by (vm_compute; reflexivity).
  assert (H2 : unlocked (Sample.env false) (clock Sample.after_claim) Sample.locked_task
               = false) by (vm_compute; reflexivity).
  assert (H3 : forall t, In t (pending (db Sample.after_claim)) ->
                 task_hash t = fingerprint (Sample.env false) "app.tasks.notify" [] [] ->
                 unlocked (Sample.env false) (clock Sample.after_claim) t = false).
  { intros t Ht _. vm_compute in Ht. destruct Ht as [<-|[]]. vm_compute. reflexivity. }
  split; [exact H1|]. split; [exact H2|].
  unfold Sample.schedule_call.
  rewrite (dedup_inserts_beside_locked_records (Sample.env false) Sample.runner
             "app.tasks.notify" [] [] 20 1 CHECK_EXISTING None None None None None
             Sample.after_claim H1 H3 (or_intror eq_refl)).
  vm_compute. reflexivity.
Defined.

Lemma claimed_task_is_locked_for_this_worker_witness :
  get_task_to_run (Sample.env false) Sample.runner Sample.tasks None Sample.due
  = (Ok (Some Sample.locked_task), Sample.after_claim) /\
  locked_by Sample.locked_task = Some (worker_name Sample.runner) /\
  locked_at Sample.locked_task = Some (clock Sample.due) /\
  run_at Sample.locked_task <= clock Sample.due.
Proof.
  assert (H : get_task_to_run (Sample.env false) Sample.runner Sample.tasks None Sample.due
              = (Ok (Some Sample.locked_task), Sample.after_claim))
    by (vm_compute; reflexivity).
  split; [exact H|].
  destruct (claimed_task_is_locked_for_this_worker (Sample.env false) Sample.runner
              Sample.tasks None Sample.locked_task Sample.due Sample.after_claim H)
    as (_ & Hby & Hat & Hdue & _).
  split; [exact Hby|]. split; [exact Hat|exact Hdue].
Defined.

Lemma nothing_registered_nothing_claimed_witness :
  (forall t, In t (pending (db Sample.due)) ->
             _tasks Sample.empty_tasks !! task_name t = None) /\
  exists w1,
    get_task_to_run (Sample.env false) Sample.runner Sample.empty_tasks None Sample.due
    = (Ok None, w1) /\
    run_next_task (Sample.env false) Sample.runner Sample.empty_tasks None Sample.due
    = (Ok false, w1) /\
    db w1 = db Sample.due.
Proof.
  assert (H : forall t, In t (pending (db Sample.due)) ->
                _tasks Sample.empty_tasks !! task_name t = None)
    by (intros t _; apply lookup_empty).
  split; [exact H|].
  destruct (nothing_registered_nothing_claimed (Sample.env false) Sample.runner
              Sample.empty_tasks None Sample.due H) as (w1 & Hget & Hrun & Hdb & _).
  exists w1. split; [exact Hget|]. split; [exact Hrun|exact Hdb].
Defined.

Lemma run_task_by_name_needs_args_witness :
  _tasks Sample.tasks !! "app.tasks.notify" = Some Sample.notify_proxy /\
  Tasks_run_task (Sample.env false) Sample.tasks (ByName "app.tasks.notify") None None
    (Sample.world 100)
  = (Raise TypeError, Sample.world 100).
Proof.
  assert (H : _tasks Sample.tasks !! "app.tasks.notify" = Some Sample.notify_proxy)
    by (vm_compute; reflexivity).
  split; [exact H|].
  exact (run_task_by_name_needs_args (Sample.env false) Sample.tasks "app.tasks.notify"
           Sample.notify_proxy None None (Sample.world 100) H (or_introl eq_refl)).
Defined.


Lemma bg_runner_contains_exceptions_witness :
  faults Sample.after_claim = [] /\
  raises_only_Exceptions Sample.broken /\
  exists w',
    bg_runner (Sample.env false) Sample.broken_proxy (Some Sample.locked_task) [] []
      Sample.after_claim = (Ok tt, w') /\
    faults w' = [] /\
    last (trace w') = Some task_finished.
Proof.
  assert (H1 : faults Sample.after_claim = []) by (vm_compute; reflexivity).
  assert (H2 : raises_only_Exceptions Sample.broken).
  { intros a k d e d' Hb. simpl in Hb. inversion Hb. reflexivity. }
  split; [exact H1|]. split; [exact H2|].
  apply (bg_runner_contains_exceptions (Sample.env false) Sample.broken_proxy
           (Some Sample.locked_task) [] [] Sample.after_claim H1).
  intros f Hf. simpl in Hf. inversion Hf. exact H2.
Defined.

Lemma successful_run_archives_and_deletes_witness :
  faults Sample.after_claim = [] /\
  id Sample.locked_task = Some 1 /\
  task_function Sample.notify_proxy = Some Sample.notify /\
  loads (Sample.env false) (task_params Sample.locked_task) = Some ([], []) /\
  fn_body Sample.notify [] [] (db Sample.after_claim) = (Ok PNone, db Sample.after_claim) /\
  exists w',
    bg_runner (Sample.env false) Sample.notify_proxy (Some Sample.locked_task) [] []
      Sample.after_claim = (Ok tt, w') /\
    forall x, In x (pending (db w')) -> id x <> Some 1.
Proof.
  assert (H1 : faults Sample.after_claim = []) by (vm_compute; reflexivity).
  assert (H2 : id Sample.locked_task = Some 1) by reflexivity.
  assert (H3 : task_function Sample.notify_proxy = Some Sample.notify) by reflexivity.
  assert (H4 : loads (Sample.env false) (task_params Sample.locked_task) = Some ([], []))
    by (vm_compute; reflexivity).
  assert (H5 : fn_body Sample.notify [] [] (db Sample.after_claim)
               = (Ok PNone, db Sample.after_claim)) by reflexivity.
  split; [exact H1|]. split; [exact H2|]. split; [exact H3|]. split; [exact H4|].
  split; [exact H5|].
  destruct (successful_run_archives_and_deletes (Sample.env false) Sample.notify_proxy
              Sample.locked_task 1 Sample.notify [] [] [] [] PNone (db Sample.after_claim)
              Sample.after_claim H1 H2 H3 H4 H5) as (w' & E & _ & _ & Hgone).
  exists w'. split; [exact E|exact Hgone].
Defined.

Lemma failing_run_sends_the_error_signal_witness :
  faults Sample.after_claim = [] /\
  task_function Sample.broken_proxy = Some Sample.broken /\
  loads (Sample.env false) (task_params Sample.locked_task) = Some ([], []) /\
  fn_body Sample.broken [] [] (db Sample.after_claim)
  = (Raise (UserError "boom"), db Sample.after_claim) /\
  is_Exception (UserError "boom") = true /\
  exists w',
    bg_runner (Sample.env false) Sample.broken_proxy (Some Sample.locked_task) [] []
      Sample.after_claim = (Ok tt, w') /\
    trace w'
    = (trace Sample.after_claim
       ++ [task_started; invoked "broken" [] [];
           log_error "Rescheduling" Sample.locked_task;
           task_error (UserError "boom") Sample.locked_task; task_finished])%list.
Proof.
  assert (H1 : faults Sample.after_claim = []) by (vm_compute; reflexivity).
  assert (H2 : task_function Sample.broken_proxy = Some Sample.broken) by reflexivity.
  assert (H3 : loads (Sample.env false) (task_params Sample.locked_task) = Some ([], []))
    by (vm_compute; reflexivity).
  assert (H4 : fn_body Sample.broken [] [] (db Sample.after_claim)
               = (Raise (UserError "boom"), db Sample.after_claim)) by reflexivity.
  assert (H5 : is_Exception (UserError "boom") = true) by reflexivity.
  split; [exact H1|]. split; [exact H2|]. split; [exact H3|]. split; [exact H4|].
  split; [exact H5|].
  exact (failing_run_sends_the_error_signal (Sample.env false) Sample.broken_proxy
           Sample.locked_task Sample.broken [] [] [] [] (UserError "boom")
           (db Sample.after_claim) Sample.after_claim H1 H2 H3 H4 H5).
Defined.

Lemma scheduled_task_is_found_by_name_witness :
  faults (Sample.world 100) = [] /\
  with_fingerprint (fingerprint (Sample.env false) (name Sample.notify_proxy) [] [])
    (pending (db (Sample.world 100))) = [] /\
  exists task w',
    DBTaskRunner_schedule (Sample.env false) Sample.runner (name Sample.notify_proxy) [] []
      (Some 10) 0 CHECK_EXISTING None None None None None false (Sample.world 100)
    = (Ok (Some task), w') /\
    attached_task (Sample.env false) Sample.notify_proxy None [] [] w' = Some task.
Proof.
  assert (H1 : faults (Sample.world 100) = []) by reflexivity.
  assert (H2 : with_fingerprint
                 (fingerprint (Sample.env false) (name Sample.notify_proxy) [] [])
                 (pending (db (Sample.world 100))) = []) by reflexivity.
  assert (H3 : truthy_queue (proxy_queue Sample.notify_proxy) = true ->
               proxy_queue Sample.notify_proxy = None) by (intros _; reflexivity).
  split; [exact H1|]. split; [exact H2|].
  destruct (scheduled_task_is_found_by_name (Sample.env false) Sample.runner
              Sample.notify_proxy [] [] 10 0 CHECK_EXISTING None None None None None
              (Sample.world 100) H1 H2 H3) as (task & w' & E & _ & Hfound).
  exists task, w'. split; [exact E|exact Hfound].
Defined.

Lemma scheduled_arguments_reach_the_function_witness :
  Sample.schedule_call SCHEDULE 10 0 (Sample.world 100)
  = (Ok (Some Cases.first_task), Sample.one_pending) /\
  round_trips (Sample.env false) [] [] /\
  task_function Sample.notify_proxy = Some Sample.notify /\
  forall v,
    bg_runner_try (Sample.env false) Sample.notify_proxy (Some Cases.first_task)
      [PStr "ignored"] [] v
    = (_ <-[ Some Cases.first_task ]- call Sample.notify [] [];; task_done Cases.first_task) v.
Proof.
  assert (H1 : Sample.schedule_call SCHEDULE 10 0 (Sample.world 100)
               = (Ok (Some Cases.first_task), Sample.one_pending))
    by (vm_compute; reflexivity).
  assert (H2 : round_trips (Sample.env false) [] []) by (vm_compute; reflexivity).
  assert (H3 : task_function Sample.notify_proxy = Some Sample.notify) by reflexivity.
  split; [exact H1|]. split; [exact H2|]. split; [exact H3|].
  destruct (scheduled_arguments_reach_the_function (Sample.env false) Sample.runner
              "app.tasks.notify" [] [] (Some 10) 0 SCHEDULE None None None None None false
              (Sample.world 100) Sample.one_pending Cases.first_task Sample.notify_proxy
              Sample.notify H1 H2 H3) as (_ & Hrun).
  intros v. exact (Hrun [PStr "ignored"] [] v).
Defined.

Lemma unit_call_inserts_one_task_witness :
  faults (Sample.world 100) = [] /\
  get_action (merge (create SchedNone) (schedule Sample.notify_proxy))
    <> RESCHEDULE_EXISTING /\
  get_action (merge (create SchedNone) (schedule Sample.notify_proxy)) <> CHECK_EXISTING /\
  (TaskProxy_call (Sample.env false) Sample.notify_proxy Sample.runner [] Sample.no_kwargs
     (Sample.world 100)).1
  = Ok (Some (mkTask (Some 1) "app.tasks.notify" (Sample.dumps [] [])
                Sample.notify_fingerprint None 0 60000100 None None None 0 None None None None)) /\
  TaskProxy_call (Sample.env false) Sample.notify_proxy Sample.runner []
    (Sample.with_schedule (SchedInt 1000000000000)) (Sample.world 100)
  = (Raise OverflowError, Sample.world 100).
Proof.
  assert (H1 : faults (Sample.world 100) = []) by reflexivity.
  assert (H2 : get_action (merge (create SchedNone) (schedule Sample.notify_proxy))
               <> RESCHEDULE_EXISTING) by discriminate.
  assert (H3 : get_action (merge (create SchedNone) (schedule Sample.notify_proxy))
               <> CHECK_EXISTING) by discriminate.
  assert (H4 : get_action (merge (create (SchedInt 1000000000000))
                             (schedule Sample.notify_proxy))
               <> RESCHEDULE_EXISTING) by discriminate.
  assert (H5 : get_action (merge (create (SchedInt 1000000000000))
                             (schedule Sample.notify_proxy))
               <> CHECK_EXISTING) by discriminate.
  split; [exact H1|]. split; [exact H2|]. split; [exact H3|]. split.
  - rewrite (unit_call_inserts_one_task (Sample.env false) Sample.notify_proxy
               Sample.runner [] Sample.no_kwargs (Sample.world 100) H1 H2 H3 eq_refl).
    vm_compute. reflexivity.
  - rewrite (unit_call_inserts_one_task (Sample.env false) Sample.notify_proxy
               Sample.runner [] (Sample.with_schedule (SchedInt 1000000000000))
               (Sample.world 100) H1 H4 H5 eq_refl).
    vm_compute. reflexivity.
Defined.

Lemma autodiscover_skips_ImportError_witness :
  (forall app, In app Cases.installed_apps ->
     forall e, Cases.import_module (tasks_module app) <> ImportFailed e) /\
  autodiscover Cases.installed_apps Cases.import_module
  = (["shop.tasks"; "blog.tasks"], Ok tt).
Proof.
  assert (H : forall app, In app Cases.installed_apps ->
                forall e, Cases.import_module (tasks_module app) <> ImportFailed e).
  { intros app Happ e. vm_compute in Happ.
    destruct Happ as [<-|[<-|[<-|[]]]]; vm_compute; discriminate. }
  split; [exact H|].
  exact (autodiscover_skips_ImportError Cases.installed_apps Cases.import_module H).
Defined.

Lemma autodiscover_stops_at_other_exceptions_witness :
  list_remove "report_builder" Cases.broken_apps = (["shop"] ++ "bad" :: ["blog"])%list /\
  Cases.import_module (tasks_module "bad") = ImportFailed (UserError "syntax") /\
  autodiscover Cases.broken_apps Cases.import_module
  = (["shop.tasks"; "bad.tasks"], Raise (UserError "syntax")).
Proof.
  assert (H1 : list_remove "report_builder" Cases.broken_apps
               = (["shop"] ++ "bad" :: ["blog"])%list) by reflexivity.
  assert (H2 : forall a, In a ["shop"] ->
                 forall e', Cases.import_module (tasks_module a) <> ImportFailed e').
  { intros a [<-|[]] e'. vm_compute. discriminate. }
  assert (H3 : Cases.import_module (tasks_module "bad") = ImportFailed (UserError "syntax"))
    by reflexivity.
  split; [exact H1|]. split; [exact H3|].
  exact (autodiscover_stops_at_other_exceptions Cases.broken_apps ["shop"] ["blog"] "bad"
           (UserError "syntax") Cases.import_module H1 H2 H3).
Defined.

Lemma autodiscover_never_imports_report_builder_witness :
  (count_occ String.string_dec Cases.installed_apps "report_builder" <= 1)%nat /\
  ~ In "report_builder.tasks" (autodiscover Cases.installed_apps Cases.import_module).1.
Proof.
  assert (H : (count_occ String.string_dec Cases.installed_apps "report_builder" <= 1)%nat)
    by (vm_compute; lia).
  split; [exact H|].
  exact (autodiscover_never_imports_report_builder Cases.installed_apps
           Cases.import_module H).
Defined.

Lemma reschedule_existing_rewrites_every_match_witness :
  faults Sample.two_pending = [] /\
  In Cases.first_task (pending (db Sample.two_pending)) /\
  existing_tasks (Sample.env false) (clock Sample.two_pending)
    (fingerprint (Sample.env false) "app.tasks.notify" [] []) None Cases.first_task = true /\
  exists w',
    DBTaskRunner_schedule (Sample.env false) Sample.runner "app.tasks.notify" [] []
      (Some 500) 7 RESCHEDULE_EXISTING None None None None None false Sample.two_pending
    = (Ok None, w') /\
    length (pending (db w')) = 2%nat /\
    forall x, In x (pending (db w')) ->
      existing_tasks (Sample.env false) (clock Sample.two_pending)
        (fingerprint (Sample.env false) "app.tasks.notify" [] []) None x = true ->
      run_at x = 500 /\ priority x = 7.
Proof.
  assert (H1 : faults Sample.two_pending = []) by (vm_compute; reflexivity).
  assert (H2 : In Cases.first_task (pending (db Sample.two_pending)))
    by (vm_compute; left; reflexivity).
  assert (H3 : existing_tasks (Sample.env false) (clock Sample.two_pending)
                 (fingerprint (Sample.env false) "app.tasks.notify" [] []) None
                 Cases.first_task = true) by (vm_compute; reflexivity).
  split; [exact H1|]. split; [exact H2|]. split; [exact H3|].
  destruct (reschedule_existing_rewrites_every_match (Sample.env false) Sample.runner
              "app.tasks.notify" [] [] 500 7 None None None None None Sample.two_pending
              Cases.first_task H1 H2 H3) as (w' & E & Hlen & Hall & _).
  exists w'. split; [exact E|]. split; [rewrite Hlen; vm_compute; reflexivity|exact Hall].
Defined.

Lemma poll_returns_true_whatever_the_outcome_witness :
  faults Sample.due = [] /\
  get_task_to_run (Sample.env false) Sample.runner Sample.tasks None Sample.due
  = (Ok (Some Sample.locked_task), Sample.after_claim) /\
  exists w',
    run_next_task (Sample.env false) Sample.runner Sample.tasks None Sample.due
    = (Ok true, w') /\
    faults w' = [] /\
    last (trace w') = Some task_finished.
Proof.
  assert (H1 : faults Sample.due = []) by (vm_compute; reflexivity).
  assert (H2 : BACKGROUND_TASK_RUN_ASYNC (Sample.env false) = false) by reflexivity.
  assert (H3 : forall n proxy f, _tasks Sample.tasks !! n = Some proxy ->
                 task_function proxy = Some f -> raises_only_Exceptions f).
  { intros n proxy f Hn Hf. unfold Sample.tasks, background in Hn. simpl in Hn.
    apply lookup_insert_Some in Hn as [[_ <-]|[_ Hn]];
      [|rewrite lookup_empty in Hn; discriminate].
    simpl in Hf. inversion Hf; subst. intros a k d e d' Hb. simpl in Hb. discriminate. }
  assert (H4 : get_task_to_run (Sample.env false) Sample.runner Sample.tasks None Sample.due
               = (Ok (Some Sample.locked_task), Sample.after_claim))
    by (vm_compute; reflexivity).
  split; [exact H1|]. split; [exact H4|].
  exact (poll_returns_true_whatever_the_outcome (Sample.env false) Sample.runner
           Sample.tasks None Sample.locked_task Sample.due Sample.after_claim H1 H2 H3 H4).
Defined.

Lemma poll_completes_a_successful_task_witness :
  faults Sample.due = [] /\
  get_task_to_run (Sample.env false) Sample.runner Sample.tasks None Sample.due
  = (Ok (Some Sample.locked_task), Sample.after_claim) /\
  _tasks Sample.tasks !! task_name Sample.locked_task = Some Sample.notify_proxy /\
  exists w',
    run_next_task (Sample.env false) Sample.runner Sample.tasks None Sample.due
    = (Ok true, w') /\
    (forall x, In x (pending (db w')) -> id x <> Some 1) /\
    archive (db w')
    = [mkCompletedTask (set_attempts 1 Sample.locked_task) 200000000 false].
Proof.
  assert (H1 : faults Sample.due = []) by (vm_compute; reflexivity).
  assert (H2 : BACKGROUND_TASK_RUN_ASYNC (Sample.env false) = false) by reflexivity.
  assert (H3 : get_task_to_run (Sample.env false) Sample.runner Sample.tasks None Sample.due
               = (Ok (Some Sample.locked_task), Sample.after_claim))
    by (vm_compute; reflexivity).
  assert (H4 : id Sample.locked_task = Some 1) by reflexivity.
  assert (H5 : _tasks Sample.tasks !! task_name Sample.locked_task
               = Some Sample.notify_proxy) by (vm_compute; reflexivity).
  assert (H6 : task_function Sample.notify_proxy = Some Sample.notify) by reflexivity.
  assert (H7 : loads (Sample.env false) (task_params Sample.locked_task) = Some ([], []))
    by (vm_compute; reflexivity).
  assert (H8 : fn_body Sample.notify [] [] (db Sample.after_claim)
               = (Ok PNone, db Sample.after_claim)) by reflexivity.
  split; [exact H1|]. split; [exact H3|]. split; [exact H5|].
  destruct (poll_completes_a_successful_task (Sample.env false) Sample.runner Sample.tasks
              None Sample.locked_task 1 Sample.notify_proxy Sample.notify [] [] PNone
              (db Sample.after_claim) Sample.due Sample.after_claim
              H1 H2 H3 H4 H5 H6 H7 H8) as (w' & E & Hgone & Harch).
  exists w'. split; [exact E|]. split; [exact Hgone|].
  rewrite Harch. vm_compute. reflexivity.
Defined.

Lemma async_poll_hands_the_task_to_the_pool_witness :
  BACKGROUND_TASK_RUN_ASYNC (Sample.env true) = true /\
  get_task_to_run (Sample.env true) Sample.runner Sample.tasks None Sample.due
  = (Ok (Some Sample.locked_task), Sample.after_claim) /\
  exists w',
    run_next_task (Sample.env true) Sample.runner Sample.tasks None Sample.due
    = (Ok true, w') /\
    db w' = db Sample.after_claim /\
    trace w' = (trace Sample.due ++ [log_info "Running" Sample.locked_task])%list /\
    pool w' = Some [mkJob Sample.notify_proxy (Some Sample.locked_task) [] []].
Proof.
  assert (H1 : BACKGROUND_TASK_RUN_ASYNC (Sample.env true) = true) by reflexivity.
  assert (H2 : get_task_to_run (Sample.env true) Sample.runner Sample.tasks None Sample.due
               = (Ok (Some Sample.locked_task), Sample.after_claim))
    by (vm_compute; reflexivity).
  split; [exact H1|]. split; [exact H2|].
  destruct (async_poll_hands_the_task_to_the_pool (Sample.env true) Sample.runner
              Sample.tasks None Sample.locked_task Sample.due Sample.after_claim H1 H2)
    as (proxy & w' & Hreg & E & Hdb & _ & Htr & Hpool).
  exists w'. split; [exact E|]. split; [exact Hdb|]. split; [exact Htr|].
  rewrite Hpool. vm_compute in Hreg. inversion Hreg. reflexivity.
Defined.

Lemma failed_schedule_changes_nothing_witness :
  Sample.schedule_call CHECK_EXISTING 20 1 (set_faults [false; true] (Sample.world 100))
  = (Raise OperationalError, Sample.world 100) /\
  db (Sample.schedule_call CHECK_EXISTING 20 1
        (set_faults [false; true] (Sample.world 100))).2
  = db (Sample.world 100).
Proof.
  assert (H : Sample.schedule_call CHECK_EXISTING 20 1
                (set_faults [false; true] (Sample.world 100))
              = (Raise OperationalError, Sample.world 100))
    by (vm_compute; reflexivity).
  split; [exact H|].
  destruct (failed_schedule_changes_nothing (Sample.env false) Sample.runner
              "app.tasks.notify" [] [] 20 1 CHECK_EXISTING None None None None None
              (set_faults [false; true] (Sample.world 100))
              (Sample.world 100) OperationalError H) as (_ & Hdb & _).
  rewrite H. exact Hdb.
Defined.

Lemma raising_run_sends_no_finished_signal_witness :
  (bg_runner (Sample.env false) Sample.broken_proxy (Some Sample.locked_task) [] []
     (set_faults [true] Sample.after_claim)).1 = Raise OperationalError /\
  exists rest,
    emitted (bg_runner (Sample.env false) Sample.broken_proxy (Some Sample.locked_task) [] [])
      (set_faults [true] Sample.after_claim) = task_started :: rest /\
    count_of is_finish rest = 0%nat.
Proof.
  assert (H : (bg_runner (Sample.env false) Sample.broken_proxy (Some Sample.locked_task)
                 [] [] (set_faults [true] Sample.after_claim)).1 = Raise OperationalError)
    by (vm_compute; reflexivity).
  split; [exact H|].
  exact (raising_run_sends_no_finished_signal (Sample.env false) Sample.broken_proxy
           (Some Sample.locked_task) [] [] (set_faults [true] Sample.after_claim)
           OperationalError H).
Defined.
